(** * n8n command-line tools: execution manager and workflow CRUD

    A shallow embedding of the two scripts
    [skills/n8n-expert/scripts/execution-manager.py] and
    [skills/n8n-expert/scripts/workflow-crud.py], and the properties of
    their formatters, report code, statistics, watch loop and HTTP client.

    Layout: the Python runtime the scripts rely on (binary64 arithmetic,
    strings, JSON values, exceptions, the process state), then the two
    scripts as modules, then the lemmas and theorems. *)

From Stdlib Require Import ZArith List String Ascii Bool Lia.
From Stdlib Require Import DecimalString Permutation Sorted.
From Stdlib Require Import Reals Lra Psatz Floats.
Import ListNotations.

Set Warnings "-register-all".
Local Open Scope Z_scope.

(* ================================================================= *)
(** ** Binary64 arithmetic *)

(** Python's [float] is IEEE-754 binary64.  A finite value is kept as an
    integer significand and a binary exponent, [Fnum * 2 ^ Fexp]; every
    operation computes its exact result as a fraction and rounds it to the
    nearest value with a 53-bit significand, ties to even, with the
    gradual underflow of the format below [2 ^ -1022].  The exponent is
    not bounded above: the quantities of these scripts (durations between
    two datetimes, percentages) stay below [2 ^ 60], far from the overflow
    threshold [2 ^ 1024]. *)
Module Binary64.

Record float := mkFloat { Fnum : Z; Fexp : Z }.

Definition emin : Z := -1074.

(** The fraction [n / d * 2 ^ e] as a numerator and a denominator. *)
Definition scale (n d e : Z) : Z * Z :=
  (n * 2 ^ Z.max 0 e, d * 2 ^ Z.max 0 (- e)).

(** Nearest integer to [n / d] for [0 <= n] and [0 < d], ties to even. *)
Definition rne (n d : Z) : Z :=
  let q := n / d in
  let r := n mod d in
  if 2 * r <? d then q
  else if d <? 2 * r then q + 1
  else if Z.even q then q else q + 1.

(** The exponent of the binade of [n / d], for [0 < n] and [0 < d]: the
    [e] with [2 ^ 52 <= n / d / 2 ^ e < 2 ^ 53], or [emin] in the
    subnormal range. *)
Definition exponent (n d : Z) : Z :=
  let e0 := Z.log2 n - Z.log2 d - 52 in
  let '(ns, ds) := scale n d (- e0) in
  Z.max emin (if ns <? 2 ^ 52 * ds then e0 - 1 else e0).

Definition round_pos (n d : Z) : float :=
  let e := exponent n d in
  let '(ns, ds) := scale n d (- e) in
  mkFloat (rne ns ds) e.

Definition Fopp (x : float) : float := mkFloat (- Fnum x) (Fexp x).

(** The binary64 value nearest to [n / d], for [0 < d]. *)
Definition round (n d : Z) : float :=
  if n =? 0 then mkFloat 0 0
  else if 0 <? n then round_pos n d
  else Fopp (round_pos (- n) d).

(** The binary64 value nearest to [n / d * 2 ^ e], for [d <> 0]. *)
Definition round_scaled (n d e : Z) : float :=
  let '(ns, ds) := scale (n * Z.sgn d) (Z.abs d) e in round ns ds.

(** Exact comparison of two values. *)
Definition Fcompare (x y : float) : comparison :=
  let e := Z.min (Fexp x) (Fexp y) in
  (Fnum x * 2 ^ (Fexp x - e) ?= Fnum y * 2 ^ (Fexp y - e)).

Definition Fltb (x y : float) : bool :=
  match Fcompare x y with Lt => true | _ => false end.
Definition Fleb (x y : float) : bool :=
  match Fcompare x y with Gt => false | _ => true end.
Definition Feqb (x y : float) : bool :=
  match Fcompare x y with Eq => true | _ => false end.

(** [float(z)] for a Python int, and the exact embedding of an integer
    (used where Python compares a float with an int: that comparison is
    exact). *)
Definition of_int (z : Z) : float := round z 1.
Definition exact_int (z : Z) : float := mkFloat z 0.

(** [a / b] on Python ints: the correctly rounded quotient. *)
Definition int_truediv (a b : Z) : float := round_scaled a b 0.

Definition Fmul (x y : float) : float :=
  round_scaled (Fnum x * Fnum y) 1 (Fexp x + Fexp y).

Definition Fadd (x y : float) : float :=
  let e := Z.min (Fexp x) (Fexp y) in
  round_scaled (Fnum x * 2 ^ (Fexp x - e) + Fnum y * 2 ^ (Fexp y - e)) 1 e.

Definition Fsub (x y : float) : float := Fadd x (Fopp y).

Definition Fdiv (x y : float) : float :=
  round_scaled (Fnum x) (Fnum y) (Fexp x - Fexp y).

(** [math.floor(x)] and [int(x)] (truncation towards zero). *)
Definition Ffloor (x : float) : Z :=
  if 0 <=? Fexp x then Fnum x * 2 ^ Fexp x else Fnum x / 2 ^ (- Fexp x).
Definition Ftrunc (x : float) : Z :=
  if 0 <=? Fexp x then Fnum x * 2 ^ Fexp x else Z.quot (Fnum x) (2 ^ (- Fexp x)).

(** C's [fmod x y]: the remainder of the truncated quotient, always
    exact. *)
Definition Ffmod (x y : float) : float :=
  let e := Z.min (Fexp x) (Fexp y) in
  mkFloat (Z.rem (Fnum x * 2 ^ (Fexp x - e)) (Fnum y * 2 ^ (Fexp y - e))) e.

Definition Fis_zero (x : float) : bool := Fnum x =? 0.
Definition Fneg (x : float) : bool := Fnum x <? 0.

(** CPython's [float_divmod], for a divisor [y <> 0]: the pair
    [(x // y, x % y)]. *)
Definition float_divmod (x y : float) : float * float :=
  let md := Ffmod x y in
  let dv := Fdiv (Fsub x md) y in
  let '(md, dv) :=
    if Fis_zero md then (md, dv)
    else if negb (Bool.eqb (Fneg y) (Fneg md))
         then (Fadd md y, Fsub dv (exact_int 1))
         else (md, dv) in
  let fl :=
    if Fis_zero dv then dv
    else let f := exact_int (Ffloor dv) in
         if Fltb (mkFloat 1 (-1)) (Fsub dv f) then Fadd f (exact_int 1) else f in
  (fl, md).

Definition Ffloordiv (x y : float) : float := fst (float_divmod x y).
Definition Frem (x y : float) : float := snd (float_divmod x y).

(** The primitive binary64 value of a model value with a significand
    below [2 ^ 63] in magnitude, to check the model against the kernel's
    floats. *)
Definition to_prim (x : float) : PrimFloat.float :=
  let m := PrimFloat.of_uint63 (Uint63.of_Z (Z.abs (Fnum x))) in
  let v := Z.ldexp m (Fexp x) in
  if Fnum x <? 0 then PrimFloat.opp v else v.

End Binary64.

(* ================================================================= *)
(** ** Strings *)

(** A Python [str] is kept as the [string] of its UTF-8 bytes.  The
    lexicographic order of the bytes is the order of the code points,
    which is Python's order on [str]; lengths, slices and padding agree
    with Python's on ASCII text, which is what the ids, statuses and
    timestamps of the API are. *)
Module Str.

Local Open Scope string_scope.

(** [str(z)] for an int. *)
Definition of_Z (z : Z) : string := NilZero.string_of_int (Z.to_int z).

Fixpoint of_list (l : list ascii) : string :=
  match l with
  | [] => EmptyString
  | c :: l' => String c (of_list l')
  end.

Fixpoint repeat_char (c : ascii) (n : nat) : string :=
  match n with
  | O => EmptyString
  | S n' => String c (repeat_char c n')
  end.

(** [s.replace(c, by)] for a one-character [c]. *)
Fixpoint replace_char (c : ascii) (by_ : string) (s : string) : string :=
  match s with
  | EmptyString => EmptyString
  | String a s' =>
      if Ascii.eqb a c then by_ ++ replace_char c by_ s'
      else String a (replace_char c by_ s')
  end.

(** [s[:n]]. *)
Fixpoint take (n : nat) (s : string) : string :=
  match n, s with
  | S n', String a s' => String a (take n' s')
  | _, _ => EmptyString
  end.

(** [s.rstrip(c)]. *)
Fixpoint rstrip_char (c : ascii) (s : string) : string :=
  match s with
  | EmptyString => EmptyString
  | String a s' =>
      match rstrip_char c s' with
      | EmptyString => if Ascii.eqb a c then EmptyString else String a EmptyString
      | t => String a t
      end
  end.

(** [format(s, '<w')]: left-aligned in a field of [w] characters. *)
Definition ljust (w : nat) (s : string) : string :=
  s ++ repeat_char " " (w - String.length s).

(** [format(s, '0>w')]: zero-padded on the left. *)
Definition zfill (w : nat) (s : string) : string :=
  repeat_char "0" (w - String.length s) ++ s.

(** [sep.join(l)]. *)
Definition join (sep : string) (l : list string) : string := String.concat sep l.

(** [sub in s]. *)
Definition contains (sub s : string) : bool :=
  match String.index 0 sub s with Some _ => true | None => false end.

Definition is_empty (s : string) : bool :=
  match s with EmptyString => true | _ => false end.

(** The line feed. *)
Definition nl : string := String (ascii_of_nat 10) EmptyString.

Fixpoint repeat_string (s : string) (n : nat) : string :=
  match n with
  | O => EmptyString
  | S n' => s ++ repeat_string s n'
  end.

(** [format(s, '>w')]: right-aligned in a field of [w] characters. *)
Definition rjust (w : nat) (s : string) : string :=
  repeat_char " " (w - String.length s) ++ s.

(** [s.lower()] on the ASCII letters; the other characters are kept as
    they are.  The scripts only compare the result with the letter [y],
    which is the lower case of [Y] and [y] alone. *)
Definition lower_char (c : ascii) : ascii :=
  let n := nat_of_ascii c in
  if Nat.leb 65 n && Nat.leb n 90 then ascii_of_nat (n + 32) else c.

Fixpoint lower (s : string) : string :=
  match s with
  | EmptyString => EmptyString
  | String c s' => String (lower_char c) (lower s')
  end.

End Str.

(* ================================================================= *)
(** ** Formatting a float *)

Module Fmt.
Import Binary64.
Local Open Scope string_scope.

(** [format(x, '.pf')]: the decimal with [p] digits after the point that
    is nearest to the exact value of [x], ties to even. *)
Definition fixed (p : nat) (x : float) : string :=
  let '(n, d) := scale (Z.abs (Fnum x) * 10 ^ Z.of_nat p) 1 (Fexp x) in
  let t := rne n d in
  let ip := Str.of_Z (t / 10 ^ Z.of_nat p) in
  let sign := if (Fnum x <? 0)%Z then "-" else "" in
  match p with
  | O => sign ++ ip
  | _ => sign ++ ip ++ "." ++ Str.zfill p (Str.of_Z (t mod 10 ^ Z.of_nat p))
  end.

End Fmt.

(* ================================================================= *)
(** ** Python values, exceptions and the process state *)

Module Py.

Local Open Scope string_scope.

(** A decoded JSON document: [None], a bool, an int, a str, a list or a
    dict.  A dict keeps its items in insertion order, one item per key.
    The numbers of the n8n API that the scripts read (ids, counts,
    milliseconds) are integers. *)
Inductive value : Type :=
| VNone
| VBool (b : bool)
| VInt (z : Z)
| VStr (s : string)
| VList (l : list value)
| VDict (d : list (string * value)).

Record response : Type := mkResponse {
  status_code : Z;
  reason : string;
  text : string
}.

(** The exceptions the scripts can meet.  [RequestException] stands for
    the whole [requests.exceptions] family: it carries the message
    [str(e)] and the response [e.response], when there is one. *)
Inductive exn : Type :=
| KeyError
| TypeError
| AttributeError
| IndexError
| ValueError
| ZeroDivisionError
| RequestException (msg : string) (resp : option response)
| SystemExit (code : Z).

(** [except Exception] catches everything but [SystemExit]. *)
Definition is_Exception (e : exn) : bool :=
  match e with SystemExit _ => false | _ => true end.

Inductive result (A : Type) : Type :=
| Ok (a : A)
| Raise (e : exn).
Arguments Ok {A} a.
Arguments Raise {A} e.

Definition rbind {A B} (r : result A) (k : A -> result B) : result B :=
  match r with Ok a => k a | Raise e => Raise e end.

Declare Scope result_scope.
Delimit Scope result_scope with result.
Notation "x <- c ;; k" := (rbind c (fun x => k))
  (at level 61, c at next level, right associativity) : result_scope.

(** *** Dicts *)

Fixpoint lookup (k : string) (d : list (string * value)) : option value :=
  match d with
  | [] => None
  | (k', v) :: d' => if String.eqb k k' then Some v else lookup k d'
  end.

Definition keys (d : list (string * value)) : list string := map fst d.

(** [bool(v)]. *)
Definition truthy (v : value) : bool :=
  match v with
  | VNone => false
  | VBool b => b
  | VInt z => negb (z =? 0)%Z
  | VStr s => negb (Str.is_empty s)
  | VList l => match l with [] => false | _ => true end
  | VDict d => match d with [] => false | _ => true end
  end.

(** [v.get(k, default)]: only a dict has the method. *)
Definition get (v : value) (k : string) (default : value) : result value :=
  match v with
  | VDict d => Ok (match lookup k d with Some x => x | None => default end)
  | _ => Raise AttributeError
  end.

(** [v[k]] for a string key. *)
Definition getitem (v : value) (k : string) : result value :=
  match v with
  | VDict d => match lookup k d with Some x => Ok x | None => Raise KeyError end
  | _ => Raise TypeError
  end.

(** [v[0]]. *)
Definition first (v : value) : result value :=
  match v with
  | VList (x :: _) => Ok x
  | VList [] => Raise IndexError
  | VStr (String c _) => Ok (VStr (String c EmptyString))
  | VStr EmptyString => Raise IndexError
  | VDict _ => Raise KeyError
  | _ => Raise TypeError
  end.

Fixpoint chars (s : string) : list value :=
  match s with
  | EmptyString => []
  | String c s' => VStr (String c EmptyString) :: chars s'
  end.

(** [len(v)]. *)
Definition len (v : value) : result Z :=
  match v with
  | VList l => Ok (Z.of_nat (List.length l))
  | VStr s => Ok (Z.of_nat (String.length s))
  | VDict d => Ok (Z.of_nat (List.length d))
  | _ => Raise TypeError
  end.

(** The items [for x in v] visits. *)
Definition iter (v : value) : result (list value) :=
  match v with
  | VList l => Ok l
  | VStr s => Ok (chars s)
  | VDict d => Ok (map VStr (keys d))
  | _ => Raise TypeError
  end.

(** The items [for x in reversed(v)] visits. *)
Definition reversed (v : value) : result (list value) :=
  match v with
  | VList l => Ok (rev l)
  | VStr s => Ok (rev (chars s))
  | VDict d => Ok (rev (map VStr (keys d)))
  | _ => Raise TypeError
  end.

Definition is_str (k : string) (v : value) : bool :=
  match v with VStr s => String.eqb s k | _ => false end.

(** [k in v] for a string [k]. *)
Definition contains (k : string) (v : value) : result bool :=
  match v with
  | VDict d => Ok (match lookup k d with Some _ => true | None => false end)
  | VList l => Ok (existsb (is_str k) l)
  | VStr s => Ok (Str.contains k s)
  | _ => Raise TypeError
  end.

(** Lists and dicts cannot be hashed: they are no dict key and no set
    member. *)
Definition hashable (v : value) : bool :=
  match v with VList _ | VDict _ => false | _ => true end.

(** [a == b] on hashable values: a bool equals the int 0 or 1. *)
Definition eqb (a b : value) : bool :=
  match a, b with
  | VNone, VNone => true
  | VStr s, VStr t => String.eqb s t
  | VInt x, VInt y => (x =? y)%Z
  | VBool x, VBool y => Bool.eqb x y
  | VBool x, VInt y | VInt y, VBool x => (y =? (if x then 1 else 0))%Z
  | _, _ => false
  end.

(** [v in s] for a set [s], kept as the list of its members. *)
Definition set_mem (v : value) (s : list value) : result bool :=
  if hashable v then Ok (existsb (eqb v) s) else Raise TypeError.

(** [d.get(k, default)] for a dict literal [d] with string keys and a
    key [k] that is any value. *)
Definition table_get (d : list (string * string)) (k : value) (default : string)
  : result string :=
  if hashable k then
    Ok (match k with
        | VStr s =>
            match find (fun kv => String.eqb s (fst kv)) d with
            | Some kv => snd kv
            | None => default
            end
        | _ => default
        end)
  else Raise TypeError.

(** [a < b], as [sorted] asks it of two dict keys. *)
Definition lt (a b : value) : result bool :=
  match a, b with
  | VStr s, VStr t => Ok (String.ltb s t)
  | VInt x, VInt y => Ok (x <? y)%Z
  | VBool x, VInt y => Ok ((if x then 1 else 0) <? y)%Z
  | VInt x, VBool y => Ok (x <? (if y then 1 else 0))%Z
  | VBool x, VBool y => Ok (negb x && y)
  | _, _ => Raise TypeError
  end.

(** [v[:n]]: a str and a list can be sliced. *)
Definition slice_to (n : nat) (v : value) : result value :=
  match v with
  | VStr s => Ok (VStr (Str.take n s))
  | VList l => Ok (VList (firstn n l))
  | _ => Raise TypeError
  end.

(** [v.replace(c, by)]: a method of str. *)
Definition replace (c : ascii) (by_ : string) (v : value) : result value :=
  match v with
  | VStr s => Ok (VStr (Str.replace_char c by_ s))
  | _ => Raise AttributeError
  end.

End Py.

(* ================================================================= *)
(** ** Datetimes *)

Module Datetime.
Import Py.

(** A [datetime]: the microseconds of its wall-clock reading counted from
    0001-01-01T00:00:00, and its UTC offset in microseconds when it is
    aware ([None] for a naive datetime). *)
Record datetime : Type := mkDatetime {
  wall_us : Z;
  utcoffset : option Z
}.



(** [b - a] as a [timedelta], in microseconds: two naive readings are
    subtracted as they are, two aware ones after conversion to UTC, and a
    naive and an aware one cannot be subtracted. *)
Definition sub (b a : datetime) : result Z :=
  match utcoffset b, utcoffset a with
  | None, None => Ok (wall_us b - wall_us a)
  | Some ob, Some oa => Ok ((wall_us b - ob) - (wall_us a - oa))
  | _, _ => Raise TypeError
  end.

(** [timedelta.total_seconds()]: the microseconds over [10 ** 6], a true
    division of two ints. *)
Definition total_seconds (us : Z) : Binary64.float :=
  Binary64.int_truediv us (10 ^ 6).

End Datetime.

(* ================================================================= *)
(** ** The interpreter, the libraries and the network *)

Module Sys.
Import Py.
Local Open Scope string_scope.

Record request : Type := mkRequest {
  rq_method : string;
  rq_url : string;
  rq_headers : list (string * string);
  rq_json : option value;
  rq_timeout : Z
}.

(** What the network gives back for a request: no response at all (a
    connection error or a timeout, with the exception's message), or a
    response. *)
Inductive reply : Type :=
| NoResponse (msg : string)
| Answered (r : response).

(** What the scripts take from outside: the datetime parser, [repr] of a
    list or a dict, the JSON encoder and decoder, the network with the
    server behind it (its reply may depend on the requests sent before),
    and the clock ([strftime('%H:%M:%S')] of its n-th reading). *)
Class Runtime : Type := {
  fromisoformat : string -> option Datetime.datetime;
  repr : value -> string;
  json_dumps : Z -> value -> string;
  json_loads : string -> value + string;
  http : list request -> request -> reply;
  clock_hms : nat -> string
}.

(** The state of one invocation: the requests sent so far, what was
    printed on the two streams (one entry per [print]), and how many
    times the clock was read. *)
Record world : Type := mkWorld {
  sent : list request;
  stdout : list string;
  stderr : list string;
  ticks : nat
}.

Definition world0 : world := mkWorld [] [] [] 0.

(** A command: it ends with a value or an exception, in a new state. *)
Definition M (A : Type) : Type := world -> result A * world.

Definition ret {A} (a : A) : M A := fun w => (Ok a, w).
Definition raise {A} (e : exn) : M A := fun w => (Raise e, w).
Definition bind {A B} (c : M A) (k : A -> M B) : M B :=
  fun w => match c w with
           | (Ok a, w') => k a w'
           | (Raise e, w') => (Raise e, w')
           end.
Definition lift {A} (r : result A) : M A := fun w => (r, w).

Declare Scope cmd_scope.
Delimit Scope cmd_scope with cmd.
Notation "x <- c ;; k" := (bind c (fun x => k))
  (at level 61, c at next level, right associativity) : cmd_scope.
Notation "c ;;; k" := (bind c (fun _ => k))
  (at level 61, right associativity) : cmd_scope.

(** [try: c except <handles>: h]. *)
Definition try_except {A} (c : M A) (handles : exn -> bool) (h : exn -> M A) : M A :=
  fun w => match c w with
           | (Raise e, w') => if handles e then h e w' else (Raise e, w')
           | r => r
           end.

Definition print (s : string) : M unit :=
  fun w => (Ok tt, mkWorld (sent w) (stdout w ++ [s]) (stderr w) (ticks w)).
Definition eprint (s : string) : M unit :=
  fun w => (Ok tt, mkWorld (sent w) (stdout w) (stderr w ++ [s]) (ticks w)).
Definition exit {A} (code : Z) : M A := raise (SystemExit code).

Fixpoint for_each {A} (l : list A) (body : A -> M unit) : M unit :=
  match l with
  | [] => ret tt
  | x :: l' => bind (body x) (fun _ => for_each l' body)
  end.

Section WithRuntime.
Context {rt : Runtime}.

(** [str(v)], as an f-string field without a format spec renders it. *)
Definition str (v : value) : string :=
  match v with
  | VNone => "None"
  | VBool b => if b then "True" else "False"
  | VInt z => Str.of_Z z
  | VStr s => s
  | _ => repr v
  end.

(** [format(v, '<w')]: an int is printed in decimal, a bool as the int it
    is, and [None], a list or a dict take no format spec. *)
Definition format_left (w : nat) (v : value) : result string :=
  match v with
  | VStr s => Ok (Str.ljust w s)
  | VInt z => Ok (Str.ljust w (Str.of_Z z))
  | VBool b => Ok (Str.ljust w (if b then "1" else "0"))
  | _ => Raise TypeError
  end.

(** [datetime.now().strftime('%H:%M:%S')]. *)
Definition now_hms : M string :=
  fun w => (Ok (clock_hms (ticks w)),
            mkWorld (sent w) (stdout w) (stderr w) (S (ticks w))).

(** [requests.request(...)]: the request goes out, and a missing response
    is an exception. *)
Definition send (rq : request) : M response :=
  fun w =>
    let w' := mkWorld (sent w ++ [rq]) (stdout w) (stderr w) (ticks w) in
    match http (sent w) rq with
    | NoResponse msg => (Raise (RequestException msg None), w')
    | Answered r => (Ok r, w')
    end.

Definition is_error_status (c : Z) : bool := (400 <=? c)%Z && (c <? 600)%Z.

Definition http_error_msg (r : response) (url : string) : string :=
  Str.of_Z (status_code r)
  ++ (if (status_code r <? 500)%Z then " Client Error: " else " Server Error: ")
  ++ reason r ++ " for url: " ++ url.

(** [response.raise_for_status()]. *)
Definition raise_for_status (url : string) (r : response) : M unit :=
  if is_error_status (status_code r)
  then raise (RequestException (http_error_msg r url) (Some r))
  else ret tt.

(** [response.json()]: a body that is no JSON raises
    [requests.exceptions.JSONDecodeError], one of the request
    exceptions, with no response attached. *)
Definition response_json (r : response) : result value :=
  match json_loads (text r) with
  | inl v => Ok v
  | inr msg => Raise (RequestException msg None)
  end.

(** [format(v, 'w')], a width with no alignment: a str goes to the
    left, an int (and a bool, as the int it is) to the right. *)
Definition format_default (w : nat) (v : value) : result string :=
  match v with
  | VStr s => Ok (Str.ljust w s)
  | VInt z => Ok (Str.rjust w (Str.of_Z z))
  | VBool b => Ok (Str.rjust w (if b then "1" else "0"))
  | _ => Raise TypeError
  end.

(** [input(prompt)]: the prompt is written on standard output, and the
    line the user types, [answer], is returned. *)
Definition input (prompt answer : string) : M string :=
  fun w => (Ok answer, mkWorld (sent w) (stdout w ++ [prompt]) (stderr w) (ticks w)).

End WithRuntime.

End Sys.

(* ================================================================= *)
(** ** execution-manager.py *)

Module ExecutionManager.
Import Py Sys Binary64.
Local Open Scope string_scope.

Record manager : Type := mkManager {
  base_url : string;
  headers : list (string * string)
}.

(** [ExecutionManager.__init__]. *)
Definition init (url api_key : string) : manager :=
  mkManager (Str.rstrip_char "/" url)
            [("X-N8N-API-KEY", api_key); ("Content-Type", "application/json")].

(** [format_timestamp]. *)
Definition format_timestamp (ts : value) : result string :=
  if negb (truthy ts) then Ok "N/A"
  else match ts with
       | VStr s => Ok (Str.replace_char "T" " " (Str.take 19 s))
       | VList _ => Raise AttributeError
       | _ => Raise TypeError
       end.

Section WithRuntime.
Context {rt : Runtime}.

(** [ExecutionManager._get]. *)
Definition _get (m : manager) (endpoint : string) : M value :=
  (let url := base_url m ++ endpoint in
   response <- send (mkRequest "GET" url (headers m) None 30) ;;
   raise_for_status url response ;;;
   lift (response_json response))%cmd.

(** [bool(s)] of an optional argument of the command line. *)
Definition given (o : option string) : bool :=
  match o with Some s => negb (Str.is_empty s) | None => false end.

Definition opt_str (o : option string) : string :=
  match o with Some s => s | None => "None" end.

(** [ExecutionManager.list_executions]. *)
Definition list_executions (m : manager)
    (workflow_id status : option string) (limit : Z) : M value :=
  (let params := List.app ["limit=" ++ Str.of_Z limit]
       (List.app
          (if given workflow_id then ["workflowId=" ++ opt_str workflow_id] else [])
          (if given status then ["status=" ++ opt_str status] else [])) in
   let query := Str.join "&" params in
   result <- _get m ("/api/v1/executions?" ++ query) ;;
   lift (get result "data" (VList [])))%cmd.

(** [ExecutionManager.get_execution]. *)
Definition get_execution (m : manager) (execution_id : string) : M value :=
  _get m ("/api/v1/executions/" ++ execution_id ++ "?includeData=true").

(** [ExecutionManager.get_workflow]. *)
Definition get_workflow (m : manager) (workflow_id : value) : M value :=
  _get m ("/api/v1/workflows/" ++ str workflow_id).

(** [datetime.fromisoformat(s.replace('Z', '+00:00'))], for whatever
    value [s] is. *)
Definition parse_timestamp (v : value) : result Datetime.datetime :=
  match v with
  | VStr s =>
      match fromisoformat (Str.replace_char "Z" "+00:00" s) with
      | Some d => Ok d
      | None => Raise ValueError
      end
  | _ => Raise AttributeError
  end.

(** The three tiers of [format_duration], on the microseconds of the
    difference. *)
Definition render_duration (us : Z) : string :=
  let total_seconds := Datetime.total_seconds us in
  if Fltb total_seconds (exact_int 1) then
    Str.of_Z (Ftrunc (Fmul total_seconds (of_int 1000))) ++ "ms"
  else if Fltb total_seconds (exact_int 60) then
    Fmt.fixed 1 total_seconds ++ "s"
  else
    let minutes := Ftrunc (Ffloordiv total_seconds (of_int 60)) in
    let seconds := Ftrunc (Frem total_seconds (of_int 60)) in
    Str.of_Z minutes ++ "m " ++ Str.of_Z seconds ++ "s".

(** [format_duration]: the body of the [try] is a computation that may
    raise, and [except Exception] turns whatever it raises into the
    placeholder. *)
Definition format_duration (start stop : value) : string :=
  if negb (truthy start) || negb (truthy stop) then "N/A"
  else
    match (start_dt <- parse_timestamp start ;;
           stop_dt <- parse_timestamp stop ;;
           duration <- Datetime.sub stop_dt start_dt ;;
           Ok (render_duration duration))%result
    with
    | Ok s => s
    | Raise _ => "N/A"
    end.

Definition status_icons : list (string * string) :=
  [("success", "✓"); ("error", "✗"); ("waiting", "⏳"); ("running", "▶");
   ("unknown", "?")].

(** One row of [cmd_list]: the argument of the [print] in the loop. *)
Definition list_row (ex : value) : result string :=
  (status <- get ex "status" (VStr "unknown") ;;
   icon <- table_get status_icons status "?" ;;
   started <- get ex "startedAt" VNone ;;
   stopped <- get ex "stoppedAt" VNone ;;
   let duration := format_duration started stopped in
   id <- getitem ex "id" ;;
   f_id <- format_left 10 id ;;
   f_status <- format_left 8 status ;;
   wf <- get ex "workflowId" (VStr "N/A") ;;
   f_wf <- format_left 10 wf ;;
   started' <- get ex "startedAt" VNone ;;
   ts <- format_timestamp started' ;;
   Ok (f_id ++ " " ++ icon ++ " " ++ f_status ++ " " ++ f_wf ++ " "
       ++ Str.ljust 20 ts ++ " " ++ Str.ljust 10 duration))%result.

Record list_args : Type := mkListArgs {
  la_workflow_id : option string;
  la_status : option string;
  la_limit : Z
}.

(** [cmd_list]. *)
Definition cmd_list (m : manager) (args : list_args) : M unit :=
  (executions <- list_executions m (la_workflow_id args) (la_status args)
                                 (la_limit args) ;;
   print (Str.ljust 10 "ID" ++ " " ++ Str.ljust 10 "Status" ++ " "
          ++ Str.ljust 10 "Workflow" ++ " " ++ Str.ljust 20 "Started" ++ " "
          ++ Str.ljust 10 "Duration") ;;;
   print (Str.repeat_string "-" 70) ;;;
   rows <- lift (iter executions) ;;
   for_each rows (fun ex => row <- lift (list_row ex) ;; print row) ;;;
   n <- lift (len executions) ;;
   print (Str.nl ++ "Total: " ++ Str.of_Z n ++ " executions"))%cmd.

(** *** [cmd_debug] *)

Record debug_args : Type := mkDebugArgs {
  da_id : string;
  da_verbose : bool
}.

(** [execution.get('data', {}).get('resultData', {}).get(k, default)]. *)
Definition result_data (execution : value) (k : string) (default : value)
  : result value :=
  (data <- get execution "data" (VDict []) ;;
   rd <- get data "resultData" (VDict []) ;;
   get rd k default)%result.

(** [v.items()]. *)
Definition items (v : value) : result (list (string * value)) :=
  match v with VDict d => Ok d | _ => Raise AttributeError end.

Definition node_entry : Type := (string * value * value)%type.
Definition entry_name (e : node_entry) : string := fst (fst e).

(** The loop that fills [node_times]: the first attempt of every node
    that has one, with its execution time. *)
Fixpoint node_times (run_items : list (string * value)) : result (list node_entry) :=
  match run_items with
  | [] => Ok []
  | (node_name, node_data) :: rest =>
      if truthy node_data then
        (attempt <- first node_data ;;
         exec_time <- get attempt "executionTime" (VInt 0) ;;
         tl <- node_times rest ;;
         Ok ((node_name, exec_time, attempt) :: tl))%result
      else node_times rest
  end.

(** [node_times.sort(key=lambda x: x[0])]: a stable sort on the node
    name. *)
Fixpoint insert_by_name (x : node_entry) (l : list node_entry) : list node_entry :=
  match l with
  | [] => [x]
  | y :: l' =>
      if String.ltb (entry_name y) (entry_name x)
      then y :: insert_by_name x l'
      else x :: y :: l'
  end.

Definition sort_by_name (l : list node_entry) : list node_entry :=
  fold_right insert_by_name [] l.

(** [items_out] of one attempt: the lengths of its non-empty branches,
    added up. *)
Fixpoint count_branches (branches : list value) (items_out : Z) : result Z :=
  match branches with
  | [] => Ok items_out
  | branch :: rest =>
      if truthy branch then
        (n <- len branch ;; count_branches rest (items_out + n))%result
      else count_branches rest items_out
  end.

Definition items_out (data : value) : result Z :=
  (d <- get data "data" (VDict []) ;;
   main <- get d "main" VNone ;;
   if truthy main then
     d' <- getitem data "data" ;;
     main' <- getitem d' "main" ;;
     branches <- iter main' ;;
     count_branches branches 0
   else Ok 0)%result.

(** The verbose sample lines of one attempt, branch by branch. *)
Fixpoint print_samples (i : Z) (branches : list value) : M unit :=
  match branches with
  | [] => ret tt
  | branch :: rest =>
      ((if truthy branch then
          n <- lift (len branch) ;;
          if (0 <? n)%Z then
            item <- lift (first branch) ;;
            js <- lift (get item "json" (VDict [])) ;;
            print ("   Output[" ++ Str.of_Z i ++ "] sample: "
                   ++ Str.take 200 (json_dumps 6 js) ++ "...")
          else ret tt
        else ret tt) ;;;
       print_samples (i + 1) rest)%cmd
  end.

(** The body of the loop over the sorted [node_times]. *)
Definition report_node (verbose : bool) (e : node_entry) : M unit :=
  (let '(node_name, exec_time, data) := e in
   failed <- lift (contains "error" data) ;;
   let status := if failed then "✗" else "✓" in
   n <- lift (items_out data) ;;
   print (Str.nl ++ status ++ " " ++ node_name) ;;;
   print ("   Execution time: " ++ str exec_time ++ "ms") ;;;
   print ("   Items output: " ++ Str.of_Z n) ;;;
   (if failed then
      err <- lift (getitem data "error") ;;
      msg <- lift (get err "message" err) ;;
      print ("   ERROR: " ++ str msg)
    else ret tt) ;;;
   (if verbose then
      d <- lift (get data "data" (VDict [])) ;;
      main <- lift (get d "main" VNone) ;;
      if truthy main then
        d' <- lift (getitem data "data") ;;
        main' <- lift (getitem d' "main") ;;
        branches <- lift (iter main') ;;
        print_samples 0 branches
      else ret tt
    else ret tt))%cmd.

(** The node section of the report. *)
Definition report_nodes (verbose : bool) (run_data : value) : M unit :=
  (if truthy run_data then
     print (Str.nl ++ Str.repeat_string "-" 40) ;;;
     print "NODE EXECUTION DETAILS" ;;;
     print (Str.repeat_string "-" 40) ;;;
     run_items <- lift (items run_data) ;;
     times <- lift (node_times run_items) ;;
     for_each (sort_by_name times) (report_node verbose)
   else ret tt)%cmd.

(** The error section of the report. *)
Definition report_error (verbose : bool) (error : value) : M unit :=
  (if truthy error then
     print (Str.nl ++ Str.repeat_string "=" 40) ;;;
     print "ERROR DETAILS" ;;;
     print (Str.repeat_string "=" 40) ;;;
     msg <- lift (get error "message" (VStr (str error))) ;;
     print ("Message: " ++ str msg) ;;;
     node <- lift (get error "node" (VStr "N/A")) ;;
     print ("Node: " ++ str node) ;;;
     descr <- lift (get error "description" VNone) ;;
     (if truthy descr then
        descr' <- lift (getitem error "description") ;;
        print ("Description: " ++ str descr')
      else ret tt) ;;;
     stack <- lift (get error "stack" VNone) ;;
     if truthy stack && verbose then
       stack' <- lift (getitem error "stack") ;;
       print (Str.nl ++ "Stack trace:" ++ Str.nl ++ str stack')
     else ret tt
   else ret tt)%cmd.

(** [cmd_debug]. *)
Definition cmd_debug (m : manager) (args : debug_args) : M unit :=
  (execution <- get_execution m (da_id args) ;;
   print (Str.repeat_string "=" 80) ;;;
   id <- lift (getitem execution "id") ;;
   print ("EXECUTION DEBUG: " ++ str id) ;;;
   print (Str.repeat_string "=" 80) ;;;
   wf <- lift (get execution "workflowId" VNone) ;;
   print (Str.nl ++ "Workflow ID: " ++ str wf) ;;;
   status <- lift (get execution "status" VNone) ;;
   print ("Status:      " ++ str status) ;;;
   mode <- lift (get execution "mode" VNone) ;;
   print ("Mode:        " ++ str mode) ;;;
   started <- lift (get execution "startedAt" VNone) ;;
   started_s <- lift (format_timestamp started) ;;
   print ("Started:     " ++ started_s) ;;;
   stopped <- lift (get execution "stoppedAt" VNone) ;;
   stopped_s <- lift (format_timestamp stopped) ;;
   print ("Stopped:     " ++ stopped_s) ;;;
   print ("Duration:    " ++ format_duration started stopped) ;;;
   try_except
     (workflow <- get_workflow m wf ;;
      name <- lift (get workflow "name" VNone) ;;
      print ("Workflow:    " ++ str name))
     is_Exception (fun _ => ret tt) ;;;
   run_data <- lift (result_data execution "runData" (VDict [])) ;;
   report_nodes (da_verbose args) run_data ;;;
   last_node <- lift (result_data execution "lastNodeExecuted" VNone) ;;
   (if truthy last_node then print (Str.nl ++ "Last node executed: " ++ str last_node)
    else ret tt) ;;;
   error <- lift (result_data execution "error" VNone) ;;
   report_error (da_verbose args) error)%cmd.

(** *** [cmd_stats] *)

(** [a / b] on ints and [x / y] on floats: a zero divisor raises. *)
Definition int_div (a b : Z) : result float :=
  if (b =? 0)%Z then Raise ZeroDivisionError else Ok (int_truediv a b).
Definition float_div (x y : float) : result float :=
  if Fis_zero y then Raise ZeroDivisionError else Ok (Fdiv x y).

(** [status_counts]: a dict from status to count, in insertion order. *)
Definition counts : Type := list (value * Z).

Fixpoint counts_get (c : counts) (k : value) (default : Z) : Z :=
  match c with
  | [] => default
  | (k', n) :: c' => if Py.eqb k k' then n else counts_get c' k default
  end.

Fixpoint counts_set (c : counts) (k : value) (n : Z) : counts :=
  match c with
  | [] => [(k, n)]
  | (k', n') :: c' =>
      if Py.eqb k k' then (k', n) :: c' else (k', n') :: counts_set c' k n
  end.

(** [status_counts[status] = status_counts.get(status, 0) + 1]. *)
Definition count_status (c : counts) (status : value) : result counts :=
  if hashable status then Ok (counts_set c status (counts_get c status 0 + 1))
  else Raise TypeError.

Record tally : Type := mkTally {
  status_counts : counts;
  total_duration : float;
  count_with_duration : Z
}.

(** The body of the loop over the executions. *)
Definition tally_one (t : tally) (ex : value) : result tally :=
  (status <- get ex "status" (VStr "unknown") ;;
   c <- count_status (status_counts t) status ;;
   started <- get ex "startedAt" VNone ;;
   stopped <- get ex "stoppedAt" VNone ;;
   if truthy started && truthy stopped then
     match (s <- getitem ex "startedAt" ;;
            start <- parse_timestamp s ;;
            e <- getitem ex "stoppedAt" ;;
            stop <- parse_timestamp e ;;
            Datetime.sub stop start)%result
     with
     | Ok us =>
         Ok (mkTally c (Fadd (total_duration t) (Datetime.total_seconds us))
                     (count_with_duration t + 1))
     | Raise _ => Ok (mkTally c (total_duration t) (count_with_duration t))
     end
   else Ok (mkTally c (total_duration t) (count_with_duration t)))%result.

Fixpoint tally_all (t : tally) (execs : list value) : result tally :=
  match execs with
  | [] => Ok t
  | ex :: rest => (t' <- tally_one t ex ;; tally_all t' rest)%result
  end.

(** [(k1, n1) < (k2, n2)] on two items of the dict. *)
Definition item_lt (a b : value * Z) : result bool :=
  if Py.eqb (fst a) (fst b) then Ok (snd a <? snd b)%Z else Py.lt (fst a) (fst b).

(** [sorted(status_counts.items())], as an insertion sort: like the
    interpreter's sort it compares items until the order is known, and
    raises at the first pair that cannot be compared. *)
Fixpoint insert_item (x : value * Z) (l : list (value * Z))
  : result (list (value * Z)) :=
  match l with
  | [] => Ok [x]
  | y :: l' =>
      (b <- item_lt y x ;;
       if b then (r <- insert_item x l' ;; Ok (y :: r)) else Ok (x :: y :: l'))%result
  end.

Fixpoint sorted_items (l : list (value * Z)) : result (list (value * Z)) :=
  match l with
  | [] => Ok []
  | x :: l' => (r <- sorted_items l' ;; insert_item x r)%result
  end.

(** One line per status, with its share of all executions. *)
Definition status_line (total : Z) (item : value * Z) : result string :=
  (q <- int_div (snd item) total ;;
   let pct := Fmul q (of_int 100) in
   Ok ("  " ++ str (fst item) ++ ": " ++ Str.of_Z (snd item)
       ++ " (" ++ Fmt.fixed 1 pct ++ "%)"))%result.

(** The success-rate line, when there is one. *)
Definition success_rate_line (c : counts) : result (option string) :=
  let success := counts_get c (VStr "success") 0 in
  let error := counts_get c (VStr "error") 0 in
  if (0 <? success + error)%Z then
    (q <- int_div success (success + error) ;;
     let success_rate := Fmul q (of_int 100) in
     Ok (Some ("Success rate: " ++ Fmt.fixed 1 success_rate ++ "%")))%result
  else Ok None.

Definition tally0 : tally := mkTally [] (of_int 0) 0.

Record stats_args : Type := mkStatsArgs { sa_workflow_id : option string }.

(** [cmd_stats]. *)
Definition cmd_stats (m : manager) (args : stats_args) : M unit :=
  (all_execs <- list_executions m (sa_workflow_id args) None 100 ;;
   if negb (truthy all_execs) then print "No executions found"
   else
     execs <- lift (iter all_execs) ;;
     t <- lift (tally_all tally0 execs) ;;
     print "Execution Statistics" ;;;
     print (Str.repeat_string "-" 40) ;;;
     total <- lift (len all_execs) ;;
     print ("Total executions: " ++ Str.of_Z total) ;;;
     sorted <- lift (sorted_items (status_counts t)) ;;
     for_each sorted (fun item => line <- lift (status_line total item) ;; print line) ;;;
     (if (0 <? count_with_duration t)%Z then
        avg_duration <- lift (float_div (total_duration t)
                                        (of_int (count_with_duration t))) ;;
        print (Str.nl ++ "Average duration: " ++ Fmt.fixed 2 avg_duration ++ "s")
      else ret tt) ;;;
     rate <- lift (success_rate_line (status_counts t)) ;;
     match rate with
     | Some line => print line
     | None => ret tt
     end)%cmd.

(** *** [cmd_watch] *)

Record watch_args : Type := mkWatchArgs {
  wa_workflow_id : option string;
  wa_interval : Z
}.

(** The loop's two variables: [seen_ids], and [last_check] (the clock
    reading, or [None] before the first poll is over). *)
Record watch_state : Type := mkWatchState {
  seen_ids : list value;
  last_check : option nat
}.

Definition watch_icons : list (string * string) :=
  [("success", "✓"); ("error", "✗"); ("waiting", "⏳"); ("running", "▶")].

(** The [print] of one new execution. *)
Definition announce (ex : value) : M unit :=
  (status <- lift (get ex "status" (VStr "")) ;;
   icon <- lift (table_get watch_icons status "?") ;;
   stamp <- now_hms ;;
   id <- lift (getitem ex "id") ;;
   wf <- lift (get ex "workflowId" VNone) ;;
   status' <- lift (get ex "status" VNone) ;;
   print ("[" ++ stamp ++ "] " ++ icon ++ " Execution " ++ str id
          ++ " - Workflow " ++ str wf ++ " - " ++ str status'))%cmd.

(** The loop over [reversed(executions)]; it returns the new
    [seen_ids]. *)
Fixpoint scan (last_check : option nat) (execs : list value) (seen : list value)
  : M (list value) :=
  match execs with
  | [] => ret seen
  | ex :: rest =>
      (id <- lift (getitem ex "id") ;;
       known <- lift (set_mem id seen) ;;
       if known then scan last_check rest seen
       else
         (match last_check with
          | Some _ => announce ex
          | None => ret tt
          end) ;;;
         scan last_check rest (id :: seen))%cmd
  end.

(** One turn of the [while] loop, up to the sleep. *)
Definition poll (m : manager) (args : watch_args) (st : watch_state) : M watch_state :=
  (executions <- list_executions m (wa_workflow_id args) None 10 ;;
   execs <- lift (reversed executions) ;;
   seen <- scan (last_check st) execs (seen_ids st) ;;
   fun w => (Ok (mkWatchState seen (Some (ticks w))),
             mkWorld (sent w) (stdout w) (stderr w) (S (ticks w))))%cmd.

(** The loop runs until the keyboard interrupt, which the model places
    in the sleep after the [polls]-th turn; the handler prints and
    leaves the loop. *)
Fixpoint watch_loop (m : manager) (args : watch_args) (polls : nat) (st : watch_state)
  : M unit :=
  match polls with
  | O => print (Str.nl ++ "Stopped")
  | S n => (st' <- poll m args st ;; watch_loop m args n st')%cmd
  end.

(** [cmd_watch], interrupted after [polls] turns. *)
Definition cmd_watch (m : manager) (args : watch_args) (polls : nat) : M unit :=
  (print "Watching for executions... (Ctrl+C to stop)" ;;;
   print (Str.repeat_string "-" 60) ;;;
   watch_loop m args polls (mkWatchState [] None))%cmd.

(** *** [main] *)

(** The call of the selected handler in [main], under its [except]
    clause. *)
Definition run_handler (handler : M unit) : M unit :=
  try_except handler
    (fun e => match e with RequestException _ _ => true | _ => false end)
    (fun e =>
       match e with
       | RequestException msg _ => (eprint ("API Error: " ++ msg) ;;; exit 1)%cmd
       | _ => ret tt
       end).

(** *** [cmd_get] *)

Record get_args : Type := mkGetArgs {
  ga_id : string;
  ga_json : bool
}.

(** [cmd_get]. *)
Definition cmd_get (m : manager) (args : get_args) : M unit :=
  (execution <- get_execution m (ga_id args) ;;
   id <- lift (getitem execution "id") ;;
   print ("Execution: " ++ str id) ;;;
   wf <- lift (get execution "workflowId" (VStr "N/A")) ;;
   print ("Workflow:  " ++ str wf) ;;;
   status <- lift (get execution "status" (VStr "N/A")) ;;
   print ("Status:    " ++ str status) ;;;
   mode <- lift (get execution "mode" (VStr "N/A")) ;;
   print ("Mode:      " ++ str mode) ;;;
   started <- lift (get execution "startedAt" VNone) ;;
   started_s <- lift (format_timestamp started) ;;
   print ("Started:   " ++ started_s) ;;;
   stopped <- lift (get execution "stoppedAt" VNone) ;;
   stopped_s <- lift (format_timestamp stopped) ;;
   print ("Stopped:   " ++ stopped_s) ;;;
   print ("Duration:  " ++ format_duration started stopped) ;;;
   error <- lift (result_data execution "error" VNone) ;;
   (if truthy error then
      print (Str.nl ++ "--- ERROR ---") ;;;
      msg <- lift (get error "message" (VStr (str error))) ;;
      print ("Message: " ++ str msg) ;;;
      stack <- lift (get error "stack" VNone) ;;
      if truthy stack then
        stack' <- lift (getitem error "stack") ;;
        cut <- lift (slice_to 500 stack') ;;
        print ("Stack: " ++ str cut ++ "...")
      else ret tt
    else ret tt) ;;;
   if ga_json args then
     print (Str.nl ++ "--- Full JSON ---") ;;;
     print (json_dumps 2 execution)
   else ret tt)%cmd.

(** *** [cmd_errors] *)

Record errors_args : Type := mkErrorsArgs { ea_limit : Z }.

(** The body of the loop of [cmd_errors]. *)
Definition report_failure (m : manager) (ex : value) : M unit :=
  (id <- lift (getitem ex "id") ;;
   execution <- get_execution m (str id) ;;
   error <- lift (result_data execution "error" (VDict [])) ;;
   last_node <- lift (result_data execution "lastNodeExecuted" (VStr "N/A")) ;;
   wf <- lift (get ex "workflowId" VNone) ;;
   started <- lift (get ex "startedAt" VNone) ;;
   ts <- lift (format_timestamp started) ;;
   print (Str.nl ++ "[" ++ str id ++ "] Workflow: " ++ str wf ++ " | " ++ ts) ;;;
   print ("  Last node: " ++ str last_node) ;;;
   msg <- lift (get error "message" (VStr "Unknown error")) ;;
   cut <- lift (slice_to 100 msg) ;;
   print ("  Error: " ++ str cut))%cmd.

(** [cmd_errors]. *)
Definition cmd_errors (m : manager) (args : errors_args) : M unit :=
  (executions <- list_executions m None (Some "error") (ea_limit args) ;;
   if negb (truthy executions) then print "No failed executions found"
   else
     print ("Recent Failed Executions (last " ++ Str.of_Z (ea_limit args) ++ "):") ;;;
     print (Str.repeat_string "-" 80) ;;;
     execs <- lift (iter executions) ;;
     for_each execs (report_failure m))%cmd.

(** *** [main], from the parsed arguments on *)

(** The subcommand and its arguments; [CmdWatch] also tells after how
    many polls the user interrupts the watch. *)
Inductive command : Type :=
| CmdList (a : list_args)
| CmdGet (a : get_args)
| CmdDebug (a : debug_args)
| CmdErrors (a : errors_args)
| CmdStats (a : stats_args)
| CmdWatch (a : watch_args) (polls : nat).

(** What [parser.parse_args()] returns: the URL and the key (from the
    flags, or else from the environment) and the subcommand, if any. *)
Record cli : Type := mkCli {
  cli_url : string;
  cli_key : string;
  cli_command : option command
}.

(** [commands[args.command](manager, args)]. *)
Definition dispatch (m : manager) (cmd : command) : M unit :=
  match cmd with
  | CmdList a => cmd_list m a
  | CmdGet a => cmd_get m a
  | CmdDebug a => cmd_debug m a
  | CmdErrors a => cmd_errors m a
  | CmdStats a => cmd_stats m a
  | CmdWatch a polls => cmd_watch m a polls
  end.

(** [main]; [help] is the text [parser.print_help()] writes. *)
Definition main (help : string) (args : cli) : M unit :=
  match cli_command args with
  | None => (print help ;;; exit 1)%cmd
  | Some cmd =>
      if Str.is_empty (cli_key args)
      then (eprint "Error: N8N_API_KEY not set" ;;; exit 1)%cmd
      else run_handler (dispatch (init (cli_url args) (cli_key args)) cmd)
  end.

End WithRuntime.

End ExecutionManager.

(* ================================================================= *)
(** ** workflow-crud.py *)

Module WorkflowCrud.
Import Py Sys.
Local Open Scope string_scope.

(** [N8nClient]: the base URL, the key, and the headers its session
    adds to every request made through it. *)
Record client : Type := mkClient {
  base_url : string;
  api_key : string;
  session_headers : list (string * string)
}.

(** [N8nClient.__init__]. *)
Definition init (url key : string) : client :=
  mkClient (Str.rstrip_char "/" url) key
           [("X-N8N-API-KEY", key); ("Content-Type", "application/json")].

Definition is_request_exception (e : exn) : bool :=
  match e with RequestException _ _ => true | _ => false end.

Section WithRuntime.
Context {rt : Runtime}.

(** The [except] clause of [_request]. *)
Definition report_and_exit (e : exn) : M value :=
  match e with
  | RequestException msg resp =>
      (eprint ("Error: " ++ msg) ;;;
       match resp with
       | Some r =>
           match response_json r with
           | Ok body => eprint ("Response: " ++ str body)
           | Raise _ => eprint ("Response: " ++ text r)
           end
       | None => ret tt
       end ;;;
       exit 1)%cmd
  | _ => raise e
  end.

(** [N8nClient._request]. *)
Definition _request (c : client) (method endpoint : string) (data : option value)
  : M value :=
  let url := base_url c ++ endpoint in
  try_except
    (response <- send (mkRequest method url (session_headers c) data 30) ;;
     raise_for_status url response ;;;
     if negb (Str.is_empty (text response)) then lift (response_json response)
     else ret (VDict []))%cmd
    is_request_exception report_and_exit.

(** *** Workflow operations *)

Definition list_workflows (c : client) (active_only : bool) (limit : Z) : M value :=
  (let params := "?limit=" ++ Str.of_Z limit
                 ++ (if active_only then "&active=true" else "") in
   result <- _request c "GET" ("/api/v1/workflows" ++ params) None ;;
   lift (get result "data" (VList [])))%cmd.

Definition get_workflow (c : client) (workflow_id : string) : M value :=
  _request c "GET" ("/api/v1/workflows/" ++ workflow_id) None.

Definition create_workflow (c : client) (workflow_data : value) : M value :=
  _request c "POST" "/api/v1/workflows" (Some workflow_data).

Definition update_workflow (c : client) (workflow_id : string) (workflow_data : value)
  : M value :=
  _request c "PUT" ("/api/v1/workflows/" ++ workflow_id) (Some workflow_data).

Definition delete_workflow (c : client) (workflow_id : string) : M value :=
  (_request c "DELETE" ("/api/v1/workflows/" ++ workflow_id) None ;;; ret VNone)%cmd.

Definition activate_workflow (c : client) (workflow_id : string) : M value :=
  _request c "POST" ("/api/v1/workflows/" ++ workflow_id ++ "/activate") None.

Definition deactivate_workflow (c : client) (workflow_id : string) : M value :=
  _request c "POST" ("/api/v1/workflows/" ++ workflow_id ++ "/deactivate") None.

(** *** Execution operations *)

Definition given (o : option string) : bool :=
  match o with Some s => negb (Str.is_empty s) | None => false end.

Definition opt_str (o : option string) : string :=
  match o with Some s => s | None => "None" end.

Definition list_executions (c : client)
    (workflow_id status : option string) (limit : Z) : M value :=
  (let params := List.app ["limit=" ++ Str.of_Z limit]
       (List.app
          (if given workflow_id then ["workflowId=" ++ opt_str workflow_id] else [])
          (if given status then ["status=" ++ opt_str status] else [])) in
   let query := Str.join "&" params in
   result <- _request c "GET" ("/api/v1/executions?" ++ query) None ;;
   lift (get result "data" (VList [])))%cmd.

Definition get_execution (c : client) (execution_id : string) (include_data : bool)
  : M value :=
  _request c "GET"
    ("/api/v1/executions/" ++ execution_id ++ "?includeData="
     ++ (if include_data then "true" else "false")) None.

Definition delete_execution (c : client) (execution_id : string) : M value :=
  (_request c "DELETE" ("/api/v1/executions/" ++ execution_id) None ;;; ret VNone)%cmd.

(** *** Webhook operations *)

(** [data or {}]. *)
Definition or_empty (data : option value) : value :=
  match data with
  | Some v => if truthy v then v else VDict []
  | None => VDict []
  end.

(** [N8nClient.trigger_webhook]: a plain [requests.post], outside the
    session. *)
Definition trigger_webhook (c : client) (path : string) (data : option value)
    (test : bool) : M value :=
  (let endpoint := if test then "webhook-test" else "webhook" in
   let url := base_url c ++ "/" ++ endpoint ++ "/" ++ path in
   response <- send (mkRequest "POST" url [] (Some (or_empty data)) 30) ;;
   match response_json response with
   | Ok body => ret body
   | Raise _ =>
       ret (VDict [("response", VStr (text response));
                   ("status_code", VInt (status_code response))])
   end)%cmd.

(** The operations of the client, as one type. *)
Inductive operation : Type :=
| ListWorkflows (active_only : bool) (limit : Z)
| GetWorkflow (workflow_id : string)
| CreateWorkflow (workflow_data : value)
| UpdateWorkflow (workflow_id : string) (workflow_data : value)
| DeleteWorkflow (workflow_id : string)
| ActivateWorkflow (workflow_id : string)
| DeactivateWorkflow (workflow_id : string)
| ListExecutions (workflow_id status : option string) (limit : Z)
| GetExecution (execution_id : string) (include_data : bool)
| DeleteExecution (execution_id : string)
| TriggerWebhook (path : string) (data : option value) (test : bool).

Definition call (c : client) (op : operation) : M value :=
  match op with
  | ListWorkflows a l => list_workflows c a l
  | GetWorkflow i => get_workflow c i
  | CreateWorkflow d => create_workflow c d
  | UpdateWorkflow i d => update_workflow c i d
  | DeleteWorkflow i => delete_workflow c i
  | ActivateWorkflow i => activate_workflow c i
  | DeactivateWorkflow i => deactivate_workflow c i
  | ListExecutions w s l => list_executions c w s l
  | GetExecution i d => get_execution c i d
  | DeleteExecution i => delete_execution c i
  | TriggerWebhook p d t => trigger_webhook c p d t
  end.

Definition is_trigger (op : operation) : bool :=
  match op with TriggerWebhook _ _ _ => true | _ => false end.

(** *** Formatters *)

(** [format_workflow]. *)
Definition format_workflow (workflow : value) (verbose : bool) : result string :=
  if verbose then Ok (json_dumps 2 workflow)
  else
    (a <- get workflow "active" VNone ;;
     let active := if truthy a then "✓" else "✗" in
     ns <- get workflow "nodes" (VList []) ;;
     nodes <- len ns ;;
     id <- getitem workflow "id" ;;
     name <- getitem workflow "name" ;;
     Ok ("[" ++ str id ++ "] " ++ active ++ " " ++ str name
         ++ " (" ++ Str.of_Z nodes ++ " nodes)"))%result.

Definition execution_icons : list (string * string) :=
  [("success", "✓"); ("error", "✗"); ("waiting", "⏳"); ("running", "▶")].

(** [format_execution]. *)
Definition format_execution (execution : value) : result string :=
  (status <- get execution "status" (VStr "unknown") ;;
   icon <- table_get execution_icons status "?" ;;
   started <- get execution "startedAt" (VStr "N/A") ;;
   started <- (if negb (Py.eqb started (VStr "N/A")) then
                 cut <- slice_to 19 started ;;
                 replace "T" " " cut
               else Ok started) ;;
   id <- getitem execution "id" ;;
   f_status <- format_default 8 status ;;
   wf <- get execution "workflowId" (VStr "N/A") ;;
   Ok ("[" ++ str id ++ "] " ++ icon ++ " " ++ f_status
       ++ " workflow:" ++ str wf ++ " " ++ str started))%result.

(** *** Commands *)

Record list_args : Type := mkListArgs {
  la_active : bool;
  la_json : bool
}.

(** [cmd_list]. *)
Definition cmd_list (c : client) (args : list_args) : M unit :=
  (workflows <- list_workflows c (la_active args) 100 ;;
   if la_json args then print (json_dumps 2 workflows)
   else
     wfs <- lift (iter workflows) ;;
     for_each wfs (fun wf => line <- lift (format_workflow wf false) ;; print line) ;;;
     n <- lift (len workflows) ;;
     print (Str.nl ++ "Total: " ++ Str.of_Z n ++ " workflows"))%cmd.

Record delete_args : Type := mkDeleteArgs {
  dl_id : string;
  dl_force : bool
}.

(** [cmd_delete]; [answer] is what the user types at the prompt, when
    there is one. *)
Definition cmd_delete (c : client) (args : delete_args) (answer : string) : M unit :=
  (proceed <- (if negb (dl_force args) then
                 confirm <- input ("Delete workflow " ++ dl_id args ++ "? [y/N] ") answer ;;
                 if negb (String.eqb (Str.lower confirm) "y")
                 then print "Cancelled" ;;; ret false
                 else ret true
               else ret true) ;;
   if proceed then
     delete_workflow c (dl_id args) ;;;
     print ("Deleted workflow " ++ dl_id args)
   else ret tt)%cmd.

Record executions_args : Type := mkExecutionsArgs {
  xa_workflow : option string;
  xa_status : option string;
  xa_limit : Z;
  xa_json : bool
}.

(** [cmd_executions]. *)
Definition cmd_executions (c : client) (args : executions_args) : M unit :=
  (executions <- list_executions c (xa_workflow args) (xa_status args) (xa_limit args) ;;
   if xa_json args then print (json_dumps 2 executions)
   else
     execs <- lift (iter executions) ;;
     for_each execs (fun ex => line <- lift (format_execution ex) ;; print line) ;;;
     n <- lift (len executions) ;;
     print (Str.nl ++ "Total: " ++ Str.of_Z n ++ " executions"))%cmd.

End WithRuntime.

End WorkflowCrud.

(* ================================================================= *)
(** ** A scripted runtime *)

(** A runtime to run the scripts on concrete inputs: a parser for the
    timestamps the n8n API writes ([YYYY-MM-DDTHH:MM:SS], an optional
    fraction of up to six digits, an optional [+HH:MM] or [-HH:MM]), a
    network that answers the n-th request with the n-th reply of a
    script, and a decoder that knows the bodies of the script. *)
Module Scripted.
Import Py Sys.
Local Open Scope string_scope.

Definition digit (c : ascii) : option Z :=
  let n := Z.of_nat (nat_of_ascii c) in
  if (48 <=? n)%Z && (n <=? 57)%Z then Some (n - 48) else None.

Fixpoint number_from (acc : Z) (s : string) : option Z :=
  match s with
  | EmptyString => Some acc
  | String c s' =>
      match digit c with
      | Some d => number_from (acc * 10 + d) s'
      | None => None
      end
  end.

(** The value of a non-empty string of digits. *)
Definition number (s : string) : option Z :=
  match s with
  | EmptyString => None
  | _ => number_from 0 s
  end.

Definition is_leap (y : Z) : bool :=
  ((y mod 4 =? 0) && (negb (y mod 100 =? 0) || (y mod 400 =? 0)))%Z.

Definition days_in_month (y m : Z) : Z :=
  if (m =? 2)%Z then (if is_leap y then 29 else 28)
  else if ((m =? 4) || (m =? 6) || (m =? 9) || (m =? 11))%Z then 30 else 31.

Fixpoint days_before_month (y : Z) (m : nat) : Z :=
  match m with
  | O => 0
  | S m' => days_before_month y m' + days_in_month y (Z.of_nat m)
  end.

Definition days_before_year (y : Z) : Z :=
  let p := y - 1 in p * 365 + p / 4 - p / 100 + p / 400.

Definition opt_bind {A B} (o : option A) (k : A -> option B) : option B :=
  match o with Some a => k a | None => None end.

Declare Scope opt_scope.
Delimit Scope opt_scope with opt.
Notation "x <- c ;; k" := (opt_bind c (fun x => k))
  (at level 61, c at next level, right associativity) : opt_scope.

Definition guard (b : bool) : option unit := if b then Some tt else None.

(** [+HH:MM] or [-HH:MM], in microseconds. *)
Definition parse_offset (s : string) : option Z :=
  (_ <- guard (Nat.eqb (String.length s) 6) ;;
   _ <- guard (String.eqb (substring 3 1 s) ":") ;;
   h <- number (substring 1 2 s) ;;
   m <- number (substring 4 2 s) ;;
   _ <- guard ((h <? 24) && (m <? 60))%Z ;;
   let o := ((h * 60 + m) * 60 * 10 ^ 6)%Z in
   if String.eqb (substring 0 1 s) "+" then Some o
   else if String.eqb (substring 0 1 s) "-" then Some (- o)%Z
   else None)%opt.

(** The digits after the point, and what follows them. *)
Fixpoint split_digits (s : string) : string * string :=
  match s with
  | String c s' =>
      match digit c with
      | Some _ => let '(d, r) := split_digits s' in (String c d, r)
      | None => (EmptyString, s)
      end
  | EmptyString => (EmptyString, EmptyString)
  end.

(** A fraction of one to six digits, in microseconds, and the rest. *)
Definition parse_fraction (s : string) : option (Z * string) :=
  match s with
  | String "."%char s' =>
      let '(d, r) := split_digits s' in
      (_ <- guard (Nat.leb 1 (String.length d) && Nat.leb (String.length d) 6) ;;
       n <- number d ;;
       Some ((n * 10 ^ Z.of_nat (6 - String.length d))%Z, r))%opt
  | _ => Some (0%Z, s)
  end.

Definition parse_iso (s : string) : option Datetime.datetime :=
  (_ <- guard (Nat.leb 19 (String.length s)) ;;
   y <- number (substring 0 4 s) ;;
   mo <- number (substring 5 2 s) ;;
   d <- number (substring 8 2 s) ;;
   h <- number (substring 11 2 s) ;;
   mi <- number (substring 14 2 s) ;;
   sec <- number (substring 17 2 s) ;;
   _ <- guard (String.eqb (substring 4 1 s) "-" && String.eqb (substring 7 1 s) "-"
               && (String.eqb (substring 10 1 s) "T" || String.eqb (substring 10 1 s) " ")
               && String.eqb (substring 13 1 s) ":" && String.eqb (substring 16 1 s) ":") ;;
   _ <- guard ((1 <=? y) && (1 <=? mo) && (mo <=? 12) && (1 <=? d)
               && (d <=? days_in_month y mo) && (h <? 24) && (mi <? 60) && (sec <? 60))%Z ;;
   fr <- parse_fraction (substring 19 (String.length s - 19) s) ;;
   let '(us, rest) := fr in
   let days := (days_before_year y + days_before_month y (Z.to_nat mo - 1) + (d - 1))%Z in
   let wall := ((((days * 24 + h) * 60 + mi) * 60 + sec) * 10 ^ 6 + us)%Z in
   if Str.is_empty rest then Some (Datetime.mkDatetime wall None)
   else (o <- parse_offset rest ;; Some (Datetime.mkDatetime wall (Some o))))%opt.

Definition quote : string := String (ascii_of_nat 34) EmptyString.

(** A compact rendering of a value, for the encoder and for [repr]. *)
Fixpoint render (v : value) : string :=
  match v with
  | VNone => "null"
  | VBool b => if b then "true" else "false"
  | VInt z => Str.of_Z z
  | VStr s => quote ++ s ++ quote
  | VList l => "[" ++ Str.join ", " (map render l) ++ "]"
  | VDict d =>
      "{" ++ Str.join ", "
               ((fix items (d : list (string * value)) : list string :=
                   match d with
                   | [] => []
                   | (k, x) :: d' => (quote ++ k ++ quote ++ ": " ++ render x) :: items d'
                   end) d) ++ "}"
  end.

Definition decode (bodies : list (string * value)) (s : string) : value + string :=
  match find (fun kv => String.eqb s (fst kv)) bodies with
  | Some kv => inl (snd kv)
  | None => inr "Expecting value: line 1 column 1 (char 0)"
  end.

Definition answer (script : list reply) (history : list request) (rq : request) : reply :=
  nth (List.length history) script (NoResponse "Connection refused").

Definition runtime (script : list reply) (bodies : list (string * value)) : Runtime :=
  {| fromisoformat := parse_iso;
     repr := render;
     json_dumps := fun _ v => render v;
     json_loads := decode bodies;
     http := answer script;
     clock_hms := fun n => "12:00:" ++ Str.zfill 2 (Str.of_Z (Z.of_nat n)) |}.

(** A reply with a JSON body. *)
Definition ok_reply (body : string) : reply := Answered (mkResponse 200 "OK" body).

End Scripted.

(* ================================================================= *)
(** ** Vocabulary of the statements *)

(** The definitions the lemmas and theorems are stated with: the real
    value of a float, shapes of JSON records, and the lines a command
    prints. *)
Module Spec.
Import Binary64 Py Sys.

(** *** Real values *)

Definition bpow (e : Z) : R := powerRZ 2 e.

(** The real number a float stands for. *)
Definition F2R (x : float) : R := (IZR (Fnum x) * bpow (Fexp x))%R.

Definition frac (n d : Z) : R := (IZR n / IZR d)%R.

(** [rounds v f]: [f] is the rounding of the exact value [v]. *)
Definition rounds (v : R) (f : float) : Prop :=
  exists n d, 0 < d /\ frac n d = v /\ f = round n d.

(** *** Durations *)

(** [int(total_seconds * 1000)] and the tenths [format(total_seconds,
    '.1f')] prints, as functions of the microseconds; the checks compare
    them with the expected value at the two ends of a range on which the
    expected value is constant. *)
Definition ms_of (us : Z) : Z :=
  Ftrunc (Fmul (Datetime.total_seconds us) (of_int 1000)).

Definition ms_check (j : Z) : bool :=
  (ms_of (1000 * j) =? j) && (ms_of (1000 * j + 999) =? j).




Definition upto (n : nat) : list Z := map Z.of_nat (seq 0 n).

(** *** Records *)

Local Open Scope string_scope.

(** The field [k] of a record is missing, or holds a string (a list). *)
Definition absent_or_str (k : string) (d : list (string * value)) : Prop :=
  lookup k d = None \/ exists s, lookup k d = Some (VStr s).


(** The field [k] of a record, or [default] when it is missing. *)
Definition field (d : list (string * value)) (k : string) (default : value) : value :=
  match lookup k d with Some v => v | None => default end.

(** An id of the API: a string or an integer. *)
Definition str_or_int (v : value) : Prop :=
  (exists s, v = VStr s) \/ (exists z, v = VInt z).

(** *** Requests *)

(** A reply that is a request failure: no response, or a response whose
    status [raise_for_status] rejects (4xx and 5xx). *)
Definition failed (rp : reply) : bool :=
  match rp with
  | NoResponse _ => true
  | Answered r => is_error_status (status_code r)
  end.

(** A continuation that leaves the state as it is. *)
Definition pure_cont (k : value -> M value) : Prop :=
  forall v w, snd (k v w) = w.

Definition http_500 : reply := Answered (mkResponse 500 "Internal Server Error" "boom").

(** *** Output *)

(** A command whose output only grows. *)
Definition extends {A} (c : M A) : Prop :=
  forall w, exists more, stdout (snd (c w)) = (stdout w ++ more)%list.

(** A command that ends normally after printing [lines], and changes
    nothing else. *)
Definition prints (c : M unit) (w : world) (lines : list string) : Prop :=
  c w = (Ok tt, mkWorld (sent w) (stdout w ++ lines) (stderr w) (ticks w)).

(** *** The debug report *)




(** The lexicographic order of two names. *)
Definition name_le (a b : string) : Prop := String.leb a b = true.


(** The first line of a node's block. *)
Definition node_header (failed : bool) (name : string) : string :=
  Str.nl ++ (if failed then "✗" else "✓") ++ " " ++ name.



(** *** Statistics *)

(** The status [cmd_stats] counts an execution under. *)
Definition status_of (ex : value) : value :=
  match ex with
  | VDict d => field d "status" (VStr "unknown")
  | _ => VNone
  end.

(** How many executions have the status [s]. *)
Definition count_of (s : string) (execs : list value) : Z :=
  Z.of_nat (List.length (filter (fun ex => Py.eqb (VStr s) (status_of ex)) execs)).

(** An execution record whose status, when it has one, is a string. *)
Definition stats_record (ex : value) : Prop :=
  exists d, ex = VDict d /\ absent_or_str "status" d.

(** The success-rate line for [s] successes and [e] errors: none when
    there is neither. *)
Definition rate_lines (s e : Z) : list string :=
  if (0 <? s + e)%Z then
    ["Success rate: " ++ Fmt.fixed 1 (Fmul (int_truediv s (s + e)) (of_int 100)) ++ "%"]
  else [].

(** A line that gives a success rate. *)
Definition is_rate_line (line : string) : bool := String.prefix "Success rate:" line.

Definition no_rate_line (lines : list string) : Prop :=
  Forall (fun line => is_rate_line line = false) lines.

Definition str_keys (c : ExecutionManager.counts) : Prop :=
  Forall (fun kv => exists s, fst kv = VStr s) c.

(** *** The watch loop *)








Definition watch_banner : list string :=
  ["Watching for executions... (Ctrl+C to stop)"; Str.repeat_string "-" 60].

Section WithRuntime.
Context {rt : Runtime}.

(** What [_request] prints on standard error for a failed request. *)
Definition error_body (r : response) : string :=
  match response_json r with
  | Ok body => str body
  | Raise _ => text r
  end.

Definition error_report (url : string) (rp : reply) : list string :=
  match rp with
  | NoResponse msg => ["Error: " ++ msg]
  | Answered r => ["Error: " ++ http_error_msg r url; "Response: " ++ error_body r]
  end.

(** The first three lines of a node's block. *)
Definition node_lines (failed : bool) (name : string) (exec_time : value) (n : Z)
  : list string :=
  [node_header failed name;
   "   Execution time: " ++ str exec_time ++ "ms";
   "   Items output: " ++ Str.of_Z n].




End WithRuntime.

(** *** Further vocabulary *)


(** What an operation of the client makes of the JSON body of the
    answer: the list operations return its [data] (no [data], no items),
    the deletions return nothing, the others return the body. *)
Definition result_of (op : WorkflowCrud.operation) (body : value) : result value :=
  match op with
  | WorkflowCrud.ListWorkflows _ _ | WorkflowCrud.ListExecutions _ _ _ =>
      get body "data" (VList [])
  | WorkflowCrud.DeleteWorkflow _ | WorkflowCrud.DeleteExecution _ => Ok VNone
  | _ => Ok body
  end.

(** A command that ends in [w'], having printed [lines] after [w] and
    changed nothing else. *)
Definition printed (w w' : world) (lines : list string) : Prop :=
  w' = mkWorld (sent w) (stdout w ++ lines) (stderr w) (ticks w).

(** The state [w] after printing [lines]. *)
Definition after (w : world) (lines : list string) : world :=
  mkWorld (sent w) (stdout w ++ lines) (stderr w) (ticks w).

(** The message of the exception a failed request raises. *)
Definition failure_msg (url : string) (rp : reply) : string :=
  match rp with
  | NoResponse e => e
  | Answered r => http_error_msg r url
  end.

(** What a command prints before its first request, and whether the user
    interrupts it before that request. *)
Definition banner_of (cmd : ExecutionManager.command) : list string :=
  match cmd with
  | ExecutionManager.CmdWatch _ _ => watch_banner
  | _ => []
  end.

Definition interrupted_at_once (cmd : ExecutionManager.command) : bool :=
  match cmd with
  | ExecutionManager.CmdWatch _ O => true
  | _ => false
  end.

(** An outcome that is neither a request exception nor an exit. *)
Definition no_api_error {A} (r : result A) : Prop :=
  match r with
  | Raise (RequestException _ _) | Raise (SystemExit _) => False
  | _ => True
  end.

(** A command that sends at most [n] requests, writes nothing on standard
    error, and ends neither with a request exception nor with an exit. *)
Definition tame (n : nat) {A} (c : M A) : Prop :=
  forall w,
    stderr (snd (c w)) = stderr w /\ no_api_error (fst (c w)) /\
    exists more, sent (snd (c w)) = (sent w ++ more)%list /\ (List.length more <= n)%nat.

(** An execution record as the list of executions shows it: an id that
    is a string or an integer, and a status, a workflow id and timestamps
    that are strings when they are there. *)
Definition list_record (ex : value) : Prop :=
  exists d, ex = VDict d /\
    (exists i, lookup "id" d = Some i /\ str_or_int i) /\
    absent_or_str "status" d /\ absent_or_str "workflowId" d /\
    absent_or_str "startedAt" d /\ absent_or_str "stoppedAt" d.

(** The two lines above the rows. *)
Definition list_header : list string :=
  ["ID         Status     Workflow   Started              Duration  ";
   Str.repeat_string "-" 70].

(** The line of one status: its count, and its share of the [total] in
    per cent. *)
Definition share_line (total : Z) (item : string * Z) : string :=
  ("  " ++ fst item ++ ": " ++ Str.of_Z (snd item) ++ " ("
   ++ Fmt.fixed 1 (Fmul (int_truediv (snd item) total) (of_int 100)) ++ "%)")%string.

(** A status and its count, as an item of [status_counts]. *)
Definition as_item (item : string * Z) : value * Z := (VStr (fst item), snd item).

Definition sum_counts (c : list Z) : Z := fold_right Z.add 0 c.




(** A branch of a node's output: a list of items, or [null]. *)
Definition branch_value (b : option (list value)) : value :=
  match b with
  | Some l => VList l
  | None => VNone
  end.

(** The items of the branches that are lists, counted. *)
Definition branches_total (branches : list (option (list value))) : Z :=
  fold_right Z.add 0
    (map (fun b => match b with
                   | Some l => Z.of_nat (List.length l)
                   | None => 0
                   end) branches).

Section MoreWithRuntime.
Context {rt : Runtime}.

(** [body] is the JSON body of the response [r], an empty text standing
    for the empty object. *)
Definition body_of (r : response) (body : value) : Prop :=
  (text r = "" /\ body = VDict []) \/ (text r <> "" /\ json_loads (text r) = inl body).



End MoreWithRuntime.

End Spec.

(* ================================================================= *)
(** * Facts *)

(* ----------------------------------------------------------------- *)
(** ** Binary64: order, rounding, operations *)

Section Binary64Facts.
Import Binary64 Spec.
Local Open Scope R_scope.

Lemma bpow_pos e : 0 < bpow e.
Proof. apply powerRZ_lt; lra. Qed.

Lemma bpow_add a b : bpow (a + b) = bpow a * bpow b.
Proof. apply powerRZ_add; lra. Qed.

Lemma bpow_IZR k : (0 <= k)%Z -> IZR (2 ^ k) = bpow k.
Proof.
  intros Hk. unfold bpow.
  rewrite <- (Z2Nat.id k Hk) at 1 2.
  rewrite <- pow_powerRZ, <- pow_IZR. reflexivity.
Qed.

Lemma bpow_succ a : bpow (a + 1) = 2 * bpow a.
Proof. rewrite bpow_add. unfold bpow at 2. simpl. lra. Qed.

Lemma bpow_le a b : (a <= b)%Z -> bpow a <= bpow b.
Proof.
  intros H. replace b with (a + (b - a))%Z by lia.
  assert (Hk : (0 <= b - a)%Z) by lia. revert Hk.
  generalize (b - a)%Z. apply natlike_ind.
  - rewrite Z.add_0_r. lra.
  - intros k Hk IH. replace (a + Z.succ k)%Z with ((a + k) + 1)%Z by lia.
    rewrite bpow_succ. pose proof (bpow_pos a). lra.
Qed.

Lemma bpow_lt a b : (a < b)%Z -> bpow a < bpow b.
Proof.
  intros H. assert (bpow (a + 1) <= bpow b) by (apply bpow_le; lia).
  rewrite bpow_succ in H0. pose proof (bpow_pos a). lra.
Qed.

Lemma bpow_opp a : bpow (- a) = / bpow a.
Proof.
  pose proof (bpow_add a (- a)) as H. rewrite Z.add_opp_diag_r in H.
  change (bpow 0) with 1 in H. pose proof (bpow_pos a).
  apply Rmult_eq_reg_l with (bpow a); [|lra]. rewrite <- H. field. lra.
Qed.

Lemma F2R_shift x e :
  (e <= Fexp x)%Z -> F2R x = IZR (Fnum x * 2 ^ (Fexp x - e)) * bpow e.
Proof.
  intros H. unfold F2R. rewrite mult_IZR, bpow_IZR by lia.
  rewrite Rmult_assoc, <- bpow_add. f_equal. f_equal. lia.
Qed.

Lemma Fcompare_spec x y :
  match Fcompare x y with
  | Lt => F2R x < F2R y
  | Eq => F2R x = F2R y
  | Gt => F2R y < F2R x
  end.
Proof.
  unfold Fcompare. set (e := Z.min (Fexp x) (Fexp y)).
  rewrite (F2R_shift x e), (F2R_shift y e) by lia.
  pose proof (bpow_pos e) as He.
  destruct (Z.compare_spec (Fnum x * 2 ^ (Fexp x - e)) (Fnum y * 2 ^ (Fexp y - e))) as [H|H|H].
  - now rewrite H.
  - apply IZR_lt in H. nra.
  - apply IZR_lt in H. nra.
Qed.

Lemma Fltb_lt x y : Fltb x y = true <-> F2R x < F2R y.
Proof.
  unfold Fltb. pose proof (Fcompare_spec x y) as H.
  destruct (Fcompare x y); split; intros; try easy; lra.
Qed.

Lemma Fleb_le x y : Fleb x y = true <-> F2R x <= F2R y.
Proof.
  unfold Fleb. pose proof (Fcompare_spec x y) as H.
  destruct (Fcompare x y); split; intros; try easy; lra.
Qed.

Lemma Feqb_eq x y : Feqb x y = true <-> F2R x = F2R y.
Proof.
  unfold Feqb. pose proof (Fcompare_spec x y) as H.
  destruct (Fcompare x y); split; intros; try easy; lra.
Qed.

Lemma frac_le a b c d :
  (0 < b)%Z -> (0 < d)%Z -> (frac a b <= frac c d <-> (a * d <= c * b)%Z).
Proof.
  intros Hb Hd. unfold frac.
  assert (Hb' : 0 < IZR b) by now apply IZR_lt.
  assert (Hd' : 0 < IZR d) by now apply IZR_lt.
  assert (Ea : IZR a = IZR a / IZR b * IZR b) by (field; lra).
  assert (Ec : IZR c = IZR c / IZR d * IZR d) by (field; lra).
  set (x := IZR a / IZR b) in *. set (y := IZR c / IZR d) in *.
  assert (Hbd : 0 < IZR b * IZR d) by nra.
  split; intros H1.
  - apply le_IZR. rewrite !mult_IZR, Ea, Ec.
    replace (x * IZR b * IZR d) with (x * (IZR b * IZR d)) by ring.
    replace (y * IZR d * IZR b) with (y * (IZR b * IZR d)) by ring.
    apply Rmult_le_compat_r; lra.
  - apply IZR_le in H1. rewrite !mult_IZR, Ea, Ec in H1.
    replace (x * IZR b * IZR d) with (x * (IZR b * IZR d)) in H1 by ring.
    replace (y * IZR d * IZR b) with (y * (IZR b * IZR d)) in H1 by ring.
    apply Rmult_le_reg_r in H1; lra.
Qed.

Lemma frac_lt a b c d :
  (0 < b)%Z -> (0 < d)%Z -> (frac a b < frac c d <-> (a * d < c * b)%Z).
Proof.
  intros Hb Hd.
  pose proof (frac_le c d a b Hd Hb) as H.
  split; intros H1.
  - apply Z.nle_gt. intros H2. apply H in H2. lra.
  - apply Rnot_le_lt. intros H2. apply H in H2. lia.
Qed.

Lemma frac_int k : frac k 1 = IZR k.
Proof. unfold frac. field. Qed.

Lemma scale_spec n d e :
  (0 < d)%Z ->
  (0 < snd (scale n d e))%Z /\
  frac (fst (scale n d e)) (snd (scale n d e)) = frac n d * bpow e.
Proof.
  intros Hd. unfold scale, frac; simpl.
  assert (0 < IZR d) by now apply IZR_lt.
  split.
  - apply Z.mul_pos_pos; [lia|]. apply Z.pow_pos_nonneg; lia.
  - rewrite !mult_IZR, !bpow_IZR by lia.
    replace e with (Z.max 0 e + - Z.max 0 (- e))%Z at 3 by lia.
    rewrite bpow_add, bpow_opp.
    pose proof (bpow_pos (Z.max 0 (- e))). field. lra.
Qed.

(** Facts on [rne]. *)
Lemma rne_cases n d :
  (0 < d)%Z -> rne n d = (n / d)%Z \/ (rne n d = (n / d + 1)%Z /\ (d <= 2 * (n mod d))%Z).
Proof.
  intros Hd. unfold rne.
  destruct (Z.ltb_spec (2 * (n mod d)) d); [now left|].
  destruct (Z.ltb_spec d (2 * (n mod d))); [right; lia|].
  destruct (Z.even (n / d)); [now left | right; lia].
Qed.

Lemma rne_lower n d k : (0 < d)%Z -> (k * d <= n)%Z -> (k <= rne n d)%Z.
Proof.
  intros Hd H.
  assert (k <= n / d)%Z by (apply Z.div_le_lower_bound; lia).
  destruct (rne_cases n d Hd) as [->|[-> _]]; lia.
Qed.

Lemma rne_upper n d k : (0 < d)%Z -> (n <= k * d)%Z -> (rne n d <= k)%Z.
Proof.
  intros Hd H.
  pose proof (Z.div_mod n d ltac:(lia)) as E.
  pose proof (Z.mod_pos_bound n d Hd) as B.
  destruct (rne_cases n d Hd) as [->|[-> Hr]]; nia.
Qed.

Lemma rne_mono n1 d1 n2 d2 :
  (0 < d1)%Z -> (0 < d2)%Z -> (n1 * d2 <= n2 * d1)%Z -> (rne n1 d1 <= rne n2 d2)%Z.
Proof.
  intros H1 H2 H.
  pose proof (Z.div_mod n1 d1 ltac:(lia)) as E1.
  pose proof (Z.mod_pos_bound n1 d1 H1) as B1.
  pose proof (Z.div_mod n2 d2 ltac:(lia)) as E2.
  pose proof (Z.mod_pos_bound n2 d2 H2) as B2.
  set (q1 := (n1 / d1)%Z) in *. set (r1 := (n1 mod d1)%Z) in *.
  set (q2 := (n2 / d2)%Z) in *. set (r2 := (n2 mod d2)%Z) in *.
  assert (Hq : (q1 <= q2)%Z).
  { destruct (Z.le_gt_cases q1 q2); [easy|]. exfalso.
    assert (q2 + 1 <= q1)%Z by lia.
    assert (n2 * d1 < (q2 + 1) * d2 * d1)%Z by nia.
    assert ((q2 + 1) * d1 * d2 <= n1 * d2)%Z by nia. nia. }
  unfold rne. fold q1 r1 q2 r2.
  destruct (Z.ltb_spec (2 * r1) d1) as [A1|A1].
  { destruct (Z.ltb_spec (2 * r2) d2); [lia|].
    destruct (Z.ltb_spec d2 (2 * r2)); [lia|]. destruct (Z.even q2); lia. }
  assert (Hq' : (q1 < q2)%Z \/ q1 = q2) by lia.
  destruct Hq' as [Hlt|Heq].
  { destruct (Z.ltb_spec d1 (2 * r1)); [|destruct (Z.even q1)];
    (destruct (Z.ltb_spec (2 * r2) d2); [lia|]);
    (destruct (Z.ltb_spec d2 (2 * r2)); [lia|]); destruct (Z.even q2); lia. }
  assert (Hr : (r1 * d2 <= r2 * d1)%Z) by nia.
  destruct (Z.ltb_spec d1 (2 * r1)) as [A2|A2].
  { destruct (Z.ltb_spec (2 * r2) d2) as [C1|C1]; [exfalso; nia|].
    destruct (Z.ltb_spec d2 (2 * r2)) as [C2|C2]; [lia|].
    exfalso; nia. }
  assert (T1 : (2 * r1 = d1)%Z) by lia.
  destruct (Z.ltb_spec (2 * r2) d2) as [C1|C1]; [exfalso; nia|].
  destruct (Z.ltb_spec d2 (2 * r2)) as [C2|C2].
  { destruct (Z.even q1); lia. }
  rewrite Heq. destruct (Z.even q2); lia.
Qed.

Lemma frac_pos n d : (0 < n)%Z -> (0 < d)%Z -> 0 < frac n d.
Proof.
  intros Hn Hd. unfold frac. apply Rdiv_lt_0_compat; now apply IZR_lt.
Qed.

Lemma log2_bounds n :
  (0 < n)%Z -> bpow (Z.log2 n) <= IZR n < bpow (Z.log2 n + 1).
Proof.
  intros Hn. destruct (Z.log2_spec n Hn) as [L U].
  pose proof (Z.log2_nonneg n).
  rewrite <- !bpow_IZR by lia. split; [now apply IZR_le | apply IZR_lt]. 
  now rewrite <- Z.add_1_r in U.
Qed.

Lemma scaled_lt_pow n d e k :
  (0 < d)%Z -> (0 <= k)%Z ->
  ((fst (scale n d (- e)) <? 2 ^ k * snd (scale n d (- e)))%Z = true
   <-> frac n d < bpow (e + k)).
Proof.
  intros Hd Hk. destruct (scale_spec n d (- e) Hd) as [Hs E].
  rewrite Z.ltb_lt.
  rewrite <- (Z.mul_1_r (fst _)).
  rewrite <- (frac_lt _ _ (2 ^ k) 1 Hs ltac:(lia)).
  rewrite E, frac_int, bpow_IZR, bpow_add, bpow_opp by lia.
  pose proof (bpow_pos e). pose proof (bpow_pos k).
  split; intros H1.
  - apply Rmult_lt_reg_r with (/ bpow e); [now apply Rinv_0_lt_compat|].
    replace (bpow e * bpow k * / bpow e) with (bpow k) by (field; lra). exact H1.
  - apply Rmult_lt_reg_r with (bpow e); [easy|].
    replace (frac n d * / bpow e * bpow e) with (frac n d) by (field; lra). lra.
Qed.

Lemma exponent_spec n d :
  (0 < n)%Z -> (0 < d)%Z ->
  (emin <= exponent n d)%Z /\
  frac n d < bpow (exponent n d + 53) /\
  (exponent n d = emin \/ bpow (exponent n d + 52) <= frac n d).
Proof.
  intros Hn Hd.
  destruct (log2_bounds n Hn) as [Ln Un]. destruct (log2_bounds d Hd) as [Ld Ud].
  set (a := Z.log2 n) in *. set (b := Z.log2 d) in *.
  assert (Hd' : 0 < IZR d) by now apply IZR_lt.
  assert (Hx : bpow (a - b - 1) < frac n d < bpow (a - b + 1)).
  { pose proof (bpow_pos b) as Pb. pose proof (bpow_pos a) as Pa.
    rewrite bpow_succ in Un, Ud.
    replace (a - b - 1)%Z with (a + - (b + 1))%Z by lia.
    replace (a - b + 1)%Z with ((a + 1) + - b)%Z by lia.
    rewrite !bpow_add, !bpow_opp, !bpow_add.
    change (bpow 1) with (2 * 1). rewrite !Rmult_1_r.
    assert (En : IZR n = frac n d * IZR d) by (unfold frac; field; lra).
    set (x := frac n d) in *.
    assert (Px : 0 < x) by (apply frac_pos; lia).
    split.
    - apply Rmult_lt_reg_r with (bpow b * 2); [lra|].
      rewrite Rmult_assoc, Rinv_l, Rmult_1_r by lra.
      apply Rle_lt_trans with (x * IZR d); [lra|].
      apply Rmult_lt_compat_l; lra.
    - apply Rmult_lt_reg_r with (bpow b); [lra|].
      rewrite Rmult_assoc, Rinv_l, Rmult_1_r by lra.
      apply Rle_lt_trans with (x * IZR d); [|lra].
      apply Rmult_le_compat_l; lra. }
  unfold exponent. fold a b. set (e0 := (a - b - 52)%Z).
  destruct (scale n d (- e0)) as [ns ds] eqn:Es.
  pose proof (scaled_lt_pow n d e0 52 Hd ltac:(lia)) as T. rewrite Es in T. cbn [fst snd] in T.
  replace (a - b - 1)%Z with (e0 + 51)%Z in Hx by lia.
  replace (a - b + 1)%Z with (e0 + 53)%Z in Hx by lia.
  destruct (ns <? 2 ^ 52 * ds)%Z eqn:Et.
  - assert (H52 : frac n d < bpow (e0 + 52)) by now apply T.
    split; [lia|]. split.
    + apply Rlt_le_trans with (bpow (e0 + 52)); [easy|]. apply bpow_le. lia.
    + destruct (Z.max_spec emin (e0 - 1)) as [[H1 ->]|[H1 ->]]; [right|now left].
      replace (e0 - 1 + 52)%Z with (e0 + 51)%Z by lia. lra.
  - assert (H52 : ~ frac n d < bpow (e0 + 52)) by (intros H; apply T in H; congruence).
    split; [lia|]. split.
    + apply Rlt_le_trans with (bpow (e0 + 53)); [easy|]. apply bpow_le. lia.
    + destruct (Z.max_spec emin e0) as [[H1 ->]|[H1 ->]]; [right|now left]. lra.
Qed.

Lemma scaled_frac n d e :
  (0 < d)%Z ->
  (0 < snd (scale n d (- e)))%Z /\
  frac (fst (scale n d (- e))) (snd (scale n d (- e))) * bpow e = frac n d.
Proof.
  intros Hd. destruct (scale_spec n d (- e) Hd) as [Hs E]. split; [easy|].
  rewrite E, bpow_opp. pose proof (bpow_pos e). field. lra.
Qed.

Lemma scaled_ge n d e k :
  (0 < d)%Z -> IZR k * bpow e <= frac n d ->
  (k * snd (scale n d (- e)) <= fst (scale n d (- e)))%Z.
Proof.
  intros Hd H. destruct (scaled_frac n d e Hd) as [Hs E].
  rewrite <- (Z.mul_1_r (fst _)).
  apply (frac_le k 1 _ _ ltac:(lia) Hs). rewrite frac_int.
  rewrite <- E in H. pose proof (bpow_pos e). nra.
Qed.

Lemma scaled_le n d e k :
  (0 < d)%Z -> frac n d <= IZR k * bpow e ->
  (fst (scale n d (- e)) <= k * snd (scale n d (- e)))%Z.
Proof.
  intros Hd H. destruct (scaled_frac n d e Hd) as [Hs E].
  rewrite <- (Z.mul_1_r (fst _)).
  apply (frac_le _ _ k 1 Hs ltac:(lia)). rewrite frac_int.
  rewrite <- E in H. pose proof (bpow_pos e). nra.
Qed.

Lemma round_pos_unfold n d :
  round_pos n d =
  mkFloat (rne (fst (scale n d (- exponent n d))) (snd (scale n d (- exponent n d))))
          (exponent n d).
Proof. unfold round_pos. now destruct (scale n d (- exponent n d)). Qed.

Lemma bpow_lt_inv a b : bpow a < bpow b -> (a < b)%Z.
Proof.
  intros H. destruct (Z.lt_ge_cases a b) as [|Hge]; [easy|].
  apply bpow_le in Hge. lra.
Qed.

Lemma round_pos_nonneg n d : (0 < n)%Z -> (0 < d)%Z -> 0 <= F2R (round_pos n d).
Proof.
  intros Hn Hd. rewrite round_pos_unfold. unfold F2R; cbn [Fnum Fexp].
  pose proof (bpow_pos (exponent n d)).
  assert (0 <= rne (fst (scale n d (- exponent n d))) (snd (scale n d (- exponent n d))))%Z.
  { apply rne_lower; [apply scaled_frac; easy|]. apply scaled_ge; [easy|].
    pose proof (frac_pos n d Hn Hd). rewrite Rmult_0_l. lra. }
  apply IZR_le in H0. nra.
Qed.

Lemma round_pos_mono n1 d1 n2 d2 :
  (0 < n1)%Z -> (0 < d1)%Z -> (0 < n2)%Z -> (0 < d2)%Z ->
  frac n1 d1 <= frac n2 d2 ->
  F2R (round_pos n1 d1) <= F2R (round_pos n2 d2).
Proof.
  intros Hn1 Hd1 Hn2 Hd2 Hle.
  destruct (exponent_spec n1 d1 Hn1 Hd1) as (L1 & U1 & N1).
  destruct (exponent_spec n2 d2 Hn2 Hd2) as (L2 & U2 & N2).
  rewrite !round_pos_unfold.
  set (e1 := exponent n1 d1) in *. set (e2 := exponent n2 d2) in *.
  clearbody e1 e2.
  assert (He : (e1 <= e2)%Z).
  { destruct (Z.le_gt_cases e1 e2) as [|Hgt]; [easy|]. exfalso.
    destruct N1 as [N1|N1]; [lia|].
    assert (bpow (e2 + 53) <= bpow (e1 + 52)) by (apply bpow_le; lia). lra. }
  unfold F2R; cbn [Fnum Fexp].
  destruct (scaled_frac n1 d1 e1 Hd1) as [S1 E1].
  destruct (scaled_frac n2 d2 e2 Hd2) as [S2 E2].
  assert (Hcase : e1 = e2 \/ (e1 < e2)%Z) by lia.
  destruct Hcase as [Heq|Hlt].
  - subst e2. pose proof (bpow_pos e1).
    apply Rmult_le_compat_r; [lra|]. apply IZR_le.
    apply rne_mono; try easy. apply frac_le; try easy.
    rewrite <- E1, <- E2 in Hle.
    apply Rmult_le_reg_r in Hle; [easy | apply bpow_pos].
  - assert (M1 : (rne (fst (scale n1 d1 (- e1))) (snd (scale n1 d1 (- e1))) <= 2 ^ 53)%Z).
    { apply rne_upper; [easy|]. apply scaled_le; [easy|].
      rewrite bpow_IZR, <- bpow_add by lia. rewrite Z.add_comm. lra. }
    assert (M2 : (2 ^ 52 <= rne (fst (scale n2 d2 (- e2))) (snd (scale n2 d2 (- e2))))%Z).
    { apply rne_lower; [easy|]. apply scaled_ge; [easy|].
      rewrite bpow_IZR, <- bpow_add by lia. rewrite Z.add_comm.
      destruct N2 as [N2|N2]; [lia|lra]. }
    apply IZR_le in M1, M2. rewrite bpow_IZR in M1, M2 by lia.
    pose proof (bpow_pos e1). pose proof (bpow_pos e2).
    apply Rle_trans with (bpow 53 * bpow e1); [nra|].
    apply Rle_trans with (bpow 52 * bpow e2); [|nra].
    rewrite <- !bpow_add. apply bpow_le. lia.
Qed.

Lemma round_pos_exact n d m e :
  (0 < n)%Z -> (0 < d)%Z -> (0 < m < 2 ^ 53)%Z -> (emin <= e)%Z ->
  frac n d = IZR m * bpow e ->
  F2R (round_pos n d) = frac n d.
Proof.
  intros Hn Hd Hm He Hv.
  destruct (exponent_spec n d Hn Hd) as (L & U & N).
  rewrite round_pos_unfold. set (e' := exponent n d) in *. clearbody e'.
  assert (Hle : (e' <= e)%Z).
  { destruct N as [N|N]; [lia|].
    assert (IZR m < bpow 53) by (rewrite <- bpow_IZR by lia; apply IZR_lt; lia).
    pose proof (bpow_pos e).
    assert (bpow (e' + 52) < bpow (e + 53)).
    { rewrite (Z.add_comm e 53), (bpow_add 53 e).
      apply Rle_lt_trans with (IZR m * bpow e); [rewrite <- Hv; exact N|].
      apply Rmult_lt_compat_r; lra. }
    apply bpow_lt_inv in H1. lia. }
  destruct (scaled_frac n d e' Hd) as [S E].
  set (N' := (m * 2 ^ (e - e'))%Z).
  assert (HN : frac n d = IZR N' * bpow e').
  { rewrite Hv. unfold N'. rewrite mult_IZR, bpow_IZR by lia.
    rewrite Rmult_assoc, <- bpow_add. do 2 f_equal. lia. }
  assert (R : rne (fst (scale n d (- e'))) (snd (scale n d (- e'))) = N').
  { apply Z.le_antisymm.
    - apply rne_upper; [easy|]. apply scaled_le; [easy|lra].
    - apply rne_lower; [easy|]. apply scaled_ge; [easy|lra]. }
  unfold F2R; cbn [Fnum Fexp]. rewrite R. lra.
Qed.

Lemma frac_sign n d : (0 < d)%Z -> (0 <= frac n d <-> (0 <= n)%Z).
Proof.
  intros Hd. pose proof (frac_le 0 1 n d ltac:(lia) Hd) as H.
  unfold frac at 1 in H. replace (0 / 1) with 0 in H by field.
  rewrite H. lia.
Qed.

Lemma round_zero d : F2R (round 0 d) = 0.
Proof. unfold round, F2R; cbn. lra. Qed.

Lemma rounds_nonneg v f : rounds v f -> 0 <= v -> 0 <= F2R f.
Proof.
  intros (n & d & Hd & <- & ->) Hv. apply frac_sign in Hv; [|easy].
  unfold round. destruct (Z.eqb_spec n 0); [unfold F2R; simpl; lra|].
  destruct (Z.ltb_spec 0 n); [|lia]. now apply round_pos_nonneg.
Qed.

Lemma rounds_mono v1 f1 v2 f2 :
  rounds v1 f1 -> rounds v2 f2 -> 0 <= v1 <= v2 -> F2R f1 <= F2R f2.
Proof.
  intros (n1 & d1 & Hd1 & <- & ->) R2 [H0 Hle].
  pose proof (rounds_nonneg _ _ R2 ltac:(lra)) as P2.
  destruct R2 as (n2 & d2 & Hd2 & <- & ->).
  assert (Hn1 : (0 <= n1)%Z) by now apply frac_sign in H0.
  assert (Hn2 : (0 <= n2)%Z) by (apply (frac_sign n2 d2 Hd2); lra).
  unfold round at 1. destruct (Z.eqb_spec n1 0) as [->|Hz1].
  { unfold F2R at 1; cbn [Fnum Fexp]. lra. }
  destruct (Z.ltb_spec 0 n1); [|lia].
  assert (0 < frac n1 d1) by (apply frac_pos; lia).
  unfold round. destruct (Z.eqb_spec n2 0) as [->|Hz2].
  { unfold frac at 2 in Hle. replace (0 / IZR d2) with 0 in Hle; [lra|].
    unfold Rdiv. ring. }
  destruct (Z.ltb_spec 0 n2); [|lia].
  apply round_pos_mono; try easy.
Qed.

Lemma rounds_exact v f m e :
  rounds v f -> (0 <= m < 2 ^ 53)%Z -> (emin <= e)%Z -> v = IZR m * bpow e ->
  F2R f = v.
Proof.
  intros (n & d & Hd & <- & ->) Hm He Hv.
  pose proof (bpow_pos e) as Pe.
  assert (Hn : (0 <= n)%Z).
  { apply (frac_sign n d Hd). rewrite Hv.
    assert (0 <= IZR m) by (apply IZR_le; lia). nra. }
  unfold round. destruct (Z.eqb_spec n 0) as [->|Hz].
  { unfold F2R, frac; cbn [Fnum Fexp]. unfold Rdiv. ring. }
  destruct (Z.ltb_spec 0 n); [|lia].
  assert (0 < frac n d) by (apply frac_pos; lia).
  assert (m <> 0%Z) by (intros ->; rewrite Hv in *; lra).
  apply round_pos_exact with m e; try easy. lia.
Qed.

Lemma frac_sgn n d : d <> 0%Z -> frac (n * Z.sgn d) (Z.abs d) = frac n d.
Proof.
  intros Hd. unfold frac.
  assert (IZR d <> 0) by (intros H; apply eq_IZR in H; lia).
  destruct (Z.lt_total d 0) as [H1|[H1|H1]]; [|lia|].
  - rewrite Z.sgn_neg, Z.abs_neq by lia. rewrite mult_IZR, !opp_IZR. field. easy.
  - rewrite Z.sgn_pos, Z.abs_eq by lia. rewrite Z.mul_1_r. reflexivity.
Qed.

Lemma round_scaled_rounds n d e :
  d <> 0%Z -> rounds (frac n d * bpow e) (round_scaled n d e).
Proof.
  intros Hd. unfold round_scaled.
  destruct (scale_spec (n * Z.sgn d) (Z.abs d) e ltac:(lia)) as [Hs E].
  destruct (scale (n * Z.sgn d) (Z.abs d) e) as [ns ds]. cbn [fst snd] in *.
  exists ns, ds. rewrite E, frac_sgn by easy. easy.
Qed.

Lemma int_truediv_rounds a b :
  b <> 0%Z -> rounds (IZR a / IZR b) (int_truediv a b).
Proof.
  intros Hb. pose proof (round_scaled_rounds a b 0 Hb) as H.
  change (bpow 0) with 1 in H. rewrite Rmult_1_r in H. exact H.
Qed.

Lemma of_int_rounds z : rounds (IZR z) (of_int z).
Proof.
  exists z, 1%Z. split; [lia|]. split; [apply frac_int | reflexivity].
Qed.

Lemma F2R_exact_int z : F2R (exact_int z) = IZR z.
Proof. unfold F2R, exact_int; cbn. lra. Qed.

Lemma F2R_opp x : F2R (Fopp x) = - F2R x.
Proof. unfold F2R, Fopp; cbn [Fnum Fexp]. rewrite opp_IZR. ring. Qed.

Lemma Fmul_rounds x y : rounds (F2R x * F2R y) (Fmul x y).
Proof.
  pose proof (round_scaled_rounds (Fnum x * Fnum y) 1 (Fexp x + Fexp y) ltac:(lia)) as H.
  rewrite frac_int, mult_IZR, bpow_add in H. unfold F2R.
  replace (IZR (Fnum x) * bpow (Fexp x) * (IZR (Fnum y) * bpow (Fexp y)))
    with (IZR (Fnum x) * IZR (Fnum y) * (bpow (Fexp x) * bpow (Fexp y))) by ring.
  exact H.
Qed.




Lemma Ffloor_spec x : IZR (Ffloor x) <= F2R x < IZR (Ffloor x) + 1.
Proof.
  unfold Ffloor, F2R. destruct (Z.leb_spec 0 (Fexp x)) as [He|He].
  - rewrite mult_IZR, bpow_IZR by easy. lra.
  - set (P := (2 ^ (- Fexp x))%Z).
    assert (HP : (0 < P)%Z) by (apply Z.pow_pos_nonneg; lia).
    assert (EP : bpow (Fexp x) = / IZR P).
    { unfold P. rewrite bpow_IZR, <- bpow_opp by lia. f_equal. lia. }
    pose proof (Z.div_mod (Fnum x) P ltac:(lia)) as E.
    pose proof (Z.mod_pos_bound (Fnum x) P HP) as B.
    rewrite EP. apply IZR_lt in HP.
    assert (EM : IZR (Fnum x) = IZR P * IZR (Fnum x / P) + IZR (Fnum x mod P)).
    { rewrite <- mult_IZR, <- plus_IZR. now f_equal. }
    destruct B as [B1 B2]. apply IZR_le in B1. apply IZR_lt in B2.
    set (q := IZR (Fnum x / P)) in *. set (r := IZR (Fnum x mod P)) in *.
    rewrite EM. split.
    + apply Rmult_le_reg_r with (IZR P); [easy|].
      replace ((IZR P * q + r) * / IZR P * IZR P) with (IZR P * q + r) by (field; lra). nra.
    + apply Rmult_lt_reg_r with (IZR P); [easy|].
      replace ((IZR P * q + r) * / IZR P * IZR P) with (IZR P * q + r) by (field; lra). nra.
Qed.


Lemma Ffloor_mono x y : F2R x <= F2R y -> (Ffloor x <= Ffloor y)%Z.
Proof.
  intros H. destruct (Ffloor_spec x) as [L1 U1]. destruct (Ffloor_spec y) as [L2 U2].
  assert (IZR (Ffloor x) < IZR (Ffloor y) + 1) by lra.
  rewrite <- plus_IZR in H0. apply lt_IZR in H0. lia.
Qed.

Lemma F2R_sign x : (0 <= F2R x <-> (0 <= Fnum x)%Z).
Proof.
  unfold F2R. pose proof (bpow_pos (Fexp x)). split; intros H1.
  - apply le_IZR. nra.
  - apply IZR_le in H1. nra.
Qed.

Lemma Ftrunc_nonneg x : 0 <= F2R x -> Ftrunc x = Ffloor x.
Proof.
  intros H. apply F2R_sign in H. unfold Ftrunc, Ffloor.
  destruct (0 <=? Fexp x)%Z eqn:E; [easy|]. apply Z.leb_gt in E.
  apply Z.quot_div_nonneg; [easy|]. apply Z.pow_pos_nonneg; lia.
Qed.


Lemma F2R_zero_iff x : F2R x = 0 <-> Fnum x = 0%Z.
Proof.
  unfold F2R. pose proof (bpow_pos (Fexp x)). split; intros H1.
  - apply eq_IZR. nra.
  - rewrite H1. lra.
Qed.

Lemma rounds_int v f k :
  rounds v f -> (0 <= k < 2 ^ 53)%Z -> v = IZR k -> F2R f = IZR k.
Proof.
  intros Hr Hk Hv. rewrite <- Hv. apply rounds_exact with k 0%Z; try easy.
  change (bpow 0) with 1. lra.
Qed.


End Binary64Facts.

(** The model agrees with the kernel's binary64 arithmetic on sample
    computations of the scripts. *)
Example agrees_with_primitive_floats :
  let ts := Binary64.int_truediv 18902592059999999 (10 ^ 6) in
  let third := Binary64.int_truediv 1 3 in
  PrimFloat.eqb (Binary64.to_prim ts) 18902592060%float = true /\
  PrimFloat.eqb (Binary64.to_prim third) (1 / 3)%float = true /\
  PrimFloat.eqb (Binary64.to_prim (Binary64.Fmul third (Binary64.of_int 100)))
                (1 / 3 * 100)%float = true /\
  PrimFloat.eqb (Binary64.to_prim
                   (Binary64.Fmul (Binary64.int_truediv 57000 (10 ^ 6))
                                  (Binary64.of_int 1000)))
                (57000 / 1000000 * 1000)%float = true /\
  PrimFloat.eqb (Binary64.to_prim
                   (Binary64.Fadd (Binary64.int_truediv 1 10) (Binary64.int_truediv 2 10)))
                (1 / 10 + 2 / 10)%float = true.
Proof. vm_compute. repeat split. Qed.

(* ----------------------------------------------------------------- *)
(** ** Durations *)

Section DurationFacts.
Import Binary64 Spec Py Sys ExecutionManager.
Local Open Scope string_scope.
Local Open Scope Z_scope.

(** [total_seconds] is the rounding of the exact quotient, so it grows
    with the microseconds and is exact on whole seconds. *)
Lemma total_seconds_rounds us :
  rounds (IZR us / IZR (10 ^ 6)) (Datetime.total_seconds us).
Proof. apply int_truediv_rounds. lia. Qed.

Lemma total_seconds_mono u1 u2 :
  0 <= u1 <= u2 -> (F2R (Datetime.total_seconds u1) <= F2R (Datetime.total_seconds u2))%R.
Proof.
  intros [H0 H]. eapply rounds_mono; try apply total_seconds_rounds.
  apply IZR_le in H0, H. assert (0 < IZR (10 ^ 6))%R by (apply IZR_lt; lia).
  split.
  - apply Rmult_le_pos; [lra|]. apply Rlt_le, Rinv_0_lt_compat; lra.
  - apply Rmult_le_compat_r; [|lra]. apply Rlt_le, Rinv_0_lt_compat; lra.
Qed.

Lemma total_seconds_nonneg us : 0 <= us -> (0 <= F2R (Datetime.total_seconds us))%R.
Proof.
  intros H. eapply rounds_nonneg; [apply total_seconds_rounds|].
  apply IZR_le in H. assert (0 < IZR (10 ^ 6))%R by (apply IZR_lt; lia).
  apply Rmult_le_pos; [lra|]. apply Rlt_le, Rinv_0_lt_compat; lra.
Qed.


Lemma of_int_exact k : 0 <= k < 2 ^ 53 -> F2R (of_int k) = IZR k.
Proof. intros H. eapply rounds_int; [apply of_int_rounds|exact H|reflexivity]. Qed.



Lemma ms_of_mono u1 u2 : 0 <= u1 <= u2 -> ms_of u1 <= ms_of u2.
Proof.
  intros H. unfold ms_of.
  pose proof (total_seconds_mono u1 u2 H) as M.
  pose proof (total_seconds_nonneg u1 ltac:(lia)) as P1.
  pose proof (of_int_exact 1000 ltac:(lia)) as E.
  assert (Hm : (F2R (Fmul (Datetime.total_seconds u1) (of_int 1000))
                <= F2R (Fmul (Datetime.total_seconds u2) (of_int 1000)))%R).
  { eapply rounds_mono; try apply Fmul_rounds. rewrite E. lra. }
  assert (Hp : forall u, 0 <= u ->
     (0 <= F2R (Fmul (Datetime.total_seconds u) (of_int 1000)))%R).
  { intros u Hu. eapply rounds_nonneg; [apply Fmul_rounds|]. rewrite E.
    pose proof (total_seconds_nonneg u Hu). lra. }
  rewrite !Ftrunc_nonneg by (apply Hp; lia). now apply Ffloor_mono.
Qed.

Lemma upto_in n k : 0 <= k < Z.of_nat n -> In k (upto n).
Proof.
  intros H. unfold upto. apply in_map_iff. exists (Z.to_nat k). split; [lia|].
  apply in_seq. lia.
Qed.

(** [int(total_seconds * 1000)] is monotone, and equal to [j] at both
    ends of every range [1000 * j .. 1000 * j + 999]: it is [us / 1000]
    on the whole first tier. *)
Lemma ms_checked : forallb ms_check (upto 1000) = true.
Proof. vm_compute. reflexivity. Qed.

Lemma ms_of_exact us : 0 <= us < 10 ^ 6 -> ms_of us = us / 1000.
Proof.
  intros H. set (j := us / 1000).
  assert (Hj : 0 <= j < 1000) by (unfold j; split; [apply Z.div_pos; lia | apply Z.div_lt_upper_bound; lia]).
  pose proof (Z.div_mod us 1000 ltac:(lia)) as E. fold j in E.
  pose proof (Z.mod_pos_bound us 1000 ltac:(lia)) as B.
  pose proof ms_checked as C. rewrite forallb_forall in C.
  specialize (C j (upto_in 1000 j ltac:(lia))). unfold ms_check in C.
  apply andb_prop in C. destruct C as [C1 C2]. apply Z.eqb_eq in C1, C2.
  pose proof (ms_of_mono (1000 * j) us ltac:(lia)).
  pose proof (ms_of_mono us (1000 * j + 999) ltac:(lia)). lia.
Qed.











Lemma truthy_str s : s <> "" -> truthy (VStr s) = true.
Proof. destruct s; [congruence | reflexivity]. Qed.





Context {rt : Runtime}.

Lemma format_duration_parsed start stop a b us :
  start <> "" -> stop <> "" ->
  fromisoformat (Str.replace_char "Z" "+00:00" start) = Some a ->
  fromisoformat (Str.replace_char "Z" "+00:00" stop) = Some b ->
  Datetime.sub b a = Ok us ->
  format_duration (VStr start) (VStr stop) = render_duration us.
Proof.
  intros Hs Ht Pa Pb Hd. unfold format_duration.
  rewrite !truthy_str by easy. cbn [negb orb parse_timestamp].
  rewrite Pa, Pb. cbn [rbind]. rewrite Hd. reflexivity.
Qed.

(** Two timestamps of which one is naive and the other aware have no
    difference, and no order either: the pair is rendered as the
    placeholder. *)
Lemma format_duration_mixed start stop a b e :
  fromisoformat (Str.replace_char "Z" "+00:00" start) = Some a ->
  fromisoformat (Str.replace_char "Z" "+00:00" stop) = Some b ->
  Datetime.sub b a = Raise e ->
  format_duration (VStr start) (VStr stop) = "N/A".
Proof.
  intros Pa Pb Hd. unfold format_duration.
  destruct (negb (truthy (VStr start)) || negb (truthy (VStr stop))); [reflexivity|].
  cbn [parse_timestamp]. rewrite Pa, Pb. cbn [rbind]. rewrite Hd. reflexivity.
Qed.


(** C8.  When the start or the stop timestamp is missing or empty, or
    either string fails to parse, [format_duration], which is a total
    function into strings and so raises nothing, returns the placeholder
    [N/A]. *)
Theorem format_duration_placeholder (start stop : value) :
  start = VNone \/ start = VStr "" \/ stop = VNone \/ stop = VStr "" \/
  (exists s, start = VStr s /\ fromisoformat (Str.replace_char "Z" "+00:00" s) = None) \/
  (exists s, stop = VStr s /\ fromisoformat (Str.replace_char "Z" "+00:00" s) = None) ->
  ExecutionManager.format_duration start stop = "N/A".
Proof.
  unfold ExecutionManager.format_duration.
  intros [->|[->|[->|[->|[(s & -> & P)|(s & -> & P)]]]]]; try reflexivity.
  - now destruct (truthy start).
  - now destruct (truthy start).
  - destruct (negb (truthy (VStr s)) || negb (truthy stop)); [reflexivity|].
    cbn [ExecutionManager.parse_timestamp]. rewrite P. reflexivity.
  - destruct (negb (truthy start) || negb (truthy (VStr s))); [reflexivity|].
    destruct (ExecutionManager.parse_timestamp start); cbn [rbind]; [|reflexivity].
    cbn [ExecutionManager.parse_timestamp]. rewrite P. reflexivity.
Qed.

End DurationFacts.

(* ----------------------------------------------------------------- *)
(** ** Records with missing fields *)

Section RecordFacts.
Import Spec Py Sys.
Local Open Scope string_scope.
Local Open Scope Z_scope.
Context {rt : Runtime}.

Lemma get_dict d k default : get (VDict d) k default = Ok (field d k default).
Proof. reflexivity. Qed.

Lemma format_left_str_or_int w v :
  str_or_int v -> format_left w v = Ok (Str.ljust w (str v)).
Proof. intros [[s ->]|[z ->]]; reflexivity. Qed.

Lemma field_str d k default :
  absent_or_str k d -> exists s, field d k (VStr default) = VStr s.
Proof. unfold field. intros [->|[s ->]]; eauto. Qed.


Lemma started_timestamp d :
  absent_or_str "startedAt" d ->
  exists ts, ExecutionManager.format_timestamp (field d "startedAt" VNone) = Ok ts
             /\ (lookup "startedAt" d = None -> ts = "N/A").
Proof.
  unfold field. intros [->|[s ->]].
  - exists "N/A". split; reflexivity.
  - unfold ExecutionManager.format_timestamp.
    destruct (negb (truthy (VStr s))); eexists; (split; [reflexivity|discriminate]).
Qed.


End RecordFacts.

(* ----------------------------------------------------------------- *)
(** ** Requests *)

Section RequestFacts.
Import Spec Py Sys.
Local Open Scope string_scope.
Local Open Scope Z_scope.
Context {rt : Runtime}.

Lemma bind_ret_r {A} (c : M A) w : bind c ret w = c w.
Proof. unfold bind, ret. destruct (c w) as [[a|e] w']; reflexivity. Qed.

Lemma bind_pure_sent c0 (k : value -> M value) w :
  pure_cont k -> sent (snd (bind c0 k w)) = sent (snd (c0 w)).
Proof.
  intros Hk. unfold bind. destruct (c0 w) as [[a|e] w']; [|reflexivity].
  now rewrite Hk.
Qed.

Section Client.
Import WorkflowCrud.

(** A failed request ends [_request] with [sys.exit(1)], after the error
    report and one request. *)
Lemma _request_failed c method endpoint data w :
  let rq := mkRequest method (base_url c ++ endpoint) (session_headers c) data 30 in
  failed (http (sent w) rq) = true ->
  _request c method endpoint data w =
  (Raise (SystemExit 1),
   mkWorld (sent w ++ [rq]) (stdout w)
           (stderr w ++ error_report (base_url c ++ endpoint) (http (sent w) rq))
           (ticks w)).
Proof.
  intros rq. unfold _request, try_except, bind, send. fold rq.
  destruct (http (sent w) rq) as [msg|r]; cbn [failed]; intros F.
  - reflexivity.
  - unfold raise_for_status. rewrite F. cbn [raise is_request_exception report_and_exit].
    unfold bind, eprint, error_report, error_body. cbn [stderr sent stdout ticks].
    destruct (response_json r); cbn; rewrite <- ?app_assoc; reflexivity.
Qed.

(** [_request] sends one request, with the headers of the session. *)
Lemma _request_sends c method endpoint data w :
  sent (snd (_request c method endpoint data w)) =
  (sent w ++ [mkRequest method (base_url c ++ endpoint) (session_headers c) data 30])%list.
Proof.
  set (rq := mkRequest method (base_url c ++ endpoint) (session_headers c) data 30).
  destruct (failed (http (sent w) rq)) eqn:F.
  - rewrite (_request_failed c method endpoint data w F). reflexivity.
  - unfold _request, try_except, bind, send. fold rq.
    destruct (http (sent w) rq) as [msg|r]; cbn [failed] in F; [discriminate|].
    unfold raise_for_status. rewrite F. cbn [ret].
    destruct (negb (Str.is_empty (text r))); [|reflexivity].
    unfold lift, response_json. destruct (json_loads (text r)); reflexivity.
Qed.

(** Every operation but the webhook trigger is one [_request], followed
    by a step that touches nothing. *)
Lemma call_shape c op :
  is_trigger op = false ->
  exists method endpoint data k,
    pure_cont k /\ forall w, call c op w = bind (_request c method endpoint data) k w.
Proof.
  destruct op; cbn [is_trigger call]; intros H; try discriminate;
    try (eexists _, _, _, ret; split;
         [intros v w; reflexivity | intros w; symmetry; apply bind_ret_r]).
  - eexists _, _, _, (fun result => lift (get result "data" (VList []))).
    split; [intros v w; reflexivity | reflexivity].
  - eexists _, _, _, (fun _ => ret VNone). split; [intros v w|]; reflexivity.
  - eexists _, _, _, (fun result => lift (get result "data" (VList []))).
    split; [intros v w; reflexivity | reflexivity].
  - eexists _, _, _, (fun _ => ret VNone). split; [intros v w|]; reflexivity.
Qed.

(** C10.  Every operation of a client built from a URL and a key sends
    one request; the webhook trigger sends it with no [X-N8N-API-KEY]
    header at all, and every other operation sends it with the header
    [X-N8N-API-KEY] set to the key. *)
Theorem api_key_header url key op w :
  let c := init url key in
  exists rq,
    sent (snd (call c op w)) = (sent w ++ [rq])%list /\
    if is_trigger op
    then forall v, ~ In ("X-N8N-API-KEY", v) (rq_headers rq)
    else In ("X-N8N-API-KEY", key) (rq_headers rq).
Proof.
  intros c. destruct (is_trigger op) eqn:T.
  - destruct op; try discriminate. cbn [call]. unfold trigger_webhook, bind, send.
    eexists. split.
    + destruct (http (sent w) _) as [msg|r]; [reflexivity|].
      destruct (response_json r); reflexivity.
    + intros v [].
  - destruct (call_shape c op T) as (method & endpoint & data & k & Hk & E).
    rewrite E, (bind_pure_sent _ k w Hk), _request_sends.
    eexists. split; [reflexivity|]. left. reflexivity.
Qed.

(** C7.  Triggering the webhook at [path] sends one POST, to
    [<base>/webhook-test/<path>] when [test] is set and to
    [<base>/webhook/<path>] otherwise, [<base>] being the base URL of the
    client. *)
Theorem trigger_webhook_route c path data test w :
  exists rq,
    sent (snd (trigger_webhook c path data test w)) = (sent w ++ [rq])%list /\
    rq_method rq = "POST" /\
    rq_url rq = base_url c ++ (if test then "/webhook-test/" else "/webhook/") ++ path.
Proof.
  unfold trigger_webhook, bind, send. eexists. split; [|split].
  - destruct (http (sent w) _) as [msg|r]; [reflexivity|].
    destruct (response_json r); reflexivity.
  - reflexivity.
  - destruct test; reflexivity.
Qed.

End Client.


End RequestFacts.

(* ----------------------------------------------------------------- *)
(** ** The debug report *)

Section DebugFacts.
Import Spec Py Sys ExecutionManager.
Local Open Scope string_scope.
Local Open Scope Z_scope.

(** Output only grows. *)
Lemma extends_ret {A} (a : A) : extends (ret a).
Proof. intros w. exists []. cbn. now rewrite app_nil_r. Qed.



Lemma extends_bind {A B} (c : M A) (k : A -> M B) :
  extends c -> (forall a, extends (k a)) -> extends (bind c k).
Proof.
  intros Hc Hk w. unfold bind. destruct (Hc w) as [m1 E1].
  destruct (c w) as [[a|e] w1]; cbn [snd] in *.
  - destruct (Hk a w1) as [m2 E2]. exists (m1 ++ m2)%list.
    rewrite E2, E1. now rewrite app_assoc.
  - exists m1. exact E1.
Qed.

Lemma extends_for_each {A} (l : list A) (body : A -> M unit) :
  (forall a, extends (body a)) -> extends (for_each l body).
Proof.
  intros Hb. induction l as [|x l IH]; cbn [for_each].
  - apply extends_ret.
  - apply extends_bind; [apply Hb | intros _; exact IH].
Qed.

(** The order on names. *)
Lemma ascii_compare_trans a b c :
  Ascii.compare a b = Lt -> Ascii.compare b c = Lt -> Ascii.compare a c = Lt.
Proof.
  unfold Ascii.compare. rewrite !N.compare_lt_iff. lia.
Qed.

Lemma string_compare_trans s1 : forall s2 s3,
  String.compare s1 s2 = Lt -> String.compare s2 s3 = Lt -> String.compare s1 s3 = Lt.
Proof.
  induction s1 as [|a s1 IH]; intros [|b s2] [|c s3]; cbn; try easy.
  destruct (Ascii.compare a b) eqn:E1; try easy;
    destruct (Ascii.compare b c) eqn:E2; try easy.
  - apply Ascii.compare_eq_iff in E1, E2. subst.
    assert (Ascii.compare c c = Eq) as -> by (unfold Ascii.compare; apply N.compare_refl).
    apply IH.
  - apply Ascii.compare_eq_iff in E1. subst. now rewrite E2.
  - apply Ascii.compare_eq_iff in E2. subst. now rewrite E1.
  - now rewrite (ascii_compare_trans a b c E1 E2).
Qed.

Lemma string_compare_refl s : String.compare s s = Eq.
Proof.
  induction s as [|a s IH]; cbn; [reflexivity|].
  assert (Ascii.compare a a = Eq) as -> by (unfold Ascii.compare; apply N.compare_refl).
  exact IH.
Qed.

Lemma name_le_trans a b c : name_le a b -> name_le b c -> name_le a c.
Proof.
  unfold name_le, String.leb. intros H1 H2.
  destruct (String.compare a b) eqn:E1; try discriminate;
    destruct (String.compare b c) eqn:E2; try discriminate.
  - apply String.compare_eq_iff in E1. subst. now rewrite E2.
  - apply String.compare_eq_iff in E1. subst. now rewrite E2.
  - apply String.compare_eq_iff in E2. subst. now rewrite E1.
  - now rewrite (string_compare_trans a b c E1 E2).
Qed.

Lemma not_ltb_name_le a b : String.ltb b a = false -> name_le a b.
Proof.
  unfold name_le, String.ltb, String.leb. rewrite (String.compare_antisym a b).
  destruct (String.compare b a); cbn; congruence.
Qed.

Lemma ltb_name_le a b : String.ltb a b = true -> name_le a b.
Proof.
  unfold name_le, String.ltb, String.leb. destruct (String.compare a b); congruence.
Qed.








Context {rt : Runtime}.









End DebugFacts.

(* ----------------------------------------------------------------- *)
(** ** Statistics *)

Section StatsFacts.
Import Binary64 Spec Py Sys ExecutionManager.
Local Open Scope string_scope.
Local Open Scope Z_scope.

Lemma prints_ret w : prints (ret tt) w [].
Proof. unfold prints, ret. destruct w; cbn. now rewrite app_nil_r. Qed.

Lemma prints_print s w : prints (print s) w [s].
Proof. reflexivity. Qed.

Lemma prints_seq (c : M unit) (k : unit -> M unit) w l1 l2 :
  prints c w l1 ->
  prints (k tt) (mkWorld (sent w) (stdout w ++ l1) (stderr w) (ticks w)) l2 ->
  prints (bind c k) w (l1 ++ l2).
Proof.
  unfold prints, bind. intros -> ->. cbn. now rewrite app_assoc.
Qed.

Lemma prints_seq_eq (c : M unit) (k : unit -> M unit) w l1 l2 l :
  l = (l1 ++ l2)%list ->
  prints c w l1 ->
  prints (k tt) (mkWorld (sent w) (stdout w ++ l1) (stderr w) (ticks w)) l2 ->
  prints (bind c k) w l.
Proof. intros ->. apply prints_seq. Qed.

Lemma prints_lift {A} (r : result A) (a : A) (k : A -> M unit) w l :
  r = Ok a -> prints (k a) w l -> prints (bind (lift r) k) w l.
Proof. unfold prints, bind, lift. now intros -> ->. Qed.

(** Counting. *)
Lemma counts_get_set c k k' n default :
  counts_get (counts_set c (VStr k) n) (VStr k') default =
  if String.eqb k' k then n else counts_get c (VStr k') default.
Proof.
  induction c as [|[k0 n0] c IH]; cbn [counts_set counts_get].
  - cbn [Py.eqb]. reflexivity.
  - destruct (Py.eqb (VStr k) k0) eqn:E.
    + destruct k0; cbn [Py.eqb] in E; try discriminate.
      apply String.eqb_eq in E. subst s. cbn [counts_get Py.eqb].
      destruct (String.eqb k' k); reflexivity.
    + cbn [counts_get]. rewrite IH.
      destruct (Py.eqb (VStr k') k0) eqn:E'; [|reflexivity].
      destruct k0; cbn [Py.eqb] in E, E'; try discriminate.
      apply String.eqb_eq in E'. subst s.
      destruct (String.eqb k' k) eqn:E2; [|reflexivity].
      apply String.eqb_eq in E2. subst k'. rewrite String.eqb_refl in E. discriminate.
Qed.

Lemma counts_set_str_keys c k n : str_keys c -> str_keys (counts_set c (VStr k) n).
Proof.
  unfold str_keys. induction 1 as [|[k0 n0] c H0 Hc IH]; cbn [counts_set].
  - repeat constructor. now exists k.
  - destruct (Py.eqb (VStr k) k0); constructor; easy.
Qed.

Context {rt : Runtime}.

Lemma tally_one_status t d :
  absent_or_str "status" d ->
  exists s t',
    field d "status" (VStr "unknown") = VStr s /\
    tally_one t (VDict d) = Ok t' /\
    status_counts t' =
    counts_set (status_counts t) (VStr s) (counts_get (status_counts t) (VStr s) 0 + 1).
Proof.
  intros Hs. destruct (field_str d "status" "unknown" Hs) as [s Es].
  exists s. unfold tally_one. rewrite !get_dict, Es.
  cbn [rbind count_status hashable].
  destruct (truthy (field d "startedAt" VNone) && truthy (field d "stoppedAt" VNone)).
  - match goal with |- context [match ?x with Ok _ => _ | Raise _ => _ end] =>
      destruct x end; eexists; split; try reflexivity; split; reflexivity.
  - eexists; split; [reflexivity|]; split; reflexivity.
Qed.

Lemma tally_all_counts execs : forall t,
  Forall stats_record execs -> str_keys (status_counts t) ->
  exists t',
    tally_all t execs = Ok t' /\ str_keys (status_counts t') /\
    forall s, counts_get (status_counts t') (VStr s) 0 =
              counts_get (status_counts t) (VStr s) 0 + count_of s execs.
Proof.
  induction execs as [|ex execs IH]; intros t Hf Hk.
  - exists t. split; [reflexivity|]. split; [exact Hk|]. intros s. unfold count_of; cbn. lia.
  - inversion Hf as [|? ? (d & -> & Hs) Hf']; subst.
    destruct (tally_one_status t d Hs) as (s0 & t1 & Es & E1 & C1).
    destruct (IH t1 Hf') as (t' & E' & K' & C').
    { rewrite C1. now apply counts_set_str_keys. }
    exists t'. cbn [tally_all]. rewrite E1. cbn [rbind]. split; [exact E'|].
    split; [exact K'|]. intros s. rewrite C', C1, counts_get_set.
    unfold count_of. cbn [filter status_of]. rewrite Es. cbn [Py.eqb].
    destruct (String.eqb s s0) eqn:E.
    + apply String.eqb_eq in E. subst s0. cbn [List.length]. lia.
    + lia.
Qed.

Lemma insert_item_str x l :
  (exists s, fst x = VStr s) -> str_keys l ->
  exists r, insert_item x l = Ok r /\ str_keys r.
Proof.
  intros [s Hx]. induction 1 as [|y l [sy Hy] Hl IH]; cbn [insert_item].
  - eexists. split; [reflexivity|]. repeat constructor. now exists s.
  - unfold item_lt. rewrite Hx, Hy. cbn [Py.eqb Py.lt].
    destruct (String.eqb sy s); cbn [rbind].
    + destruct (snd y <? snd x)%Z.
      * destruct IH as (r & -> & Hr). cbn [rbind]. eexists. split; [reflexivity|].
        constructor; [now exists sy | exact Hr].
      * eexists. split; [reflexivity|].
        constructor; [now exists s|]. constructor; [now exists sy | exact Hl].
    + destruct (String.ltb sy s).
      * destruct IH as (r & -> & Hr). cbn [rbind]. eexists. split; [reflexivity|].
        constructor; [now exists sy | exact Hr].
      * eexists. split; [reflexivity|].
        constructor; [now exists s|]. constructor; [now exists sy | exact Hl].
Qed.

Lemma sorted_items_str l : str_keys l -> exists r, sorted_items l = Ok r /\ str_keys r.
Proof.
  induction 1 as [|x l Hx Hl IH]; cbn [sorted_items].
  - exists []. split; [reflexivity | constructor].
  - destruct IH as (r & -> & Hr). cbn [rbind]. now apply insert_item_str.
Qed.

Lemma status_lines total l :
  total <> 0 ->
  exists lines,
    no_rate_line lines /\
    forall w,
      prints (for_each l (fun item => line <- lift (status_line total item) ;; print line)%cmd)
             w lines.
Proof.
  intros Ht. induction l as [|x l (ls & Fls & IH)]; cbn [for_each].
  - exists []. split; [constructor|]. intros w. apply prints_ret.
  - assert (Hx : exists line, status_line total x = Ok line /\ is_rate_line line = false).
    { unfold status_line, int_div. destruct (Z.eqb_spec total 0); [contradiction|].
      cbn [rbind]. eexists. split; reflexivity. }
    destruct Hx as (line & Hx & Hr).
    exists ([line] ++ ls)%list. split; [constructor; assumption|].
    intros w. eapply prints_seq; [|apply IH].
    eapply prints_lift; [exact Hx|]. apply prints_print.
Qed.

Lemma of_int_nonzero c : 0 < c -> Fis_zero (of_int c) = false.
Proof.
  intros Hc. unfold Fis_zero. apply Z.eqb_neq. intros E.
  apply F2R_zero_iff in E.
  assert (H : (F2R (of_int 1) <= F2R (of_int c))%R).
  { eapply rounds_mono; try apply of_int_rounds. split; [lra|apply IZR_le; lia]. }
  rewrite (of_int_exact 1) in H by lia. lra.
Qed.

Lemma success_rate_line_spec c :
  success_rate_line c =
  Ok (match rate_lines (counts_get c (VStr "success") 0) (counts_get c (VStr "error") 0) with
      | [line] => Some line
      | _ => None
      end).
Proof.
  unfold success_rate_line, rate_lines, int_div.
  destruct (Z.ltb_spec 0 (counts_get c (VStr "success") 0 + counts_get c (VStr "error") 0));
    [|reflexivity].
  destruct (Z.eqb_spec (counts_get c (VStr "success") 0 + counts_get c (VStr "error") 0) 0);
    [lia|reflexivity].
Qed.

(** C4.  For executions of which [s] have the status [success] and [e]
    the status [error], [cmd_stats] ends normally (so no division by zero
    is raised) and its last line is the success rate [s / (s + e) * 100],
    computed in binary64 and printed with one decimal, when [s + e > 0];
    when [s + e = 0] no line of the output gives a success rate;
    executions in other statuses count in neither [s] nor [e]. *)
Theorem stats_success_rate m args w w1 execs :
  list_executions m (sa_workflow_id args) None 100 w = (Ok (VList execs), w1) ->
  Forall stats_record execs ->
  let s := count_of "success" execs in
  let e := count_of "error" execs in
  exists lines w',
    cmd_stats m args w = (Ok tt, w') /\
    stdout w' = (stdout w1 ++ lines ++ rate_lines s e)%list /\
    no_rate_line lines /\
    (0 < s + e ->
     rate_lines s e =
     ["Success rate: " ++ Fmt.fixed 1 (Fmul (int_truediv s (s + e)) (of_int 100)) ++ "%"]) /\
    (s + e = 0 -> rate_lines s e = []).
Proof.
  intros Hl Hf s e.
  assert (R1 : 0 < s + e -> rate_lines s e =
     ["Success rate: " ++ Fmt.fixed 1 (Fmul (int_truediv s (s + e)) (of_int 100)) ++ "%"]).
  { intros H. unfold rate_lines. destruct (Z.ltb_spec 0 (s + e)); [reflexivity|lia]. }
  assert (R0 : s + e = 0 -> rate_lines s e = []).
  { intros H. unfold rate_lines. rewrite H. reflexivity. }
  unfold cmd_stats. unfold bind at 1. rewrite Hl.
  destruct (truthy (VList execs)) eqn:Hne.
  2:{ assert (Ex : execs = []) by (destruct execs; [reflexivity|discriminate]).
      cbn [negb]. exists ["No executions found"]. eexists. split; [reflexivity|].
      cbn [stdout]. split; [|split; [repeat constructor | split; assumption]].
      unfold s, e. rewrite Ex. reflexivity. }
  - cbn [negb].
    destruct (tally_all_counts execs tally0 Hf ltac:(constructor)) as (t & Et & Kt & Ct).
    destruct (sorted_items_str _ Kt) as (sorted & Es & _).
    set (total := Z.of_nat (List.length execs)).
    assert (Htot : total <> 0).
    { unfold total. destruct execs; [discriminate|]. cbn [List.length]. lia. }
    assert (Hs : counts_get (status_counts t) (VStr "success") 0 = s) by (rewrite Ct; reflexivity).
    assert (He : counts_get (status_counts t) (VStr "error") 0 = e) by (rewrite Ct; reflexivity).
    destruct (status_lines total sorted Htot) as (sl & Fsl & Esl).
    assert (A : exists al, no_rate_line al /\ forall w0,
      prints (if (0 <? count_with_duration t)%Z then
                avg_duration <- lift (float_div (total_duration t)
                                                (of_int (count_with_duration t))) ;;
                print (Str.nl ++ "Average duration: " ++ Fmt.fixed 2 avg_duration ++ "s")
              else ret tt)%cmd w0 al).
    { destruct (0 <? count_with_duration t)%Z eqn:Ec.
      - eexists. split; [|intros w0; eapply prints_lift; [|apply prints_print]].
        2:{ unfold float_div. rewrite of_int_nonzero by (apply Z.ltb_lt; exact Ec).
            reflexivity. }
        repeat constructor.
      - exists []. split; [constructor|]. intros w0. apply prints_ret. }
    destruct A as (al & Fal & Eal).
    assert (P : exists lines, no_rate_line lines /\
      prints
        (execs0 <- lift (iter (VList execs)) ;;
         t <- lift (tally_all tally0 execs0) ;;
         print "Execution Statistics" ;;;
         print (Str.repeat_string "-" 40) ;;;
         total <- lift (len (VList execs)) ;;
         print ("Total executions: " ++ Str.of_Z total) ;;;
         sorted <- lift (sorted_items (status_counts t)) ;;
         for_each sorted (fun item => line <- lift (status_line total item) ;; print line) ;;;
         (if (0 <? count_with_duration t)%Z then
            avg_duration <- lift (float_div (total_duration t)
                                            (of_int (count_with_duration t))) ;;
            print (Str.nl ++ "Average duration: " ++ Fmt.fixed 2 avg_duration ++ "s")
          else ret tt) ;;;
         rate <- lift (success_rate_line (status_counts t)) ;;
         match rate with
         | Some line => print line
         | None => ret tt
         end)%cmd w1 (lines ++ rate_lines s e)).
    { set (tline := "Total executions: " ++ Str.of_Z total).
      exists ("Execution Statistics" :: Str.repeat_string "-" 40
              :: tline :: (sl ++ al))%list.
      split.
      { repeat (constructor; [reflexivity|]). apply Forall_app. split; assumption. }
      eapply prints_lift; [reflexivity|].
      eapply prints_lift; [exact Et|].
      eapply (prints_seq_eq _ _ _ ["Execution Statistics"]);
        [reflexivity | apply prints_print|].
      eapply (prints_seq_eq _ _ _ [Str.repeat_string "-" 40]);
        [reflexivity | apply prints_print|].
      eapply prints_lift; [reflexivity|]. fold total.
      eapply (prints_seq_eq _ _ _ [tline]); [reflexivity | apply prints_print|].
      eapply prints_lift; [exact Es|].
      eapply (prints_seq_eq _ _ _ sl (al ++ rate_lines s e));
        [now rewrite app_assoc | apply Esl|].
      eapply (prints_seq_eq _ _ _ al (rate_lines s e)); [reflexivity | apply Eal|].
      eapply prints_lift; [rewrite success_rate_line_spec, Hs, He; reflexivity|].
      unfold rate_lines. destruct (0 <? s + e)%Z; [apply prints_print | apply prints_ret]. }
    destruct P as (lines & Fl & P). unfold prints in P.
    exists lines. eexists. split; [exact P|]. cbn [stdout]. split; [reflexivity|].
    split; [exact Fl|]. split; assumption.
Qed.

End StatsFacts.

(* ----------------------------------------------------------------- *)
(** ** The watch loop *)

Section WatchFacts.
Import Spec Py Sys ExecutionManager.
Local Open Scope string_scope.
Local Open Scope Z_scope.

Section Ids.
Context {rt : Runtime}.








End Ids.









Context {rt : Runtime}.







End WatchFacts.

(* ----------------------------------------------------------------- *)
(** ** The base URL *)

Section UrlFacts.
Local Open Scope string_scope.

Lemma rstrip_char_slashes c s :
  exists k, s = Str.rstrip_char c s ++ Str.repeat_char c k.
Proof.
  induction s as [|a s [k IH]]; cbn [Str.rstrip_char].
  - exists 0%nat. reflexivity.
  - destruct (Str.rstrip_char c s) as [|b t] eqn:E.
    + destruct (Ascii.eqb_spec a c) as [->|Hne].
      * exists (S k). cbn. now rewrite IH at 1.
      * exists k. cbn. now rewrite IH at 1.
    + exists k. cbn [append]. now rewrite IH at 1.
Qed.

Lemma rstrip_char_end c s t : Str.rstrip_char c s <> t ++ String c "".
Proof.
  revert t. induction s as [|a s IH]; intros t; cbn [Str.rstrip_char].
  - destruct t; discriminate.
  - destruct (Str.rstrip_char c s) as [|b u] eqn:E.
    + destruct (Ascii.eqb_spec a c) as [->|Hne].
      * destruct t; discriminate.
      * destruct t as [|x t]; cbn;
          [intros H; inversion H; congruence | destruct t; discriminate].
    + destruct t as [|x t]; cbn; [discriminate|].
      intros H. inversion H. apply (IH t). assumption.
Qed.

Lemma rstrip_char_app c s k :
  Str.rstrip_char c (s ++ Str.repeat_char c k) = Str.rstrip_char c s.
Proof.
  induction s as [|a s IH]; cbn [append Str.rstrip_char].
  - induction k as [|k IHk]; cbn [Str.repeat_char Str.rstrip_char]; [reflexivity|].
    rewrite IHk. now rewrite Ascii.eqb_refl.
  - now rewrite IH.
Qed.

(** X1.  The base URL of both clients is the configured URL without its
    trailing slashes: it is the same for the two scripts, the URL is the
    base URL followed by slashes only, the base URL does not end with a
    slash, and a URL with more trailing slashes gives the same client. *)
Theorem base_url_without_trailing_slashes url key :
  let m := ExecutionManager.init url key in
  let c := WorkflowCrud.init url key in
  ExecutionManager.base_url m = WorkflowCrud.base_url c /\
  (exists k, url = ExecutionManager.base_url m ++ Str.repeat_char "/" k) /\
  (forall t, ExecutionManager.base_url m <> t ++ "/") /\
  (forall k, ExecutionManager.init (url ++ Str.repeat_char "/" k) key = m /\
             WorkflowCrud.init (url ++ Str.repeat_char "/" k) key = c).
Proof.
  intros m c. split; [reflexivity|]. split; [apply rstrip_char_slashes|].
  split; [apply rstrip_char_end|].
  intros k. unfold m, c, ExecutionManager.init, WorkflowCrud.init.
  now rewrite rstrip_char_app.
Qed.

End UrlFacts.

(* ----------------------------------------------------------------- *)
(** ** Timestamps *)

Section TimestampFacts.
Import Spec Py Sys ExecutionManager.
Local Open Scope string_scope.










End TimestampFacts.

(* ----------------------------------------------------------------- *)
(** ** A stop before the start *)

Section NegativeDurationFacts.
Import Binary64 Spec Py Sys ExecutionManager.
Local Open Scope string_scope.
Local Open Scope Z_scope.

Lemma Fopp_involutive x : Fopp (Fopp x) = x.
Proof. destruct x as [n e]. unfold Fopp. cbn [Fnum Fexp]. now rewrite Z.opp_involutive. Qed.

Lemma round_opp n d : round (- n) d = Fopp (round n d).
Proof.
  unfold round.
  destruct (Z.eqb_spec n 0) as [->|Hn]; [reflexivity|].
  destruct (Z.eqb_spec (- n) 0); [lia|].
  destruct (Z.ltb_spec 0 n); destruct (Z.ltb_spec 0 (- n)); try lia.
  - now rewrite Z.opp_involutive.
  - now rewrite Fopp_involutive.
Qed.

Lemma round_scaled_opp n d e : round_scaled (- n) d e = Fopp (round_scaled n d e).
Proof.
  unfold round_scaled, scale.
  replace (- n * Z.sgn d * 2 ^ Z.max 0 e) with (- (n * Z.sgn d * 2 ^ Z.max 0 e)) by ring.
  apply round_opp.
Qed.

Lemma total_seconds_opp us : Datetime.total_seconds (- us) = Fopp (Datetime.total_seconds us).
Proof. apply round_scaled_opp. Qed.

Lemma Fmul_opp_l x y : Fmul (Fopp x) y = Fopp (Fmul x y).
Proof.
  unfold Fmul. cbn [Fopp Fnum Fexp].
  replace (- Fnum x * Fnum y) with (- (Fnum x * Fnum y)) by ring.
  apply round_scaled_opp.
Qed.

Lemma Ftrunc_opp x : Ftrunc (Fopp x) = - Ftrunc x.
Proof.
  unfold Ftrunc. cbn [Fopp Fnum Fexp]. destruct (Z.leb_spec 0 (Fexp x)); [ring|].
  apply Z.quot_opp_l. apply Z.pow_nonzero; lia.
Qed.

Lemma ms_of_opp us : ms_of (- us) = - ms_of us.
Proof. unfold ms_of. now rewrite total_seconds_opp, Fmul_opp_l, Ftrunc_opp. Qed.

Lemma ms_of_nonneg us : 0 <= us -> 0 <= ms_of us.
Proof.
  intros H. pose proof (ms_of_mono 0 us ltac:(lia)) as M.
  assert (E : ms_of 0 = 0) by (vm_compute; reflexivity). lia.
Qed.

Lemma render_negative us :
  us < 0 -> render_duration us = Str.of_Z (- ms_of (- us)) ++ "ms".
Proof.
  intros H. unfold render_duration.
  assert (L : Fltb (Datetime.total_seconds us) (exact_int 1) = true).
  { apply Fltb_lt. rewrite F2R_exact_int.
    replace us with (- - us) by lia. rewrite total_seconds_opp, F2R_opp.
    pose proof (total_seconds_nonneg (- us) ltac:(lia)). lra. }
  rewrite L. fold (ms_of us). replace us with (- - us) at 1 by lia.
  now rewrite ms_of_opp.
Qed.

Context {rt : Runtime}.

(** X3.  When the stop precedes the start, the difference is shown in
    milliseconds whatever its size, never in seconds or minutes: a number
    [m <= 0] followed by [ms], which is the difference truncated towards
    zero when it is above minus one second, and at most [-999] below. *)
Theorem format_duration_stop_before_start start stop a b us :
  start <> "" -> stop <> "" ->
  fromisoformat (Str.replace_char "Z" "+00:00" start) = Some a ->
  fromisoformat (Str.replace_char "Z" "+00:00" stop) = Some b ->
  Datetime.sub b a = Ok us -> us < 0 ->
  exists m,
    format_duration (VStr start) (VStr stop) = Str.of_Z m ++ "ms" /\
    m <= 0 /\
    (- 10 ^ 6 < us -> m = - (- us / 1000)) /\
    (us <= - 10 ^ 6 -> m <= - 999).
Proof.
  intros Hs Ht Pa Pb Hd Hn.
  rewrite (format_duration_parsed start stop a b us) by easy.
  exists (- ms_of (- us)). split; [now apply render_negative|].
  pose proof (ms_of_nonneg (- us) ltac:(lia)) as P.
  split; [lia|]. split.
  - intros H. rewrite ms_of_exact by lia. reflexivity.
  - intros H. pose proof (ms_of_mono 999999 (- us) ltac:(lia)) as M.
    assert (E : ms_of 999999 = 999) by (vm_compute; reflexivity). lia.
Qed.

End NegativeDurationFacts.

(* ----------------------------------------------------------------- *)
(** ** Answered requests of the client *)

Section ClientSuccessFacts.
Import Spec Py Sys WorkflowCrud.
Local Open Scope string_scope.
Context {rt : Runtime}.

Lemma _request_answered c method endpoint data w r body :
  http (sent w) (mkRequest method (base_url c ++ endpoint) (session_headers c) data 30)
    = Answered r ->
  is_error_status (status_code r) = false ->
  body_of r body ->
  _request c method endpoint data w =
  (Ok body,
   mkWorld (sent w ++ [mkRequest method (base_url c ++ endpoint) (session_headers c) data 30])
           (stdout w) (stderr w) (ticks w)).
Proof.
  intros H S B. unfold _request, try_except, bind, send. rewrite H.
  unfold raise_for_status. rewrite S. cbn [ret].
  destruct B as [[E ->]|[N J]].
  - rewrite E. reflexivity.
  - destruct (text r) eqn:T; [congruence|]. cbn [Str.is_empty negb].
    unfold lift, response_json. rewrite T, J. reflexivity.
Qed.

(** X4.  Every operation of the client but the webhook trigger, when its
    one request is answered with a status that is no error: it prints
    nothing and returns what [result_of] makes of the JSON body, an empty
    body standing for the empty object; so a list operation answered with
    an empty body returns the empty list. *)
Theorem call_answered c op w :
  is_trigger op = false ->
  exists method endpoint data,
    let rq := mkRequest method (base_url c ++ endpoint) (session_headers c) data 30 in
    forall r body,
      http (sent w) rq = Answered r ->
      is_error_status (status_code r) = false ->
      body_of r body ->
      call c op w =
      (result_of op body, mkWorld (sent w ++ [rq]) (stdout w) (stderr w) (ticks w)).
Proof.
  destruct op; cbn [is_trigger]; intros T; try discriminate;
    cbn [call result_of];
    unfold list_workflows, get_workflow, create_workflow, update_workflow,
      delete_workflow, activate_workflow, deactivate_workflow, list_executions,
      get_execution, delete_execution; cbv zeta;
    match goal with
    | |- context [_request c ?m ?e ?d] => exists m, e, d
    end; intros r body H S B;
    try (unfold bind at 1);
    rewrite (_request_answered c _ _ _ w r body H S B); reflexivity.
Qed.

End ClientSuccessFacts.

(* ----------------------------------------------------------------- *)
(** ** Deleting a workflow *)

Section DeleteFacts.
Import Spec Py Sys WorkflowCrud.
Local Open Scope string_scope.

Lemma lower_char_is_y c : Str.lower_char c = "y"%char <-> c = "y"%char \/ c = "Y"%char.
Proof.
  destruct c as [[] [] [] [] [] [] [] []]; vm_compute; split; intros H;
    try discriminate H; try (destruct H as [H|H]; discriminate H); auto.
Qed.

Lemma lower_is_y s : Str.lower s = "y" <-> s = "y" \/ s = "Y".
Proof.
  destruct s as [|c [|d s]]; cbn [Str.lower].
  - split; [discriminate | intros [H|H]; discriminate].
  - split.
    + intros H. inversion H as [H1]. apply lower_char_is_y in H1.
      destruct H1 as [->| ->]; auto.
    + intros [H|H]; inversion H; reflexivity.
  - split; [discriminate | intros [H|H]; discriminate].
Qed.

Context {rt : Runtime}.


(** X5.  [cmd_delete] without the force flag asks first, and deletes
    only when the answer is [y] or [Y]: any other answer prints
    [Cancelled] and sends nothing.  With the flag, or after such an
    answer, the one DELETE request is sent, and [Deleted workflow] is
    printed only when the request did not fail. *)
Theorem delete_asks_first c id (force : bool) answer w :
  let prompt := "Delete workflow " ++ id ++ "? [y/N] " in
  let rq := mkRequest "DELETE" (base_url c ++ "/api/v1/workflows/" ++ id)
                      (session_headers c) None 30 in
  let asked : list string := if force then [] else [prompt] in
  let outcome := cmd_delete c (mkDeleteArgs id force) answer w in
  (force = false -> answer <> "y" -> answer <> "Y" ->
   outcome =
   (Ok tt, mkWorld (sent w) (stdout w ++ [prompt; "Cancelled"]) (stderr w) (ticks w))) /\
  (force = true \/ answer = "y" \/ answer = "Y" ->
   sent (snd outcome) = (sent w ++ [rq])%list /\
   (forall r body,
      http (sent w) rq = Answered r -> is_error_status (status_code r) = false ->
      body_of r body ->
      outcome =
      (Ok tt, mkWorld (sent w ++ [rq])
                      (stdout w ++ asked ++ ["Deleted workflow " ++ id])
                      (stderr w) (ticks w))) /\
   (failed (http (sent w) rq) = true ->
    fst outcome = Raise (SystemExit 1) /\ stdout (snd outcome) = (stdout w ++ asked)%list)).
Proof.
  intros prompt rq asked outcome. split.
  - intros -> N1 N2. unfold outcome, cmd_delete. cbn [dl_force dl_id negb].
    unfold bind at 1. unfold bind at 1. unfold input at 1.
    destruct (String.eqb_spec (Str.lower answer) "y") as [E|E].
    + apply lower_is_y in E. tauto.
    + cbn [negb]. unfold bind, print, ret. cbn [sent stdout stderr ticks].
      now rewrite <- app_assoc.
  - intros H.
    set (w1 := mkWorld (sent w) (stdout w ++ asked) (stderr w) (ticks w)).
    assert (E : outcome =
      bind (delete_workflow c id) (fun _ => print ("Deleted workflow " ++ id)) w1).
    { unfold outcome, cmd_delete, w1, asked. cbn [dl_force dl_id].
      destruct force; cbn [negb].
      - unfold bind at 1, ret at 1. destruct w; cbn [sent stdout stderr ticks].
        now rewrite app_nil_r.
      - destruct H as [H|H]; [discriminate|].
        apply lower_is_y in H. apply String.eqb_eq in H.
        unfold bind at 1. unfold bind at 1. unfold input at 1. rewrite H.
        cbn [negb]. reflexivity. }
    assert (Rq : forall x, _request c "DELETE" ("/api/v1/workflows/" ++ id) None w1 = x ->
                 outcome =
                 (let '(r, w') := x in
                  match r with
                  | Ok _ => (Ok tt, mkWorld (sent w') (stdout w' ++ ["Deleted workflow " ++ id])
                                            (stderr w') (ticks w'))
                  | Raise e => (Raise e, w')
                  end)).
    { intros x <-. rewrite E. unfold delete_workflow, bind, ret, print.
      destruct (_request c "DELETE" ("/api/v1/workflows/" ++ id) None w1) as [[v|e] w'];
        reflexivity. }
    split; [|split].
    + rewrite (Rq _ eq_refl).
      pose proof (_request_sends c "DELETE" ("/api/v1/workflows/" ++ id) None w1) as S.
      destruct (_request c "DELETE" ("/api/v1/workflows/" ++ id) None w1) as [[v|e] w'];
        cbn [snd sent] in *; exact S.
    + intros r body Hr Hs Hb.
      rewrite (Rq _ (_request_answered c "DELETE" ("/api/v1/workflows/" ++ id) None w1 r body
                       Hr Hs Hb)).
      unfold w1. cbn [sent stdout stderr ticks]. now rewrite <- app_assoc.
    + intros F.
      rewrite (Rq _ (_request_failed c "DELETE" ("/api/v1/workflows/" ++ id) None w1 F)).
      split; reflexivity.
Qed.

End DeleteFacts.

(* ----------------------------------------------------------------- *)
(** ** Listings *)

Section ListingFacts.
Import Spec Py Sys.
Local Open Scope string_scope.

Lemma after_nil w : after w [] = w.
Proof. unfold after. destruct w; cbn. now rewrite app_nil_r. Qed.

Lemma after_app w l1 l2 : after (after w l1) l2 = after w (l1 ++ l2).
Proof. unfold after. cbn. now rewrite app_assoc. Qed.

(** A loop that formats and prints: every item that formats gives a
    line, and the first one that does not ends the loop with its
    exception, after the lines of the items before it. *)
Lemma for_each_lines {A} (f : A -> result string) l lines w :
  Forall2 (fun x line => f x = Ok line) l lines ->
  for_each l (fun x => line <- lift (f x) ;; print line)%cmd w = (Ok tt, after w lines).
Proof.
  intros H. revert w. induction H as [|x line l lines Hx Hl IH]; intros w.
  - cbn. now rewrite after_nil.
  - cbn [for_each]. unfold bind at 1. unfold bind at 1, lift at 1. rewrite Hx.
    unfold print at 1. fold (after w [line]). rewrite IH, after_app. reflexivity.
Qed.

Lemma for_each_stops {A} (f : A -> result string) good bad rest lines e w :
  Forall2 (fun x line => f x = Ok line) good lines ->
  f bad = Raise e ->
  for_each (good ++ bad :: rest) (fun x => line <- lift (f x) ;; print line)%cmd w
  = (Raise e, after w lines).
Proof.
  intros H. revert w. induction H as [|x line l lines Hx Hl IH]; intros w Hb.
  - cbn [app for_each]. unfold bind, lift. rewrite Hb. now rewrite after_nil.
  - cbn [app for_each]. unfold bind at 1. unfold bind at 1, lift at 1. rewrite Hx.
    unfold print at 1. fold (after w [line]). rewrite IH by exact Hb.
    now rewrite after_app.
Qed.

Context {rt : Runtime}.

(** X6.  The workflow listing prints one line per workflow, in the
    order of the server, and then the total; a workflow that cannot be
    formatted ends the command with its exception after the lines of the
    workflows before it, the total not being printed; with the JSON flag
    nothing is formatted and the list is printed as one JSON text. *)
Theorem workflows_listed c active w w1 wfs :
  WorkflowCrud.list_workflows c active 100 w = (Ok (VList wfs), w1) ->
  let formats wf line := WorkflowCrud.format_workflow wf false = Ok line in
  let total := Str.nl ++ "Total: " ++ Str.of_Z (Z.of_nat (List.length wfs)) ++ " workflows" in
  (forall lines,
     Forall2 formats wfs lines ->
     WorkflowCrud.cmd_list c (WorkflowCrud.mkListArgs active false) w
     = (Ok tt, after w1 (lines ++ [total]))) /\
  (forall good bad rest lines e,
     wfs = (good ++ bad :: rest)%list ->
     Forall2 formats good lines ->
     WorkflowCrud.format_workflow bad false = Raise e ->
     WorkflowCrud.cmd_list c (WorkflowCrud.mkListArgs active false) w
     = (Raise e, after w1 lines)) /\
  WorkflowCrud.cmd_list c (WorkflowCrud.mkListArgs active true) w
  = (Ok tt, after w1 [json_dumps 2 (VList wfs)]).
Proof.
  intros Hl formats total. unfold WorkflowCrud.cmd_list.
  cbn [WorkflowCrud.la_active WorkflowCrud.la_json].
  split; [|split].
  - intros lines F. unfold bind at 1. rewrite Hl.
    unfold bind at 1, lift at 1. cbn [iter]. unfold bind at 1.
    rewrite (for_each_lines _ wfs lines w1 F).
    unfold bind, lift, print, after. cbn [len sent stdout stderr ticks].
    now rewrite <- app_assoc.
  - intros good bad rest lines e -> F Hb. unfold bind at 1. rewrite Hl.
    unfold bind at 1, lift at 1. cbn [iter]. unfold bind at 1.
    rewrite (for_each_stops _ good bad rest lines e w1 F Hb). reflexivity.
  - unfold bind at 1. rewrite Hl. reflexivity.
Qed.

End ListingFacts.

(* ----------------------------------------------------------------- *)
(** ** The line of an execution *)

Section ExecutionLineFacts.
Import Spec Py Sys.
Local Open Scope string_scope.
Context {rt : Runtime}.


End ExecutionLineFacts.

(* ----------------------------------------------------------------- *)
(** ** The listing of executions of the client *)

Section ClientExecutionListFacts.
Import Spec Py Sys.
Local Open Scope string_scope.
Context {rt : Runtime}.

(** X8.  The execution listing of the workflow script prints one line
    per execution, in the order of the server, and then the total; an
    execution that cannot be formatted (one whose start time is [null],
    for instance) ends the command with its exception after the lines of
    the executions before it, the total not being printed. *)
Theorem client_executions_listed c args w w1 execs :
  WorkflowCrud.list_executions c (WorkflowCrud.xa_workflow args) (WorkflowCrud.xa_status args)
                               (WorkflowCrud.xa_limit args) w
  = (Ok (VList execs), w1) ->
  WorkflowCrud.xa_json args = false ->
  let formats ex line := WorkflowCrud.format_execution ex = Ok line in
  let total := Str.nl ++ "Total: " ++ Str.of_Z (Z.of_nat (List.length execs))
               ++ " executions" in
  (forall lines,
     Forall2 formats execs lines ->
     WorkflowCrud.cmd_executions c args w = (Ok tt, after w1 (lines ++ [total]))) /\
  (forall good bad rest lines e,
     execs = (good ++ bad :: rest)%list ->
     Forall2 formats good lines ->
     WorkflowCrud.format_execution bad = Raise e ->
     WorkflowCrud.cmd_executions c args w = (Raise e, after w1 lines)).
Proof.
  intros Hl Hj formats total. unfold WorkflowCrud.cmd_executions. rewrite Hj.
  split.
  - intros lines F. unfold bind at 1. rewrite Hl.
    unfold bind at 1, lift at 1. cbn [iter]. unfold bind at 1.
    rewrite (for_each_lines _ execs lines w1 F).
    unfold bind, lift, print, after. cbn [len sent stdout stderr ticks].
    now rewrite <- app_assoc.
  - intros good bad rest lines e -> F Hb. unfold bind at 1. rewrite Hl.
    unfold bind at 1, lift at 1. cbn [iter]. unfold bind at 1.
    rewrite (for_each_stops _ good bad rest lines e w1 F Hb). reflexivity.
Qed.

End ClientExecutionListFacts.

(* ----------------------------------------------------------------- *)
(** ** The entry point *)

Section MainFacts.
Import Spec Py Sys ExecutionManager.
Local Open Scope string_scope.
Context {rt : Runtime}.

Lemma _get_failed m endpoint w :
  let rq := mkRequest "GET" (base_url m ++ endpoint) (headers m) None 30 in
  failed (http (sent w) rq) = true ->
  exists resp,
    _get m endpoint w =
    (Raise (RequestException (failure_msg (rq_url rq) (http (sent w) rq)) resp),
     mkWorld (sent w ++ [rq]) (stdout w) (stderr w) (ticks w)).
Proof.
  intros rq F. unfold _get, bind, send. cbv beta. fold rq.
  destruct (http (sent w) rq) as [e|r]; cbn [failed] in F.
  - eexists. reflexivity.
  - unfold raise_for_status. rewrite F. eexists. reflexivity.
Qed.

Lemma list_executions_failed m wid st limit w :
  (forall rq, failed (http (sent w) rq) = true) ->
  exists rq resp,
    list_executions m wid st limit w =
    (Raise (RequestException (failure_msg (rq_url rq) (http (sent w) rq)) resp),
     mkWorld (sent w ++ [rq]) (stdout w) (stderr w) (ticks w))
    /\ rq_method rq = "GET" /\ rq_headers rq = headers m.
Proof.
  intros F. unfold list_executions. cbv zeta.
  match goal with |- context [_get m ?e] =>
    destruct (_get_failed m e w (F _)) as [resp E] end.
  eexists _, resp. unfold bind. rewrite E. repeat split.
Qed.

Lemma get_execution_failed m id w :
  (forall rq, failed (http (sent w) rq) = true) ->
  exists rq resp,
    get_execution m id w =
    (Raise (RequestException (failure_msg (rq_url rq) (http (sent w) rq)) resp),
     mkWorld (sent w ++ [rq]) (stdout w) (stderr w) (ticks w))
    /\ rq_method rq = "GET" /\ rq_headers rq = headers m.
Proof.
  intros F. unfold get_execution.
  match goal with |- context [_get m ?e] =>
    destruct (_get_failed m e w (F _)) as [resp E] end.
  eexists _, resp. rewrite E. repeat split.
Qed.

(** Every command starts with a fetch: when it fails, the command ends
    with its exception. *)
Lemma dispatch_failed m cmd w :
  interrupted_at_once cmd = false ->
  (forall rq, failed (http (sent w) rq) = true) ->
  exists rq resp,
    dispatch m cmd w =
    (Raise (RequestException (failure_msg (rq_url rq) (http (sent w) rq)) resp),
     mkWorld (sent w ++ [rq]) (stdout w ++ banner_of cmd) (stderr w) (ticks w))
    /\ rq_method rq = "GET" /\ rq_headers rq = headers m.
Proof.
  intros I F.
  destruct cmd as [a|a|a|a|a|a polls]; cbn [dispatch banner_of].
  - destruct (list_executions_failed m (la_workflow_id a) (la_status a) (la_limit a) w F)
      as (rq & resp & E & H).
    exists rq, resp. split; [|exact H]. unfold cmd_list. unfold bind at 1.
    rewrite E, app_nil_r. reflexivity.
  - destruct (get_execution_failed m (ga_id a) w F) as (rq & resp & E & H).
    exists rq, resp. split; [|exact H]. unfold cmd_get. unfold bind at 1.
    rewrite E, app_nil_r. reflexivity.
  - destruct (get_execution_failed m (da_id a) w F) as (rq & resp & E & H).
    exists rq, resp. split; [|exact H]. unfold cmd_debug. unfold bind at 1.
    rewrite E, app_nil_r. reflexivity.
  - destruct (list_executions_failed m None (Some "error") (ea_limit a) w F)
      as (rq & resp & E & H).
    exists rq, resp. split; [|exact H]. unfold cmd_errors. unfold bind at 1.
    rewrite E, app_nil_r. reflexivity.
  - destruct (list_executions_failed m (sa_workflow_id a) None 100 w F)
      as (rq & resp & E & H).
    exists rq, resp. split; [|exact H]. unfold cmd_stats. unfold bind at 1.
    rewrite E, app_nil_r. reflexivity.
  - destruct polls as [|n]; [discriminate|].
    set (w2 := mkWorld (sent w) (stdout w ++ watch_banner) (stderr w) (ticks w)).
    destruct (list_executions_failed m (wa_workflow_id a) None 10 w2 F)
      as (rq & resp & E & H).
    exists rq, resp. split; [|exact H].
    unfold cmd_watch, bind, print. cbn [sent stdout stderr ticks].
    rewrite <- app_assoc. cbn [app]. fold watch_banner. fold w2.
    cbn [watch_loop]. unfold bind at 1. unfold poll. unfold bind at 1.
    rewrite E. reflexivity.
Qed.

(** X9.  The ways [main] ends with exit status 1: with no subcommand,
    after the help text; with no API key, after a message on standard
    error and before any request; and, for every subcommand, when the
    server cannot be reached or answers with an error status, after the
    one request (sent with the key) and [API Error: <error>] on standard
    error. *)
Theorem main_exits help args w :
  (cli_command args = None ->
   main help args w = (Raise (SystemExit 1), after w [help])) /\
  (forall cmd,
     cli_command args = Some cmd -> cli_key args = "" ->
     main help args w =
     (Raise (SystemExit 1),
      mkWorld (sent w) (stdout w) (stderr w ++ ["Error: N8N_API_KEY not set"]) (ticks w))) /\
  (forall cmd,
     cli_command args = Some cmd -> cli_key args <> "" ->
     interrupted_at_once cmd = false ->
     (forall rq, failed (http (sent w) rq) = true) ->
     exists rq,
       main help args w =
       (Raise (SystemExit 1),
        mkWorld (sent w ++ [rq]) (stdout w ++ banner_of cmd)
                (stderr w ++ ["API Error: " ++ failure_msg (rq_url rq) (http (sent w) rq)])
                (ticks w))
       /\ rq_method rq = "GET"
       /\ In ("X-N8N-API-KEY", cli_key args) (rq_headers rq)).
Proof.
  split; [|split].
  - intros H. unfold main. rewrite H. reflexivity.
  - intros cmd H K. unfold main. rewrite H, K. reflexivity.
  - intros cmd H K I F. unfold main. rewrite H.
    destruct (cli_key args) as [|a k] eqn:Ek; [congruence|]. cbn [Str.is_empty].
    destruct (dispatch_failed (init (cli_url args) (String a k)) cmd w I F)
      as (rq & resp & E & Hm & Hh).
    exists rq. split; [|split; [exact Hm|]].
    + unfold run_handler, try_except. rewrite E. reflexivity.
    + rewrite Hh. left. reflexivity.
Qed.

End MainFacts.

(* ----------------------------------------------------------------- *)
(** ** Commands and the network *)

Section TameFacts.
Import Spec Py Sys ExecutionManager.
Local Open Scope string_scope.

Lemma tame_ret n {A} (a : A) : tame n (ret a).
Proof. intros w. cbn. repeat split. exists []. rewrite app_nil_r. split; [reflexivity|cbn;lia]. Qed.

Lemma tame_print n s : tame n (print s).
Proof. intros w. cbn. repeat split. exists []. rewrite app_nil_r. split; [reflexivity|cbn;lia]. Qed.

Lemma tame_lift n {A} (r : result A) : no_api_error r -> tame n (lift r).
Proof. intros H w. cbn. repeat split; [exact H|]. exists []. rewrite app_nil_r. split; [reflexivity|cbn;lia]. Qed.

Lemma tame_bind a b {A B} (c : M A) (k : A -> M B) :
  tame a c -> (forall x, tame b (k x)) -> tame (a + b) (bind c k).
Proof.
  intros Hc Hk w. unfold bind. destruct (Hc w) as (S1 & N1 & m1 & E1 & L1).
  destruct (c w) as [[x|e] w1]; cbn [fst snd] in *.
  - destruct (Hk x w1) as (S2 & N2 & m2 & E2 & L2).
    split; [congruence|]. split; [exact N2|].
    exists (m1 ++ m2)%list. rewrite E2, E1, <- app_assoc. split; [reflexivity|].
    rewrite length_app. lia.
  - split; [exact S1|]. split; [exact N1|]. exists m1. split; [exact E1|lia].
Qed.

Lemma tame_seq {A B} (c : M A) (k : A -> M B) :
  tame 0 c -> (forall x, tame 0 (k x)) -> tame 0 (bind c k).
Proof. apply (tame_bind 0 0). Qed.

Lemma tame_for_each {A} (l : list A) (body : A -> M unit) :
  (forall x, tame 0 (body x)) -> tame 0 (for_each l body).
Proof.
  intros H. induction l as [|x l IH]; cbn [for_each].
  - apply tame_ret.
  - apply tame_seq; [apply H | intros _; exact IH].
Qed.

Lemma plain_rbind {A B} (r : result A) (k : A -> result B) :
  no_api_error r -> (forall a, no_api_error (k a)) -> no_api_error (rbind r k).
Proof. destruct r as [a|e]; cbn; auto. Qed.

Lemma plain_get v k d : no_api_error (get v k d).
Proof. destruct v; exact I. Qed.

Lemma plain_getitem v k : no_api_error (getitem v k).
Proof. destruct v as [| | | | |d]; try exact I. cbn. destruct (lookup k d); exact I. Qed.

Lemma plain_first v : no_api_error (first v).
Proof. destruct v as [| | |[|]|[|]|]; exact I. Qed.

Lemma plain_len v : no_api_error (len v).
Proof. destruct v; exact I. Qed.

Lemma plain_iter v : no_api_error (iter v).
Proof. destruct v; exact I. Qed.

Lemma plain_contains k v : no_api_error (contains k v).
Proof. destruct v; exact I. Qed.

Lemma plain_items v : no_api_error (items v).
Proof. destruct v; exact I. Qed.

Lemma plain_ok {A} (a : A) : no_api_error (Ok a).
Proof. exact I. Qed.

Lemma plain_format_timestamp v : no_api_error (format_timestamp v).
Proof. unfold format_timestamp. destruct (negb (truthy v)); [exact I|]. destruct v; exact I. Qed.

Lemma plain_result_data v k d : no_api_error (result_data v k d).
Proof.
  unfold result_data. apply plain_rbind; [apply plain_get|]. intros a.
  apply plain_rbind; [apply plain_get|]. intros b. apply plain_get.
Qed.

Lemma plain_count_branches l : forall acc, no_api_error (count_branches l acc).
Proof.
  induction l as [|b l IH]; intros acc; cbn [count_branches]; [exact I|].
  destruct (truthy b); [|apply IH].
  apply plain_rbind; [apply plain_len | intros n; apply IH].
Qed.

Lemma plain_items_out v : no_api_error (items_out v).
Proof.
  unfold items_out. apply plain_rbind; [apply plain_get|]. intros d.
  apply plain_rbind; [apply plain_get|]. intros main.
  destruct (truthy main); [|exact I].
  apply plain_rbind; [apply plain_getitem|]. intros d'.
  apply plain_rbind; [apply plain_getitem|]. intros main'.
  apply plain_rbind; [apply plain_iter|]. intros bs. apply plain_count_branches.
Qed.

Lemma plain_node_times l : no_api_error (node_times l).
Proof.
  induction l as [|[name data] l IH]; cbn [node_times]; [exact I|].
  destruct (truthy data); [|exact IH].
  apply plain_rbind; [apply plain_first|]. intros a.
  apply plain_rbind; [apply plain_get|]. intros t.
  apply plain_rbind; [exact IH|]. intros tl. exact I.
Qed.

Context {rt : Runtime}.

Ltac plain :=
  first [ apply plain_get | apply plain_getitem | apply plain_first | apply plain_len
        | apply plain_iter | apply plain_contains | apply plain_items
        | apply plain_format_timestamp | apply plain_result_data
        | apply plain_items_out | apply plain_node_times | apply plain_ok ].

Ltac tame0 :=
  repeat first
    [ apply tame_ret
    | apply tame_print
    | apply tame_lift; plain
    | apply tame_seq; [|intros ?]
    | apply tame_for_each; intros ?
    | match goal with
      | |- tame 0 (if ?b then _ else _) => destruct b
      | |- tame 0 (match ?x with _ => _ end) => destruct x
      end ].

Lemma tame_print_samples branches : forall i, tame 0 (print_samples i branches).
Proof.
  induction branches as [|b l IH]; intros i; cbn [print_samples]; [apply tame_ret|].
  apply tame_seq; [|intros _; apply IH]. tame0.
Qed.

Lemma tame_report_node verbose e : tame 0 (report_node verbose e).
Proof.
  destruct e as [[name t] data]. unfold report_node.
  tame0; apply tame_print_samples.
Qed.

Lemma tame_report_nodes verbose rd : tame 0 (report_nodes verbose rd).
Proof. unfold report_nodes. tame0. apply tame_report_node. Qed.

Lemma tame_report_error verbose e : tame 0 (report_error verbose e).
Proof. unfold report_error. tame0. Qed.

(** The fetch of the workflow name, under its [except Exception]: one
    request, and whatever the answer the block ends normally. *)
Lemma tame_name_fetch m wf :
  tame 1 (try_except
            (workflow <- get_workflow m wf ;;
             name <- lift (get workflow "name" VNone) ;;
             print ("Workflow:    " ++ str name))%cmd
            is_Exception (fun _ => ret tt)).
Proof.
  intros w. unfold try_except, get_workflow, _get, bind, send. cbv beta.
  set (rq := mkRequest "GET" _ _ _ _).
  assert (G : forall (l : list request), exists more,
    (sent w ++ [rq] = sent w ++ more)%list /\ (List.length more <= 1)%nat).
  { intros _. exists [rq]. split; [reflexivity | cbn; lia]. }
  destruct (http (sent w) rq) as [e|r].
  - cbn. repeat split. apply (G []).
  - unfold raise_for_status. destruct (is_error_status (status_code r)).
    + cbn. repeat split. apply (G []).
    + unfold ret, lift, response_json. destruct (json_loads (text r)) as [v|e].
      * destruct v; cbn; repeat split; apply (G []).
      * cbn. repeat split. apply (G []).
Qed.

Lemma tame_debug_report m args execution :
  tame 1
    (print (Str.repeat_string "=" 80) ;;;
     id <- lift (getitem execution "id") ;;
     print ("EXECUTION DEBUG: " ++ str id) ;;;
     print (Str.repeat_string "=" 80) ;;;
     wf <- lift (get execution "workflowId" VNone) ;;
     print (Str.nl ++ "Workflow ID: " ++ str wf) ;;;
     status <- lift (get execution "status" VNone) ;;
     print ("Status:      " ++ str status) ;;;
     mode <- lift (get execution "mode" VNone) ;;
     print ("Mode:        " ++ str mode) ;;;
     started <- lift (get execution "startedAt" VNone) ;;
     started_s <- lift (format_timestamp started) ;;
     print ("Started:     " ++ started_s) ;;;
     stopped <- lift (get execution "stoppedAt" VNone) ;;
     stopped_s <- lift (format_timestamp stopped) ;;
     print ("Stopped:     " ++ stopped_s) ;;;
     print ("Duration:    " ++ format_duration started stopped) ;;;
     try_except
       (workflow <- get_workflow m wf ;;
        name <- lift (get workflow "name" VNone) ;;
        print ("Workflow:    " ++ str name))
       is_Exception (fun _ => ret tt) ;;;
     run_data <- lift (result_data execution "runData" (VDict [])) ;;
     report_nodes (da_verbose args) run_data ;;;
     last_node <- lift (result_data execution "lastNodeExecuted" VNone) ;;
     (if truthy last_node then print (Str.nl ++ "Last node executed: " ++ str last_node)
      else ret tt) ;;;
     error <- lift (result_data execution "error" VNone) ;;
     report_error (da_verbose args) error)%cmd.
Proof.
  repeat (apply (tame_bind 0 1);
          [ first [apply tame_print | apply tame_lift; plain] | intros ? ]).
  apply (tame_bind 1 0); [apply tame_name_fetch | intros _].
  tame0; first [apply tame_report_nodes | apply tame_report_error].
Qed.

(** X10.  Once the execution is fetched, [cmd_debug] never ends in an
    API error: whatever the answer to the fetch of the workflow name (no
    response, an error status, a body that is no JSON or no object),
    nothing is written on standard error and the command ends neither
    with a request exception nor with an exit, so that the handler of
    [main] leaves its outcome as it is; at most that one further request
    is sent. *)
Theorem debug_name_fetch_is_best_effort m args w r execution :
  let rq := mkRequest "GET"
              (base_url m ++ "/api/v1/executions/" ++ da_id args ++ "?includeData=true")
              (headers m) None 30 in
  http (sent w) rq = Answered r ->
  is_error_status (status_code r) = false ->
  json_loads (text r) = inl execution ->
  let outcome := cmd_debug m args w in
  run_handler (cmd_debug m args) w = outcome /\
  stderr (snd outcome) = stderr w /\
  no_api_error (fst outcome) /\
  exists more,
    sent (snd outcome) = (sent w ++ rq :: more)%list /\ (List.length more <= 1)%nat.
Proof.
  intros rq Hr Hs Hj outcome.
  set (w1 := mkWorld (sent w ++ [rq]) (stdout w) (stderr w) (ticks w)).
  assert (E : get_execution m (da_id args) w = (Ok execution, w1)).
  { unfold get_execution, _get, bind, send. cbv beta. fold rq. rewrite Hr.
    unfold raise_for_status. rewrite Hs. unfold ret, lift, response_json.
    now rewrite Hj. }
  destruct (tame_debug_report m args execution w1) as (S & N & more & Es & L).
  match type of S with stderr (snd (?c w1)) = _ => set (report := c) in * end.
  assert (O : outcome = report w1).
  { unfold outcome, cmd_debug. unfold bind at 1. rewrite E. reflexivity. }
  split; [|rewrite O; split; [exact S|split; [exact N|]]].
  - unfold run_handler, try_except. fold outcome. rewrite O in *.
    destruct (report w1) as [[[]|e] w']; try reflexivity.
    cbn [fst] in N. destruct e; try reflexivity; contradiction.
  - exists more. split; [|exact L]. rewrite Es. unfold w1. cbn [sent].
    now rewrite <- app_assoc.
Qed.


(** *** How many requests a command sends *)

Lemma plain_table_get t k d : no_api_error (table_get t k d).
Proof. unfold table_get. destruct (hashable k); exact I. Qed.

Lemma plain_format_left n v : no_api_error (format_left n v).
Proof. destruct v; exact I. Qed.

Lemma plain_slice_to n v : no_api_error (slice_to n v).
Proof. destruct v; exact I. Qed.

Lemma plain_int_div a b : no_api_error (int_div a b).
Proof. unfold int_div. destruct (b =? 0)%Z; exact I. Qed.

Lemma plain_float_div a b : no_api_error (float_div a b).
Proof. unfold float_div. destruct (Binary64.Fis_zero b); exact I. Qed.

Lemma plain_lt a b : no_api_error (Py.lt a b).
Proof. destruct a, b; exact I. Qed.

Ltac plain_rec :=
  repeat first
    [ exact I
    | apply plain_rbind; [|intros ?]
    | apply plain_get | apply plain_getitem | apply plain_first | apply plain_len
    | apply plain_iter | apply plain_format_timestamp | apply plain_table_get
    | apply plain_format_left | apply plain_slice_to | apply plain_int_div
    | apply plain_float_div | apply plain_lt | apply plain_result_data
    | match goal with
      | |- no_api_error (if ?b then _ else _) => destruct b
      | |- no_api_error (match ?x with _ => _ end) => destruct x
      end ].

Lemma plain_list_row ex : no_api_error (list_row ex).
Proof. unfold list_row. plain_rec. Qed.

Lemma plain_tally_one t ex : no_api_error (tally_one t ex).
Proof. unfold tally_one, count_status. plain_rec. Qed.

Lemma plain_tally_all execs : forall t, no_api_error (tally_all t execs).
Proof.
  induction execs as [|ex execs IH]; intros t; cbn [tally_all]; [exact I|].
  apply plain_rbind; [apply plain_tally_one | intros t'; apply IH].
Qed.

Lemma plain_insert_item x l : no_api_error (insert_item x l).
Proof.
  induction l as [|y l IH]; cbn [insert_item]; [exact I|].
  apply plain_rbind; [unfold item_lt; plain_rec|]. intros b.
  destruct b; [|exact I]. apply plain_rbind; [exact IH | intros r; exact I].
Qed.

Lemma plain_sorted_items l : no_api_error (sorted_items l).
Proof.
  induction l as [|x l IH]; cbn [sorted_items]; [exact I|].
  apply plain_rbind; [exact IH | intros r; apply plain_insert_item].
Qed.

Lemma plain_status_line total item : no_api_error (status_line total item).
Proof. unfold status_line. plain_rec. Qed.

Lemma plain_success_rate_line c : no_api_error (success_rate_line c).
Proof. unfold success_rate_line. plain_rec. Qed.

Lemma one_request {A B} (c : M A) (k : A -> M B) w rq :
  sent (snd (c w)) = (sent w ++ [rq])%list ->
  (forall x, tame 0 (k x)) ->
  sent (snd (bind c k w)) = (sent w ++ [rq])%list.
Proof.
  intros Hc Hk. unfold bind. destruct (c w) as [[x|e] w1]; cbn [snd] in *; [|exact Hc].
  destruct (Hk x w1) as (_ & _ & more & E & L).
  destruct more; [|cbn in L; lia]. rewrite E, app_nil_r. exact Hc.
Qed.

Lemma _get_sends m endpoint w :
  sent (snd (_get m endpoint w))
  = (sent w ++ [mkRequest "GET" (base_url m ++ endpoint) (headers m) None 30])%list.
Proof.
  unfold _get, bind, send. cbv beta.
  destruct (http (sent w) _) as [e|r]; [reflexivity|].
  unfold raise_for_status. destruct (is_error_status (status_code r)); [reflexivity|].
  unfold ret, lift. reflexivity.
Qed.

Lemma list_executions_sends m wid st limit w :
  exists rq, sent (snd (list_executions m wid st limit w)) = (sent w ++ [rq])%list
             /\ rq_headers rq = headers m.
Proof.
  unfold list_executions. cbv zeta. eexists. split.
  - apply one_request; [apply _get_sends|]. intros x. apply tame_lift, plain_get.
  - reflexivity.
Qed.

(** X11.  The requests of a command, whatever the server answers:
    [cmd_list], [cmd_get] and [cmd_stats] send exactly one request, and
    [cmd_debug] one request and at most one more; the first request
    carries the headers of the manager. *)
Theorem request_budget m w :
  (forall a, exists rq,
     sent (snd (cmd_list m a w)) = (sent w ++ [rq])%list /\ rq_headers rq = headers m) /\
  (forall a, exists rq,
     sent (snd (cmd_get m a w)) = (sent w ++ [rq])%list /\ rq_headers rq = headers m) /\
  (forall a, exists rq,
     sent (snd (cmd_stats m a w)) = (sent w ++ [rq])%list /\ rq_headers rq = headers m) /\
  (forall a, exists rq more,
     sent (snd (cmd_debug m a w)) = (sent w ++ rq :: more)%list /\
     rq_headers rq = headers m /\ (List.length more <= 1)%nat).
Proof.
  split; [|split; [|split]]; intros a.
  - destruct (list_executions_sends m (la_workflow_id a) (la_status a) (la_limit a) w)
      as (rq & E & H).
    exists rq. split; [|exact H]. unfold cmd_list. apply one_request; [exact E|].
    intros x. tame0. apply tame_lift, plain_list_row.
  - eexists. split.
    + unfold cmd_get, get_execution.
      apply one_request; [apply _get_sends|]. intros x. tame0.
      apply tame_lift, plain_slice_to.
    + reflexivity.
  - destruct (list_executions_sends m (sa_workflow_id a) None 100 w) as (rq & E & H).
    exists rq. split; [|exact H]. unfold cmd_stats. apply one_request; [exact E|].
    intros x. tame0; apply tame_lift;
      first [ apply plain_tally_all | apply plain_sorted_items | apply plain_status_line
            | apply plain_float_div | apply plain_success_rate_line ].
  - unfold cmd_debug, get_execution. unfold bind at 1.
    pose proof (_get_sends m ("/api/v1/executions/" ++ da_id a ++ "?includeData=true") w) as E.
    destruct (_get m ("/api/v1/executions/" ++ da_id a ++ "?includeData=true") w)
      as [[x|e] w1]; cbn [snd] in E.
    + destruct (tame_debug_report m a x w1) as (_ & _ & more & Es & L).
      eexists _, more. split; [rewrite Es, E, <- app_assoc; reflexivity|].
      split; [reflexivity|exact L].
    + eexists _, []. split; [exact E|]. split; [reflexivity | cbn; lia].
Qed.

End TameFacts.

(* ----------------------------------------------------------------- *)
(** ** The error section *)

Section ErrorSectionFacts.
Import Spec Py Sys ExecutionManager.
Local Open Scope string_scope.

Context {rt : Runtime}.

(** X12.  The error section of the debug report, for an error object
    [d]: the banner, the message (the whole object when it has no
    message), the node ([N/A] when it names none), the description when
    there is one, and, in verbose mode only, the stack trace when there is
    one.  Without an error object, the section is empty. *)
Theorem stack_trace_only_when_verbose d :
  d <> [] ->
  let error := VDict d in
  let description := field d "description" VNone in
  let stack := field d "stack" VNone in
  let base :=
    List.app
      [Str.nl ++ Str.repeat_string "=" 40; "ERROR DETAILS"; Str.repeat_string "=" 40;
       "Message: " ++ str (field d "message" (VStr (str error)));
       "Node: " ++ str (field d "node" (VStr "N/A"))]
      (if truthy description then ["Description: " ++ str description] else []) in
  (forall w, prints (report_error false error) w base) /\
  (forall w,
     prints (report_error true error) w
       (List.app base
          (if truthy stack then [Str.nl ++ "Stack trace:" ++ Str.nl ++ str stack] else []))) /\
  (forall verbose w,
     prints (report_error verbose VNone) w [] /\
     prints (report_error verbose (VDict [])) w []).
Proof.
  intros Hd error description stack base.
  assert (T : truthy error = true) by (destruct d; [congruence | reflexivity]).
  assert (P : forall verbose w,
    prints (report_error verbose error) w
      (List.app base
         (if truthy stack && verbose
          then [Str.nl ++ "Stack trace:" ++ Str.nl ++ str stack] else []))).
  { intros verbose w. unfold report_error. rewrite T.
    unfold base, description, stack, error, field, prints, bind, lift, print.
    cbn [get getitem sent stdout stderr ticks].
    destruct (lookup "description" d) as [dv|]; destruct (lookup "stack" d) as [sv|];
      cbn [truthy]; try destruct (truthy dv); try destruct (truthy sv);
      destruct verbose; cbn [andb ret sent stdout stderr ticks app];
      rewrite <- ?app_assoc, ?app_nil_r; reflexivity. }
  split; [|split].
  - intros w. specialize (P false w). rewrite andb_false_r, app_nil_r in P. exact P.
  - intros w. specialize (P true w). rewrite andb_true_r in P. exact P.
  - intros verbose w. split; apply prints_ret.
Qed.

End ErrorSectionFacts.

(* ----------------------------------------------------------------- *)
(** ** The block of a node *)

Section NodeBlockFacts.
Import Spec Py Sys ExecutionManager.
Local Open Scope string_scope.
Context {rt : Runtime}.

(** X13.  The block of one node in the debug report, not verbose, for an
    attempt with [n] output items: without an [error] key, the three
    lines of the node with the success mark; with an error object, the
    failure mark and a fourth line with the message of the error, or the
    whole object when it has no message; with an error that is a plain
    string, the three lines with the failure mark and then
    [AttributeError]. *)
Theorem node_block_marks_failure d name exec_time n :
  items_out (VDict d) = Ok n ->
  let node := (name, exec_time, VDict d) in
  (lookup "error" d = None ->
   forall w, prints (report_node false node) w (node_lines false name exec_time n)) /\
  (forall e,
     lookup "error" d = Some (VDict e) ->
     forall w,
       prints (report_node false node) w
         (List.app (node_lines true name exec_time n)
                   ["   ERROR: " ++ str (field e "message" (VDict e))])) /\
  (forall s,
     lookup "error" d = Some (VStr s) ->
     forall w,
       report_node false node w
       = (Raise AttributeError, after w (node_lines true name exec_time n))).
Proof.
  intros Hi node. unfold node, report_node.
  assert (C : contains "error" (VDict d)
              = Ok (match lookup "error" d with Some _ => true | None => false end))
    by reflexivity.
  split; [|split].
  - intros Hn w. unfold prints. unfold bind at 1, lift at 1. rewrite C, Hn.
    unfold bind at 1, lift at 1. rewrite Hi.
    unfold bind, print, ret, node_lines, node_header. cbn [sent stdout stderr ticks].
    rewrite <- !app_assoc. reflexivity.
  - intros e He w. unfold prints. unfold bind at 1, lift at 1. rewrite C, He.
    unfold bind at 1, lift at 1. rewrite Hi.
    unfold bind, print, ret, lift, node_lines, node_header.
    cbn [sent stdout stderr ticks getitem get]. rewrite He.
    cbn [sent stdout stderr ticks get]. unfold field.
    rewrite <- !app_assoc. reflexivity.
  - intros s He w. unfold bind at 1, lift at 1. rewrite C, He.
    unfold bind at 1, lift at 1. rewrite Hi.
    unfold bind, print, ret, lift, node_lines, node_header, after.
    cbn [sent stdout stderr ticks getitem get]. rewrite He.
    cbn [sent stdout stderr ticks get].
    rewrite <- !app_assoc. reflexivity.
Qed.

End NodeBlockFacts.

(* ----------------------------------------------------------------- *)
(** ** Branches of a node *)

Section BranchFacts.
Import Spec Py Sys ExecutionManager.
Local Open Scope string_scope.

Lemma count_branches_values branches : forall acc,
  count_branches (map branch_value branches) acc = Ok (acc + branches_total branches).
Proof.
  induction branches as [|b rest IH]; intros acc; cbn [map count_branches].
  - unfold branches_total; cbn. f_equal. lia.
  - destruct b as [[|x l]|]; cbn [branch_value truthy len rbind]; rewrite IH; f_equal;
      unfold branches_total; cbn [map fold_right List.length]; lia.
Qed.

(** X14.  The item count of an attempt tolerates what is missing: no
    [data], or a [data] without [main] or with a [null] one, counts 0
    items, and a branch that is [null] counts for nothing among the
    branches that are lists; a [data] that is [null] is not tolerated and
    raises [AttributeError]. *)
Theorem items_out_tolerant d :
  (lookup "data" d = None -> items_out (VDict d) = Ok 0) /\
  (forall dd,
     lookup "data" d = Some (VDict dd) ->
     lookup "main" dd = None \/ lookup "main" dd = Some VNone ->
     items_out (VDict d) = Ok 0) /\
  (forall dd branches,
     lookup "data" d = Some (VDict dd) ->
     lookup "main" dd = Some (VList (map branch_value branches)) ->
     items_out (VDict d) = Ok (branches_total branches)) /\
  (lookup "data" d = Some VNone -> items_out (VDict d) = Raise AttributeError).
Proof.
  unfold items_out. cbn [get rbind getitem]. repeat split.
  - intros ->. reflexivity.
  - intros dd -> [H|H]; cbn [get rbind]; rewrite H; reflexivity.
  - intros dd branches -> Hm. cbn [get rbind]. rewrite Hm.
    destruct branches as [|b rest]; [reflexivity|].
    cbn [map truthy rbind getitem iter]. rewrite Hm. cbn [rbind iter].
    apply (count_branches_values (b :: rest) 0).
  - intros ->. reflexivity.
Qed.

End BranchFacts.

(* ----------------------------------------------------------------- *)
(** ** The list of executions *)

Section ExecutionListFacts.
Import Spec Py Sys ExecutionManager.
Local Open Scope string_scope.
Context {rt : Runtime}.

Lemma list_row_ok ex : list_record ex -> exists row, list_row ex = Ok row.
Proof.
  intros (d & -> & (i & Hi & Si) & Hs & Hw & Ha & Ho).
  destruct (field_str d "status" "unknown" Hs) as [st Est].
  destruct (field_str d "workflowId" "N/A" Hw) as [wf Ewf].
  destruct (started_timestamp d Ha) as (ts & Ets & _).
  unfold list_row. rewrite !get_dict. cbn [rbind]. rewrite Est, Ewf, Ets.
  cbn [rbind table_get hashable getitem]. rewrite Hi. cbn [rbind].
  rewrite (format_left_str_or_int 10 i Si). cbn [rbind format_left].
  eexists. reflexivity.
Qed.

Lemma rows_exist execs :
  Forall list_record execs ->
  exists rows, Forall2 (fun ex row => list_row ex = Ok row) execs rows.
Proof.
  induction 1 as [|ex l H _ [rows IH]].
  - exists []. constructor.
  - destruct (list_row_ok ex H) as [row E]. exists (row :: rows). now constructor.
Qed.

(** X15.  The list of executions: the two header lines, one row per
    execution in the order of the server, and the total, which is the
    number of rows; every record of the expected shape gives a row, and a
    record that gives none (one without id, for instance) ends the command
    with its exception after the rows before it. *)
Theorem execution_list_printed m args w w1 execs :
  list_executions m (la_workflow_id args) (la_status args) (la_limit args) w
  = (Ok (VList execs), w1) ->
  let is_row ex row := list_row ex = Ok row in
  let total := Str.nl ++ "Total: " ++ Str.of_Z (Z.of_nat (List.length execs))
               ++ " executions" in
  (Forall list_record execs ->
   exists rows,
     Forall2 is_row execs rows /\
     cmd_list m args w = (Ok tt, after w1 (list_header ++ rows ++ [total]))) /\
  (forall good bad rest rows e,
     execs = (good ++ bad :: rest)%list ->
     Forall2 is_row good rows ->
     list_row bad = Raise e ->
     cmd_list m args w = (Raise e, after w1 (list_header ++ rows))).
Proof.
  intros Hl is_row total.
  assert (E : cmd_list m args w =
    bind (for_each execs (fun ex => row <- lift (list_row ex) ;; print row)%cmd)
         (fun _ => print total) (after w1 list_header)).
  { unfold cmd_list. unfold bind at 1. rewrite Hl.
    unfold bind at 1, print at 1. unfold bind at 1, print at 1.
    unfold bind at 1, lift at 1. cbn [iter sent stdout stderr ticks].
    unfold after, list_header. cbn [sent stdout stderr ticks].
    rewrite <- app_assoc. cbn [app].
    unfold bind at 1. unfold bind at 3. unfold lift. cbn [len]. reflexivity. }
  split.
  - intros F. destruct (rows_exist execs F) as [rows R]. exists rows.
    split; [exact R|]. rewrite E. unfold bind.
    rewrite (for_each_lines _ execs rows _ R). unfold print.
    rewrite !after_app. unfold after. cbn [sent stdout stderr ticks].
    now rewrite <- !app_assoc.
  - intros good bad rest rows e -> R Hb. rewrite E. unfold bind.
    rewrite (for_each_stops _ good bad rest rows e _ R Hb).
    now rewrite after_app.
Qed.

End ExecutionListFacts.

(* ----------------------------------------------------------------- *)
(** ** The statistics report *)

Section StatsReportFacts.
Import Binary64 Spec Py Sys ExecutionManager.
Local Open Scope string_scope.
Local Open Scope Z_scope.

Lemma str_keys_items c : str_keys c -> exists items, c = map as_item items.
Proof.
  induction 1 as [|[k n] c [s Hs] _ [items IH]].
  - exists []. reflexivity.
  - cbn in Hs. subst. exists ((s, n) :: items). reflexivity.
Qed.

Lemma eqb_VStr s k : Py.eqb (VStr s) k = true -> k = VStr s.
Proof.
  destruct k; cbn; try discriminate. intros H. apply String.eqb_eq in H. now subst.
Qed.

(** Counting keeps the keys distinct, the counts positive, and adds one
    to their sum. *)
Lemma counts_set_keys c s n :
  NoDup (map fst c) -> NoDup (map fst (counts_set c (VStr s) n)).
Proof.
  induction c as [|[k m] c IH]; cbn [counts_set map fst]; intros H.
  - repeat constructor. intros [].
  - inversion H as [|? ? Hk Hc]; subst.
    destruct (Py.eqb (VStr s) k) eqn:E; cbn [map fst]; [exact H|].
    constructor; [|now apply IH].
    intros Hin. apply Hk. clear - Hin E.
    induction c as [|[k' m'] c IH]; cbn [counts_set map fst In] in *.
    + destruct Hin as [Hin|[]]. subst k. cbn in E. now rewrite String.eqb_refl in E.
    + destruct (Py.eqb (VStr s) k') eqn:E'; cbn [map fst In] in Hin; [exact Hin|].
      destruct Hin as [Hin|Hin]; [now left | right; now apply IH].
Qed.

Lemma counts_set_positive c k n :
  0 < n -> Forall (fun kv => 0 < snd kv) c ->
  Forall (fun kv => 0 < snd kv) (counts_set c k n).
Proof.
  intros Hn. induction 1 as [|[k' m] c Hm Hc IH]; cbn [counts_set].
  - repeat constructor. exact Hn.
  - destruct (Py.eqb k k'); constructor; cbn; try assumption.
Qed.

Lemma counts_get_nonneg c k :
  Forall (fun kv => 0 < snd kv) c -> 0 <= counts_get c k 0.
Proof.
  induction 1 as [|[k' m] c Hm Hc IH]; cbn [counts_get]; [lia|].
  destruct (Py.eqb k k'); cbn in *; lia.
Qed.

Lemma counts_set_sum c k :
  sum_counts (map snd (counts_set c k (counts_get c k 0 + 1)))
  = sum_counts (map snd c) + 1.
Proof.
  induction c as [|[k' m] c IH]; cbn [counts_set counts_get map snd sum_counts fold_right].
  - lia.
  - destruct (Py.eqb k k'); cbn [map snd fold_right].
    + lia.
    + fold (sum_counts (map snd (counts_set c k (counts_get c k 0 + 1)))).
      fold (sum_counts (map snd c)). lia.
Qed.

Lemma counts_get_in c s n :
  NoDup (map fst c) -> In (VStr s, n) c -> counts_get c (VStr s) 0 = n.
Proof.
  induction c as [|[k m] c IH]; cbn [counts_get map fst In]; intros N H; [easy|].
  inversion N as [|? ? Hk Hc]; subst.
  destruct H as [H|H].
  - inversion H; subst. cbn. now rewrite String.eqb_refl.
  - destruct (Py.eqb (VStr s) k) eqn:E.
    + apply eqb_VStr in E. subst k. exfalso. apply Hk.
      change (VStr s) with (fst (VStr s, n)). now apply in_map.
    + now apply IH.
Qed.

Lemma counts_get_found c s n :
  counts_get c (VStr s) 0 = n -> 0 < n -> In (VStr s, n) c.
Proof.
  induction c as [|[k m] c IH]; cbn [counts_get In]; intros H Hn; [lia|].
  destruct (Py.eqb (VStr s) k) eqn:E.
  - apply eqb_VStr in E. subst. now left.
  - right. now apply IH.
Qed.

Lemma sum_counts_perm l1 l2 : Permutation l1 l2 -> sum_counts l1 = sum_counts l2.
Proof.
  induction 1; cbn [sum_counts fold_right] in *; try lia.
  unfold sum_counts in *. lia.
Qed.

Context {rt : Runtime}.

Lemma tally_all_keys execs : forall t,
  Forall stats_record execs ->
  NoDup (map fst (status_counts t)) ->
  Forall (fun kv => 0 < snd kv) (status_counts t) ->
  exists t',
    tally_all t execs = Ok t' /\
    NoDup (map fst (status_counts t')) /\
    Forall (fun kv => 0 < snd kv) (status_counts t') /\
    sum_counts (map snd (status_counts t'))
    = sum_counts (map snd (status_counts t)) + Z.of_nat (List.length execs).
Proof.
  induction execs as [|ex execs IH]; intros t Hf Hn Hp.
  - exists t. repeat split; try assumption. cbn. lia.
  - inversion Hf as [|? ? (d & -> & Hs) Hf']; subst.
    destruct (tally_one_status t d Hs) as (s0 & t1 & Es & E1 & C1).
    destruct (IH t1 Hf') as (t' & E' & N' & P' & S').
    { rewrite C1. now apply counts_set_keys. }
    { rewrite C1. apply counts_set_positive; [|exact Hp].
      pose proof (counts_get_nonneg (status_counts t) (VStr s0) Hp). lia. }
    exists t'. cbn [tally_all]. rewrite E1. cbn [rbind]. split; [exact E'|].
    split; [exact N'|]. split; [exact P'|].
    rewrite S', C1, counts_set_sum. cbn [List.length]. lia.
Qed.

(** [sorted] on items with string keys: a permutation, in the order of
    the keys. *)
Lemma insert_item_sorted x items :
  StronglySorted name_le (map fst items) ->
  exists r,
    insert_item (as_item x) (map as_item items) = Ok (map as_item r) /\
    Permutation r (x :: items) /\ StronglySorted name_le (map fst r).
Proof.
  induction items as [|y items IH]; cbn [map insert_item]; intros S.
  - exists [x]. split; [reflexivity|]. split; [reflexivity|]. repeat constructor.
  - inversion S as [|? ? S' Hy]; subst.
    unfold item_lt. cbn [as_item fst snd Py.eqb Py.lt].
    assert (Before : forall r, Permutation r (x :: items) ->
              name_le (fst y) (fst x) -> Forall (name_le (fst y)) (map fst r)).
    { intros r P L. apply Forall_forall. intros s Hs.
      apply in_map_iff in Hs. destruct Hs as (z & <- & Hz).
      apply (Permutation_in _ P) in Hz. destruct Hz as [<-|Hz]; [exact L|].
      rewrite Forall_forall in Hy. apply Hy. now apply in_map. }
    assert (After : name_le (fst x) (fst y) ->
              StronglySorted name_le (map fst (x :: y :: items))).
    { intros L. cbn [map]. constructor; [exact S|]. constructor; [exact L|].
      eapply Forall_impl; [|exact Hy]. intros a. now apply name_le_trans. }
    destruct (String.eqb_spec (fst y) (fst x)) as [Ek|Ek]; cbn [rbind].
    + assert (L : name_le (fst y) (fst x)).
      { rewrite Ek. unfold name_le, String.leb. now rewrite string_compare_refl. }
      assert (L' : name_le (fst x) (fst y)).
      { rewrite Ek. unfold name_le, String.leb. now rewrite string_compare_refl. }
      destruct (snd y <? snd x).
      * destruct (IH S') as (r & -> & P & Sr). cbn [rbind].
        exists (y :: r). split; [reflexivity|]. split.
        -- rewrite P. apply perm_swap.
        -- cbn [map]. constructor; [exact Sr | now apply Before].
      * exists (x :: y :: items). split; [reflexivity|]. split; [reflexivity|].
        now apply After.
    + destruct (String.ltb (fst y) (fst x)) eqn:El.
      * destruct (IH S') as (r & -> & P & Sr). cbn [rbind].
        exists (y :: r). split; [reflexivity|]. split.
        -- rewrite P. apply perm_swap.
        -- cbn [map]. constructor; [exact Sr|]. apply Before; [exact P|].
           now apply ltb_name_le.
      * exists (x :: y :: items). split; [reflexivity|]. split; [reflexivity|].
        apply After. now apply not_ltb_name_le.
Qed.

Lemma sorted_items_sorted items :
  exists r,
    sorted_items (map as_item items) = Ok (map as_item r) /\
    Permutation r items /\ StronglySorted name_le (map fst r).
Proof.
  induction items as [|x items (r & E & P & S)]; cbn [map sorted_items].
  - exists []. split; [reflexivity|]. split; constructor.
  - rewrite E. cbn [rbind]. destruct (insert_item_sorted x r S) as (r' & E' & P' & S').
    exists r'. split; [exact E'|]. split; [|exact S']. rewrite P'. now constructor.
Qed.

Lemma share_lines total items :
  total <> 0 ->
  Forall2 (fun item line => status_line total item = Ok line)
          (map as_item items) (map (share_line total) items).
Proof.
  intros Ht. induction items as [|x items IH]; cbn [map]; constructor; [|exact IH].
  unfold status_line, int_div. destruct (Z.eqb_spec total 0); [contradiction|].
  reflexivity.
Qed.

(** X16.  The report of [cmd_stats] for a non-empty list of executions:
    the title, the rule and the total, then one line per status that
    occurs, in the lexicographic order of the statuses, each with its
    count and its share of the total, then the average duration (one line
    at most) and the success rate.  The statuses of the lines are
    distinct, the count of a status is the number of executions that have
    it (a missing status counts as [unknown]), and the counts add up to
    the total. *)
Theorem stats_report m args w w1 execs :
  list_executions m (sa_workflow_id args) None 100 w = (Ok (VList execs), w1) ->
  execs <> [] ->
  Forall stats_record execs ->
  let total := Z.of_nat (List.length execs) in
  exists items average,
    cmd_stats m args w =
    (Ok tt,
     after w1 (["Execution Statistics"; Str.repeat_string "-" 40;
                "Total executions: " ++ Str.of_Z total]
               ++ map (share_line total) items ++ average
               ++ rate_lines (count_of "success" execs) (count_of "error" execs))) /\
    (List.length average <= 1)%nat /\
    StronglySorted name_le (map fst items) /\
    NoDup (map fst items) /\
    (forall s n, In (s, n) items <-> n = count_of s execs /\ 0 < n) /\
    sum_counts (map snd items) = total.
Proof.
  intros Hl Hne Hf total.
  destruct (tally_all_counts execs tally0 Hf ltac:(constructor)) as (t & Et & Kt & Ct).
  destruct (tally_all_keys execs tally0 Hf ltac:(constructor) ltac:(constructor))
    as (t2 & Et2 & Nt & Pt & St).
  rewrite Et in Et2. inversion Et2; subst t2. clear Et2.
  destruct (str_keys_items _ Kt) as [items0 Ei].
  destruct (sorted_items_sorted items0) as (items & Es & Perm & Sorted).
  rewrite <- Ei in Es.
  assert (Htot : total <> 0).
  { unfold total. destruct execs; [congruence|]. cbn [List.length]. lia. }
  assert (A : exists al, (List.length al <= 1)%nat /\ forall w0,
    prints (if (0 <? count_with_duration t)%Z then
              avg_duration <- lift (float_div (total_duration t)
                                              (of_int (count_with_duration t))) ;;
              print (Str.nl ++ "Average duration: " ++ Fmt.fixed 2 avg_duration ++ "s")
            else ret tt)%cmd w0 al).
  { destruct (0 <? count_with_duration t)%Z eqn:Ec.
    - eexists. split; [|intros w0; eapply prints_lift; [|apply prints_print]].
      2:{ unfold float_div. rewrite of_int_nonzero by (apply Z.ltb_lt; exact Ec).
          reflexivity. }
      cbn. lia.
    - exists []. split; [cbn; lia|]. intros w0. apply prints_ret. }
  destruct A as (al & Lal & Eal).
  exists items, al. split; [|split; [exact Lal|split; [exact Sorted|]]].
  - set (s := count_of "success" execs). set (e := count_of "error" execs).
    assert (Hs : counts_get (status_counts t) (VStr "success") 0 = s) by (rewrite Ct; reflexivity).
    assert (He : counts_get (status_counts t) (VStr "error") 0 = e) by (rewrite Ct; reflexivity).
    set (tline := "Total executions: " ++ Str.of_Z total).
    unfold cmd_stats. unfold bind at 1. rewrite Hl.
    assert (Tr : truthy (VList execs) = true) by (destruct execs; [congruence|reflexivity]).
    rewrite Tr. cbn [negb].
    change (after w1 ?l) with (mkWorld (sent w1) (stdout w1 ++ l) (stderr w1) (ticks w1)).
    apply (prints_lift _ execs); [reflexivity|].
    apply (prints_lift _ t); [exact Et|].
    eapply (prints_seq_eq _ _ _ ["Execution Statistics"]);
      [reflexivity | apply prints_print|].
    eapply (prints_seq_eq _ _ _ [Str.repeat_string "-" 40]);
      [reflexivity | apply prints_print|].
    eapply prints_lift; [reflexivity|]. fold total.
    eapply (prints_seq_eq _ _ _ [tline]); [reflexivity | apply prints_print|].
    eapply prints_lift; [exact Es|].
    eapply (prints_seq_eq _ _ _ (map (share_line total) items) (al ++ rate_lines s e));
      [reflexivity | |].
    { unfold prints. rewrite (for_each_lines _ _ _ _ (share_lines total items Htot)).
      reflexivity. }
    eapply (prints_seq_eq _ _ _ al (rate_lines s e)); [reflexivity | apply Eal|].
    eapply prints_lift; [rewrite success_rate_line_spec, Hs, He; reflexivity|].
    unfold rate_lines. destruct (0 <? s + e)%Z; [apply prints_print | apply prints_ret].
  - assert (Pk : Permutation (map as_item items) (status_counts t)).
    { rewrite Ei. now apply Permutation_map. }
    assert (Inj : forall l, map fst (map as_item l) = map VStr (map fst l)).
    { intros l. rewrite !map_map. reflexivity. }
    assert (Nd : NoDup (map fst items)).
    { assert (N1 : NoDup (map fst (map as_item items))).
      { eapply Permutation_NoDup; [|exact Nt]. symmetry. now apply Permutation_map. }
      rewrite Inj in N1. eapply NoDup_map_inv. exact N1. }
    split; [exact Nd|]. split.
    + intros s n. split.
      * intros H. assert (Hin : In (VStr s, n) (status_counts t)).
        { apply (Permutation_in _ Pk). change (VStr s, n) with (as_item (s, n)).
          now apply in_map. }
        pose proof (counts_get_in _ s n Nt Hin) as G. rewrite Ct in G. cbn in G.
        rewrite Forall_forall in Pt. specialize (Pt _ Hin). cbn in Pt. lia.
      * intros [-> Hn].
        assert (Hin : In (VStr s, count_of s execs) (status_counts t)).
        { apply counts_get_found; [|exact Hn]. rewrite Ct. reflexivity. }
        apply (Permutation_in _ (Permutation_sym Pk)) in Hin.
        apply in_map_iff in Hin. destruct Hin as ([s' n'] & E & Hin).
        inversion E; subst. exact Hin.
    + assert (Sm : sum_counts (map snd items) = sum_counts (map snd (status_counts t))).
      { rewrite <- (sum_counts_perm _ _ (Permutation_map snd Pk)).
        rewrite map_map. reflexivity. }
      rewrite Sm, St. cbn. fold total. lia.
Qed.

End StatsReportFacts.

(* ----------------------------------------------------------------- *)
(** ** A failed poll *)

Section WatchFailureFacts.
Import Spec Py Sys ExecutionManager.
Local Open Scope string_scope.
Context {rt : Runtime}.



End WatchFailureFacts.

(* ----------------------------------------------------------------- *)
(** ** The list of failed executions *)

Section FailureListFacts.
Import Spec Py Sys ExecutionManager.
Local Open Scope string_scope.
Context {rt : Runtime}.





End FailureListFacts.

(* ----------------------------------------------------------------- *)
(** ** The theorems at concrete inputs *)

Section Examples.
Import Spec Py Sys.
Local Open Scope string_scope.
Local Open Scope Z_scope.


(** Where the rendering rounds: 59.96 seconds are shown with the decimal
    of the next second, and, beyond [2 ^ 33] seconds, 315043200 minutes
    and 59.999999 seconds as the next minute.  A naive and an aware
    timestamp are shown as the placeholder. *)
Example format_duration_rounding :
  let rt := Scripted.runtime [] [] in
  ExecutionManager.format_duration
    (VStr "2024-01-01T00:00:00Z") (VStr "2024-01-01T00:00:59.960Z") = "60.0s" /\
  ExecutionManager.format_duration
    (VStr "0001-01-01T00:00:00") (VStr "0600-01-01T00:00:59.999999") = "315043201m 0s" /\
  ExecutionManager.format_duration
    (VStr "2024-01-01T00:00:00") (VStr "2024-01-01T00:00:59.960Z") = "N/A".
Proof. vm_compute. repeat split. Qed.

Lemma format_duration_placeholder_witness :
  let rt := Scripted.runtime [] [] in
  ExecutionManager.format_duration VNone (VStr "2024-01-01T00:02:05.500Z") = "N/A"
  /\ ExecutionManager.format_duration (VStr "2024-01-01T00:02:05.500Z") (VStr "soon") = "N/A".
Proof.
  intros rt. split.
  - apply (@format_duration_placeholder rt). left. reflexivity.
  - apply (@format_duration_placeholder rt). do 5 right. exists "soon".
    split; reflexivity.
Defined.



Lemma stats_success_rate_witness :
  let execs :=
    [VDict [("id", VStr "1"); ("status", VStr "success")];
     VDict [("id", VStr "2"); ("status", VStr "error")];
     VDict [("id", VStr "3"); ("status", VStr "waiting")];
     VDict [("id", VStr "4"); ("status", VStr "success")];
     VDict [("id", VStr "5")]] in
  let rt := Scripted.runtime [Scripted.ok_reply "page"]
                             [("page", VDict [("data", VList execs)])] in
  exists lines w',
    ExecutionManager.cmd_stats (ExecutionManager.init "http://n8n.local/" "secret")
                               (ExecutionManager.mkStatsArgs None) world0 = (Ok tt, w')
    /\ stdout w' = (lines ++ ["Success rate: 66.7%"])%list.
Proof.
  intros execs rt.
  assert (F : Forall stats_record execs).
  { repeat constructor; eexists; (split; [reflexivity|]);
      solve [ right; eexists; reflexivity | left; reflexivity ]. }
  destruct (@stats_success_rate rt (ExecutionManager.init "http://n8n.local/" "secret")
              (ExecutionManager.mkStatsArgs None) world0 _ execs eq_refl F)
    as (lines & w' & E & S & _ & _).
  exists lines, w'. split; [exact E | exact S].
Defined.





(** The debug report of an execution with the nodes B, A and C, on a
    server that answers the two fetches of the command. *)
Example debug_report_of_three_nodes :
  let item := VDict [("json", VDict [])] in
  let attempt t branches :=
    VDict [("executionTime", VInt t); ("data", VDict [("main", VList branches)])] in
  let execution :=
    VDict [("id", VStr "42"); ("workflowId", VStr "7"); ("status", VStr "success");
           ("mode", VStr "manual");
           ("startedAt", VStr "2024-01-01T00:00:00.000Z");
           ("stoppedAt", VStr "2024-01-01T00:00:01.250Z");
           ("data", VDict [("resultData", VDict [
              ("runData", VDict [
                 ("B", VList [attempt 3 [VList [item; item]; VList []; VList [item]]]);
                 ("A", VList [attempt 900 []]);
                 ("C", VList [attempt 1 [VList [item]]])]);
              ("lastNodeExecuted", VStr "C")])])] in
  let rt := Scripted.runtime
              [Scripted.ok_reply "execution"; Scripted.ok_reply "workflow"]
              [("execution", execution); ("workflow", VDict [("name", VStr "Daily sync")])] in
  ExecutionManager.cmd_debug (ExecutionManager.init "http://n8n.local/" "secret")
                             (ExecutionManager.mkDebugArgs "42" false) world0 =
  (Ok tt,
   mkWorld
     [mkRequest "GET" "http://n8n.local/api/v1/executions/42?includeData=true"
                [("X-N8N-API-KEY", "secret"); ("Content-Type", "application/json")] None 30;
      mkRequest "GET" "http://n8n.local/api/v1/workflows/7"
                [("X-N8N-API-KEY", "secret"); ("Content-Type", "application/json")] None 30]
     [Str.repeat_string "=" 80;
      "EXECUTION DEBUG: 42";
      Str.repeat_string "=" 80;
      Str.nl ++ "Workflow ID: 7";
      "Status:      success";
      "Mode:        manual";
      "Started:     2024-01-01 00:00:00";
      "Stopped:     2024-01-01 00:00:01";
      "Duration:    1.2s";
      "Workflow:    Daily sync";
      Str.nl ++ Str.repeat_string "-" 40;
      "NODE EXECUTION DETAILS";
      Str.repeat_string "-" 40;
      Str.nl ++ "✓ A"; "   Execution time: 900ms"; "   Items output: 0";
      Str.nl ++ "✓ B"; "   Execution time: 3ms"; "   Items output: 3";
      Str.nl ++ "✓ C"; "   Execution time: 1ms"; "   Items output: 1";
      Str.nl ++ "Last node executed: C"]
     [] 0).
Proof. vm_compute. reflexivity. Qed.


(** *** Further examples *)


Lemma format_duration_stop_before_start_witness :
  let rt := Scripted.runtime [] [] in
  ExecutionManager.format_duration
    (VStr "2024-01-01T00:00:00.500Z") (VStr "2024-01-01T00:00:00.000Z") = "-500ms".
Proof.
  intros rt.
  destruct (@format_duration_stop_before_start rt
              "2024-01-01T00:00:00.500Z" "2024-01-01T00:00:00.000Z"
              (Datetime.mkDatetime 63839664000500000 (Some 0))
              (Datetime.mkDatetime 63839664000000000 (Some 0))
              (-500000)
              ltac:(discriminate) ltac:(discriminate) eq_refl eq_refl eq_refl ltac:(lia))
    as (m & E & _ & X & _).
  rewrite E, (X ltac:(lia)). reflexivity.
Defined.

Lemma call_answered_witness :
  let rt := Scripted.runtime [Answered (mkResponse 204 "No Content" "")] [] in
  fst (WorkflowCrud.call (WorkflowCrud.init "http://n8n.local/" "secret")
                         (WorkflowCrud.ListWorkflows false 100) world0)
  = Ok (VList []).
Proof.
  intros rt.
  destruct (@call_answered rt (WorkflowCrud.init "http://n8n.local/" "secret")
              (WorkflowCrud.ListWorkflows false 100) world0 eq_refl)
    as (method & endpoint & data & H).
  rewrite (H (mkResponse 204 "No Content" "") (VDict []) eq_refl eq_refl
             (or_introl (conj eq_refl eq_refl))).
  reflexivity.
Defined.

Lemma delete_asks_first_witness :
  let rt := Scripted.runtime [] [] in
  WorkflowCrud.cmd_delete (WorkflowCrud.init "http://n8n.local/" "secret")
                          (WorkflowCrud.mkDeleteArgs "7" false) "n" world0
  = (Ok tt, mkWorld [] ["Delete workflow 7? [y/N] "; "Cancelled"] [] 0).
Proof.
  intros rt.
  exact (proj1 (@delete_asks_first rt (WorkflowCrud.init "http://n8n.local/" "secret")
                  "7" false "n" world0)
               eq_refl ltac:(discriminate) ltac:(discriminate)).
Defined.

Lemma workflows_listed_witness :
  let wfs := [VDict [("id", VStr "1"); ("name", VStr "Daily sync"); ("active", VBool true);
                     ("nodes", VList [VDict []; VDict []])];
              VDict [("id", VStr "2"); ("name", VStr "Backup")]] in
  let rt := Scripted.runtime [Scripted.ok_reply "page"]
                             [("page", VDict [("data", VList wfs)])] in
  stdout (snd (WorkflowCrud.cmd_list (WorkflowCrud.init "http://n8n.local/" "secret")
                                     (WorkflowCrud.mkListArgs false false) world0))
  = ["[1] ✓ Daily sync (2 nodes)"; "[2] ✗ Backup (0 nodes)";
     Str.nl ++ "Total: 2 workflows"].
Proof.
  intros wfs rt.
  rewrite (proj1 (@workflows_listed rt (WorkflowCrud.init "http://n8n.local/" "secret")
                    false world0 _ wfs eq_refl)
                 ["[1] ✓ Daily sync (2 nodes)"; "[2] ✗ Backup (0 nodes)"]
                 ltac:(repeat constructor)).
  reflexivity.
Defined.


Lemma client_executions_listed_witness :
  let good := VDict [("id", VInt 12); ("status", VStr "success");
                     ("startedAt", VStr "2024-01-01T10:20:30.000Z")] in
  let bad := VDict [("id", VInt 13); ("status", VStr "waiting"); ("startedAt", VNone)] in
  let rt := Scripted.runtime [Scripted.ok_reply "page"]
                             [("page", VDict [("data", VList [good; bad])])] in
  let out := WorkflowCrud.cmd_executions
               (WorkflowCrud.init "http://n8n.local/" "secret")
               (WorkflowCrud.mkExecutionsArgs None None 20 false) world0 in
  fst out = Raise TypeError /\
  stdout (snd out) = ["[12] ✓ success  workflow:N/A 2024-01-01 10:20:30"].
Proof.
  intros good bad rt out. unfold out.
  rewrite (proj2 (@client_executions_listed rt
                    (WorkflowCrud.init "http://n8n.local/" "secret")
                    (WorkflowCrud.mkExecutionsArgs None None 20 false) world0 _
                    [good; bad] eq_refl eq_refl)
                 [good] bad [] ["[12] ✓ success  workflow:N/A 2024-01-01 10:20:30"]
                 TypeError eq_refl ltac:(repeat constructor) eq_refl).
  split; reflexivity.
Defined.

Lemma main_exits_witness :
  let rt := Scripted.runtime [] [] in
  let stats := Some (ExecutionManager.CmdStats (ExecutionManager.mkStatsArgs None)) in
  ExecutionManager.main "usage" (ExecutionManager.mkCli "http://n8n.local" "" stats) world0
  = (Raise (SystemExit 1), mkWorld [] [] ["Error: N8N_API_KEY not set"] 0) /\
  exists rq,
    ExecutionManager.main "usage"
      (ExecutionManager.mkCli "http://n8n.local" "secret" stats) world0
    = (Raise (SystemExit 1),
       mkWorld [rq] [] ["API Error: " ++ failure_msg (rq_url rq) (http [] rq)] 0).
Proof.
  intros rt stats. split.
  - exact (proj1 (proj2 (@main_exits rt "usage"
                           (ExecutionManager.mkCli "http://n8n.local" "" stats) world0))
                 _ eq_refl eq_refl).
  - destruct (proj2 (proj2 (@main_exits rt "usage"
                              (ExecutionManager.mkCli "http://n8n.local" "secret" stats)
                              world0))
                    _ eq_refl ltac:(discriminate) eq_refl (fun rq => eq_refl))
      as (rq & E & _).
    exists rq. exact E.
Defined.

Lemma debug_name_fetch_is_best_effort_witness :
  let execution := VDict [("id", VStr "42"); ("workflowId", VStr "7");
                          ("status", VStr "success")] in
  let rt := Scripted.runtime [Scripted.ok_reply "execution"; http_500]
                             [("execution", execution)] in
  let out := ExecutionManager.run_handler
               (ExecutionManager.cmd_debug
                  (ExecutionManager.init "http://n8n.local/" "secret")
                  (ExecutionManager.mkDebugArgs "42" false)) world0 in
  stderr (snd out) = [] /\ no_api_error (fst out).
Proof.
  intros execution rt out.
  destruct (@debug_name_fetch_is_best_effort rt
              (ExecutionManager.init "http://n8n.local/" "secret")
              (ExecutionManager.mkDebugArgs "42" false) world0
              (mkResponse 200 "OK" "execution") execution eq_refl eq_refl eq_refl)
    as (R & S & N & _).
  unfold out. rewrite R. split; [exact S | exact N].
Defined.

Lemma stack_trace_only_when_verbose_witness :
  let rt := Scripted.runtime [] [] in
  let error := VDict [("message", VStr "boom"); ("stack", VStr "at line 1")] in
  let base := [Str.nl ++ Str.repeat_string "=" 40; "ERROR DETAILS";
               Str.repeat_string "=" 40; "Message: boom"; "Node: N/A"] in
  stdout (snd (ExecutionManager.report_error false error world0)) = base /\
  stdout (snd (ExecutionManager.report_error true error world0))
  = List.app base [Str.nl ++ "Stack trace:" ++ Str.nl ++ "at line 1"].
Proof.
  intros rt error base.
  destruct (@stack_trace_only_when_verbose rt
              [("message", VStr "boom"); ("stack", VStr "at line 1")]
              ltac:(discriminate)) as (Q & V & _).
  pose proof (Q world0) as E1. pose proof (V world0) as E2.
  unfold prints in E1, E2. unfold error. rewrite E1, E2. split; reflexivity.
Defined.

Lemma node_block_marks_failure_witness :
  let rt := Scripted.runtime [] [] in
  let attempt := VDict [("executionTime", VInt 5);
                        ("error", VDict [("message", VStr "boom")])] in
  stdout (snd (ExecutionManager.report_node false ("HTTP", VInt 5, attempt) world0))
  = [Str.nl ++ "✗ HTTP"; "   Execution time: 5ms"; "   Items output: 0";
     "   ERROR: boom"].
Proof.
  intros rt attempt.
  pose proof (proj1 (proj2 (@node_block_marks_failure rt
                [("executionTime", VInt 5); ("error", VDict [("message", VStr "boom")])]
                "HTTP" (VInt 5) 0 eq_refl))
              [("message", VStr "boom")] eq_refl world0) as E.
  unfold prints in E. unfold attempt. rewrite E. reflexivity.
Defined.

Lemma execution_list_printed_witness :
  let execs := [VDict [("id", VInt 5); ("status", VStr "success")];
                VDict [("id", VInt 6)]] in
  let rt := Scripted.runtime [Scripted.ok_reply "page"]
                             [("page", VDict [("data", VList execs)])] in
  exists rows,
    List.length rows = 2%nat /\
    stdout (snd (ExecutionManager.cmd_list
                   (ExecutionManager.init "http://n8n.local/" "secret")
                   (ExecutionManager.mkListArgs None None 20) world0))
    = List.app list_header (List.app rows [Str.nl ++ "Total: 2 executions"]).
Proof.
  intros execs rt.
  assert (F : Forall list_record execs).
  { repeat constructor; eexists; (split; [reflexivity|]);
      (split; [eexists; split; [reflexivity | right; eexists; reflexivity]|]);
      repeat split;
      solve [ left; reflexivity | right; eexists; reflexivity ]. }
  destruct (proj1 (@execution_list_printed rt
                     (ExecutionManager.init "http://n8n.local/" "secret")
                     (ExecutionManager.mkListArgs None None 20) world0 _ execs eq_refl) F)
    as (rows & R & E).
  exists rows. split.
  - apply Forall2_length in R. symmetry. exact R.
  - rewrite E. reflexivity.
Defined.

Lemma stats_report_witness :
  let execs :=
    [VDict [("id", VStr "1"); ("status", VStr "success")];
     VDict [("id", VStr "2"); ("status", VStr "error")];
     VDict [("id", VStr "3"); ("status", VStr "waiting")];
     VDict [("id", VStr "4"); ("status", VStr "success")];
     VDict [("id", VStr "5")]] in
  let rt := Scripted.runtime [Scripted.ok_reply "page"]
                             [("page", VDict [("data", VList execs)])] in
  exists items average,
    stdout (snd (ExecutionManager.cmd_stats
                   (ExecutionManager.init "http://n8n.local/" "secret")
                   (ExecutionManager.mkStatsArgs None) world0))
    = List.app ["Execution Statistics"; Str.repeat_string "-" 40; "Total executions: 5"]
        (List.app (map (share_line 5) items)
           (List.app average ["Success rate: 66.7%"])) /\
    sum_counts (map snd items) = 5 /\
    (In ("success", 2) items /\ In ("unknown", 1) items).
Proof.
  intros execs rt.
  assert (F : Forall stats_record execs).
  { repeat constructor; eexists; (split; [reflexivity|]);
      solve [ right; eexists; reflexivity | left; reflexivity ]. }
  destruct (@stats_report rt (ExecutionManager.init "http://n8n.local/" "secret")
              (ExecutionManager.mkStatsArgs None) world0 _ execs eq_refl
              ltac:(discriminate) F)
    as (items & average & E & _ & _ & _ & I & S).
  exists items, average. split; [rewrite E; reflexivity|]. split; [exact S|].
  split; apply I; split; reflexivity.
Defined.



End Examples.
